(** * fit_share: denormalised counters and soft-delete toggles

    A shallow embedding of the two storage classes of the repository,
    [MemStorage] (server/storage.ts) and [PostgresStorage] (the relational
    model file), together with the properties of the like / follow /
    comment-like operations that the specification states about them. *)

From Stdlib Require Import List ZArith Bool Ascii String Lia Arith PeanoNat.
From Stdlib Require Import Sorted Permutation.
Import ListNotations.
Open Scope string_scope.
Open Scope list_scope.
Open Scope nat_scope.

Set Implicit Arguments.

(** ** JavaScript values used by both classes *)

(** A counter column has the TypeScript type [number | null].  The numbers
    are whole and stay far from the bounds of the integer column and of
    exact JavaScript arithmetic, so they are unbounded integers here. *)
Definition counter := option Z.

(** [c || 0] on a counter: [null] and [0] are falsy, every other number is
    returned as it is. *)
Definition or0 (c : counter) : Z :=
  match c with
  | Some z => if (z =? 0)%Z then 0%Z else z
  | None => 0%Z
  end.

(** [c && c > 0] on a counter, the guard of the decrementing methods. *)
Definition positive_counter (c : counter) : bool :=
  match c with
  | Some z => negb (z =? 0)%Z && (0 <? z)%Z
  | None => false
  end.

(** [c + d] for a counter [c] and a number [d]: [null] converts to [0]. *)
Definition js_add (c : counter) (d : Z) : Z :=
  match c with
  | Some z => (z + d)%Z
  | None => d
  end.

(** [s || alt] for a string [s]: the empty string is falsy. *)
Definition str_or (s : string) (alt : option string) : option string :=
  if String.eqb s EmptyString then alt else Some s.

(** [x || null] for an optional string argument. *)
Definition opt_str_or_null (x : option string) : option string :=
  match x with
  | Some s => str_or s None
  | None => None
  end.

(** [x || null] for an optional numeric argument ([0] is falsy). *)
Definition opt_num_or_null (x : option nat) : option nat :=
  match x with
  | Some 0 => None
  | Some n => Some n
  | None => None
  end.

(** What can be thrown: [new Error(msg)], the [TypeError] of a property read
    on [undefined], and an error reported by the database. *)
Inductive exn : Type :=
| Error (msg : string)
| TypeError
| DbError.

(** What a method call did: it returned a value, or it threw. *)
Inductive result (A : Type) : Type :=
| Returned (a : A)
| Thrown (e : exn).
Arguments Returned {A} a.
Arguments Thrown {A} e.

(** ** The JavaScript [Map] with numeric keys

    Entries are kept in insertion order; [set] on a key that is present
    replaces the value in place, and [delete] removes the entry. *)
Module JsMap.
Section JsMap.
Variable V : Type.

Definition t := list (nat * V).

Definition empty : t := [].

Fixpoint get (m : t) (k : nat) : option V :=
  match m with
  | [] => None
  | (k', v) :: m' => if k' =? k then Some v else get m' k
  end.

Fixpoint set (m : t) (k : nat) (v : V) : t :=
  match m with
  | [] => [(k, v)]
  | (k', v') :: m' =>
      if k' =? k then (k', v) :: m' else (k', v') :: set m' k v
  end.

Definition delete (m : t) (k : nat) : t :=
  filter (fun e => negb (fst e =? k)) m.

Definition values (m : t) : list V := map snd m.

Definition entries (m : t) : list (nat * V) := m.

Definition keys (m : t) : list nat := map fst m.
End JsMap.
Arguments empty {V}.
End JsMap.

(** ** [Array.prototype.sort] with a comparator

    The sort is stable, and for a consistent comparator its result is
    determined: [x] ends up after [y] when [compare x y > 0], and elements
    that compare equal keep their order.  Insertion from the right computes
    that result. *)
Section JsSort.
Variable A : Type.
Variable compare : A -> A -> Z.

Fixpoint sort_insert (x : A) (l : list A) : list A :=
  match l with
  | [] => [x]
  | y :: r => if (0 <? compare x y)%Z then y :: sort_insert x r else x :: l
  end.

Definition js_sort (l : list A) : list A := fold_right sort_insert [] l.
End JsSort.

(** ** MemStorage (server/storage.ts) *)
Module Mem.

Record User := mkUser {
  u_id : nat;
  u_username : string;
  u_password : string;
  u_displayName : option string;
  u_bio : option string;
  u_avatarUrl : option string;
  u_followerCount : counter
}.

Record Photo := mkPhoto {
  p_id : nat;
  p_userId : nat;
  p_imageUrl : string;
  p_caption : option string;
  p_likeCount : counter;
  p_commentCount : counter;
  p_createdAt : Z
}.

Record Comment := mkComment {
  c_id : nat;
  c_userId : nat;
  c_photoId : nat;
  c_content : string;
  c_likeCount : counter;
  c_createdAt : Z
}.

Record Follow := mkFollow {
  f_id : nat;
  f_followerId : nat;
  f_followingId : nat
}.

Record Like := mkLike {
  l_id : nat;
  l_userId : nat;
  l_photoId : nat
}.

Record CommentLike := mkCommentLike {
  cl_id : nat;
  cl_userId : nat;
  cl_commentId : nat
}.

Record Notification := mkNotification {
  n_id : nat;
  n_userId : nat;
  n_actorId : nat;
  n_type : string;
  n_photoId : option nat;
  n_commentId : option nat;
  n_read : bool;
  n_createdAt : Z
}.

(** The private fields of the class (the session store is an external
    collaborator and is left out). *)
Record MemStorage := mkMemStorage {
  users : JsMap.t User;
  photos : JsMap.t Photo;
  follows : JsMap.t Follow;
  likes : JsMap.t Like;
  comments : JsMap.t Comment;
  commentLikes : JsMap.t CommentLike;
  notifications : JsMap.t Notification;
  currentId : nat;
  currentPhotoId : nat;
  currentCommentId : nat;
  currentFollowId : nat;
  currentNotificationId : nat
}.

(** [constructor()] *)
Definition constructor : MemStorage :=
  mkMemStorage JsMap.empty JsMap.empty JsMap.empty JsMap.empty
               JsMap.empty JsMap.empty JsMap.empty 1 1 1 1 1.

(** Field assignments on objects and on [this]. *)
Definition with_followerCount (u : User) (c : counter) : User :=
  mkUser (u_id u) (u_username u) (u_password u) (u_displayName u)
         (u_bio u) (u_avatarUrl u) c.

Definition with_p_likeCount (p : Photo) (c : counter) : Photo :=
  mkPhoto (p_id p) (p_userId p) (p_imageUrl p) (p_caption p) c
          (p_commentCount p) (p_createdAt p).

Definition with_commentCount (p : Photo) (c : counter) : Photo :=
  mkPhoto (p_id p) (p_userId p) (p_imageUrl p) (p_caption p)
          (p_likeCount p) c (p_createdAt p).

Definition with_c_likeCount (c : Comment) (n : counter) : Comment :=
  mkComment (c_id c) (c_userId c) (c_photoId c) (c_content c) n
            (c_createdAt c).

Definition with_read (n : Notification) (b : bool) : Notification :=
  mkNotification (n_id n) (n_userId n) (n_actorId n) (n_type n)
                 (n_photoId n) (n_commentId n) b (n_createdAt n).

Definition set_users (s : MemStorage) (m : JsMap.t User) : MemStorage :=
  mkMemStorage m (photos s) (follows s) (likes s) (comments s)
    (commentLikes s) (notifications s) (currentId s) (currentPhotoId s)
    (currentCommentId s) (currentFollowId s) (currentNotificationId s).

Definition set_photos (s : MemStorage) (m : JsMap.t Photo) : MemStorage :=
  mkMemStorage (users s) m (follows s) (likes s) (comments s)
    (commentLikes s) (notifications s) (currentId s) (currentPhotoId s)
    (currentCommentId s) (currentFollowId s) (currentNotificationId s).

Definition set_follows (s : MemStorage) (m : JsMap.t Follow) : MemStorage :=
  mkMemStorage (users s) (photos s) m (likes s) (comments s)
    (commentLikes s) (notifications s) (currentId s) (currentPhotoId s)
    (currentCommentId s) (currentFollowId s) (currentNotificationId s).

Definition set_comments (s : MemStorage) (m : JsMap.t Comment) : MemStorage :=
  mkMemStorage (users s) (photos s) (follows s) (likes s) m
    (commentLikes s) (notifications s) (currentId s) (currentPhotoId s)
    (currentCommentId s) (currentFollowId s) (currentNotificationId s).

Definition set_notifications (s : MemStorage) (m : JsMap.t Notification)
  : MemStorage :=
  mkMemStorage (users s) (photos s) (follows s) (likes s) (comments s)
    (commentLikes s) m (currentId s) (currentPhotoId s)
    (currentCommentId s) (currentFollowId s) (currentNotificationId s).

Definition set_currentId (s : MemStorage) (n : nat) : MemStorage :=
  mkMemStorage (users s) (photos s) (follows s) (likes s) (comments s)
    (commentLikes s) (notifications s) n (currentPhotoId s)
    (currentCommentId s) (currentFollowId s) (currentNotificationId s).

Definition set_currentPhotoId (s : MemStorage) (n : nat) : MemStorage :=
  mkMemStorage (users s) (photos s) (follows s) (likes s) (comments s)
    (commentLikes s) (notifications s) (currentId s) n
    (currentCommentId s) (currentFollowId s) (currentNotificationId s).

Definition set_currentCommentId (s : MemStorage) (n : nat) : MemStorage :=
  mkMemStorage (users s) (photos s) (follows s) (likes s) (comments s)
    (commentLikes s) (notifications s) (currentId s) (currentPhotoId s)
    n (currentFollowId s) (currentNotificationId s).

Definition set_currentFollowId (s : MemStorage) (n : nat) : MemStorage :=
  mkMemStorage (users s) (photos s) (follows s) (likes s) (comments s)
    (commentLikes s) (notifications s) (currentId s) (currentPhotoId s)
    (currentCommentId s) n (currentNotificationId s).

Definition set_currentNotificationId (s : MemStorage) (n : nat)
  : MemStorage :=
  mkMemStorage (users s) (photos s) (follows s) (likes s) (comments s)
    (commentLikes s) (notifications s) (currentId s) (currentPhotoId s)
    (currentCommentId s) (currentFollowId s) n.

(** [ids.map(id => this.users.get(id)).filter(user => user !== undefined)] *)
Definition lookup_users (s : MemStorage) (ids : list nat) : list User :=
  flat_map (fun id => match JsMap.get (users s) id with
                      | Some u => [u]
                      | None => []
                      end) ids.

Definition getUser (s : MemStorage) (id : nat) : option User :=
  JsMap.get (users s) id.

Definition getUserByUsername (s : MemStorage) (username : string)
  : option User :=
  find (fun user => String.eqb (u_username user) username)
       (JsMap.values (users s)).

Definition createUser (s : MemStorage) (username password : string)
  : User * MemStorage :=
  let id := currentId s in
  let s1 := set_currentId s (id + 1) in
  let user := mkUser id username password None None None (Some 0%Z) in
  (user, set_users s1 (JsMap.set (users s1) id user)).

Definition updateUserProfile (s : MemStorage) (userId : nat)
    (bio avatarUrl displayName : string) : result User * MemStorage :=
  match JsMap.get (users s) userId with
  | None => (Thrown (Error "User not found"), s)
  | Some user =>
      let updatedUser :=
        mkUser (u_id user) (u_username user) (u_password user)
               (str_or displayName (u_displayName user))
               (str_or bio (u_bio user))
               (str_or avatarUrl (u_avatarUrl user))
               (u_followerCount user) in
      (Returned updatedUser,
       set_users s (JsMap.set (users s) userId updatedUser))
  end.

Definition isFollowing (s : MemStorage) (followerId followingId : nat)
  : bool :=
  existsb (fun follow => (f_followerId follow =? followerId)
                         && (f_followingId follow =? followingId))
          (JsMap.values (follows s)).

Definition getFollowers (s : MemStorage) (userId : nat) : list User :=
  let followerIds :=
    map f_followerId
        (filter (fun follow => f_followingId follow =? userId)
                (JsMap.values (follows s))) in
  lookup_users s followerIds.

Definition getLikedUsers (s : MemStorage) (photoId : nat) : list User :=
  let userIds :=
    map l_userId
        (filter (fun like => l_photoId like =? photoId)
                (JsMap.values (likes s))) in
  lookup_users s userIds.

(** [new Date()] is read from the environment: [now]. *)
Definition createPhoto (s : MemStorage) (now : Z) (userId : nat)
    (imageUrl : string) (caption : option string) : Photo * MemStorage :=
  let id := currentPhotoId s in
  let s1 := set_currentPhotoId s (id + 1) in
  let photo := mkPhoto id userId imageUrl (opt_str_or_null caption)
                       (Some 0%Z) (Some 0%Z) now in
  (photo, set_photos s1 (JsMap.set (photos s1) id photo)).

Definition likePhoto (s : MemStorage) (userId photoId : nat) : MemStorage :=
  match JsMap.get (photos s) photoId with
  | Some photo =>
      let photo' :=
        with_p_likeCount photo (Some (or0 (p_likeCount photo) + 1)%Z) in
      set_photos s (JsMap.set (photos s) photoId photo')
  | None => s
  end.

Definition unlikePhoto (s : MemStorage) (userId photoId : nat)
  : MemStorage :=
  match JsMap.get (photos s) photoId with
  | Some photo =>
      if positive_counter (p_likeCount photo) then
        let photo' :=
          with_p_likeCount photo (Some (js_add (p_likeCount photo) (-1))) in
        set_photos s (JsMap.set (photos s) photoId photo')
      else s
  | None => s
  end.

Definition followUser (s : MemStorage) (followerId followingId : nat)
  : MemStorage :=
  if isFollowing s followerId followingId then s
  else
    let id := currentFollowId s in
    let s1 := set_currentFollowId s (id + 1) in
    let follow := mkFollow id followerId followingId in
    let s2 := set_follows s1 (JsMap.set (follows s1) id follow) in
    match JsMap.get (users s2) followingId with
    | Some user =>
        let user' :=
          with_followerCount user
            (Some (or0 (u_followerCount user) + 1)%Z) in
        set_users s2 (JsMap.set (users s2) followingId user')
    | None => s2
    end.

Definition unfollowUser (s : MemStorage) (followerId followingId : nat)
  : MemStorage :=
  let followToRemove :=
    find (fun e => (f_followerId (snd e) =? followerId)
                   && (f_followingId (snd e) =? followingId))
         (JsMap.entries (follows s)) in
  match followToRemove with
  | Some e =>
      let s1 := set_follows s (JsMap.delete (follows s) (fst e)) in
      match JsMap.get (users s1) followingId with
      | Some user =>
          if positive_counter (u_followerCount user) then
            let user' :=
              with_followerCount user
                (Some (js_add (u_followerCount user) (-1))) in
            set_users s1 (JsMap.set (users s1) followingId user')
          else s1
      | None => s1
      end
  | None => s
  end.

Definition createComment (s : MemStorage) (now : Z) (userId photoId : nat)
    (content : string) : Comment * MemStorage :=
  let id := currentCommentId s in
  let s1 := set_currentCommentId s (id + 1) in
  let comment := mkComment id userId photoId content (Some 0%Z) now in
  let s2 := set_comments s1 (JsMap.set (comments s1) id comment) in
  match JsMap.get (photos s2) photoId with
  | Some photo =>
      let photo' :=
        with_commentCount photo (Some (or0 (p_commentCount photo) + 1)%Z) in
      (comment, set_photos s2 (JsMap.set (photos s2) photoId photo'))
  | None => (comment, s2)
  end.

Definition likeComment (s : MemStorage) (userId commentId : nat)
  : MemStorage :=
  match JsMap.get (comments s) commentId with
  | Some comment =>
      let comment' :=
        with_c_likeCount comment (Some (or0 (c_likeCount comment) + 1)%Z) in
      set_comments s (JsMap.set (comments s) commentId comment')
  | None => s
  end.

Definition unlikeComment (s : MemStorage) (userId commentId : nat)
  : MemStorage :=
  match JsMap.get (comments s) commentId with
  | Some comment =>
      if positive_counter (c_likeCount comment) then
        let comment' :=
          with_c_likeCount comment
            (Some (js_add (c_likeCount comment) (-1))) in
        set_comments s (JsMap.set (comments s) commentId comment')
      else s
  | None => s
  end.

Definition createNotification (s : MemStorage) (now : Z)
    (userId actorId : nat) (type : string) (photoId commentId : option nat)
  : MemStorage :=
  let id := currentNotificationId s in
  let s1 := set_currentNotificationId s (id + 1) in
  let notification :=
    mkNotification id userId actorId type (opt_num_or_null photoId)
                   (opt_num_or_null commentId) false now in
  set_notifications s1 (JsMap.set (notifications s1) id notification).

Definition markNotificationAsRead (s : MemStorage) (notificationId : nat)
  : MemStorage :=
  match JsMap.get (notifications s) notificationId with
  | Some notification =>
      set_notifications s
        (JsMap.set (notifications s) notificationId
                   (with_read notification true))
  | None => s
  end.

(** The [for ... of this.notifications.entries()] loop: every [set] is on a
    key that is present, so the iteration order is not disturbed. *)
Definition markAllNotificationsAsRead (s : MemStorage) (userId : nat)
  : MemStorage :=
  fold_left
    (fun acc e =>
       if n_userId (snd e) =? userId then
         set_notifications acc
           (JsMap.set (notifications acc) (fst e) (with_read (snd e) true))
       else acc)
    (JsMap.entries (notifications s)) s.

(** The listing queries.  [createdAt] is never null in this class. *)
Definition getPhotos (s : MemStorage) : list Photo :=
  js_sort (fun a b => (p_createdAt b - p_createdAt a)%Z)
          (JsMap.values (photos s)).

Definition getUserPhotos (s : MemStorage) (userId : nat) : list Photo :=
  js_sort (fun a b => (p_createdAt b - p_createdAt a)%Z)
          (filter (fun photo => p_userId photo =? userId)
                  (JsMap.values (photos s))).

Definition getFeedPhotos (s : MemStorage) (userId : nat) : list Photo :=
  let followedUserIds :=
    map f_followingId
        (filter (fun follow => f_followerId follow =? userId)
                (JsMap.values (follows s))) in
  js_sort (fun a b => (p_createdAt b - p_createdAt a)%Z)
          (filter (fun photo =>
                     existsb (fun id => id =? p_userId photo) followedUserIds
                     || (p_userId photo =? userId))
                  (JsMap.values (photos s))).

Definition getPhotoComments (s : MemStorage) (photoId : nat)
  : list Comment :=
  js_sort (fun a b => (c_createdAt b - c_createdAt a)%Z)
          (filter (fun comment => c_photoId comment =? photoId)
                  (JsMap.values (comments s))).

Definition getUserNotifications (s : MemStorage) (userId : nat)
  : list Notification :=
  js_sort (fun a b => (n_createdAt b - n_createdAt a)%Z)
          (filter (fun notification => n_userId notification =? userId)
                  (JsMap.values (notifications s))).

(** The state-changing calls of the [IStorage] interface. *)
Inductive Op : Type :=
| CreateUser (username password : string)
| UpdateUserProfile (userId : nat) (bio avatarUrl displayName : string)
| CreatePhoto (now : Z) (userId : nat) (imageUrl : string)
              (caption : option string)
| LikePhoto (userId photoId : nat)
| UnlikePhoto (userId photoId : nat)
| FollowUser (followerId followingId : nat)
| UnfollowUser (followerId followingId : nat)
| CreateComment (now : Z) (userId photoId : nat) (content : string)
| LikeComment (userId commentId : nat)
| UnlikeComment (userId commentId : nat)
| CreateNotification (now : Z) (userId actorId : nat) (type : string)
                     (photoId commentId : option nat)
| MarkNotificationAsRead (notificationId : nat)
| MarkAllNotificationsAsRead (userId : nat).

Definition step (s : MemStorage) (o : Op) : MemStorage :=
  match o with
  | CreateUser username password => snd (createUser s username password)
  | UpdateUserProfile userId bio avatarUrl displayName =>
      snd (updateUserProfile s userId bio avatarUrl displayName)
  | CreatePhoto now userId imageUrl caption =>
      snd (createPhoto s now userId imageUrl caption)
  | LikePhoto userId photoId => likePhoto s userId photoId
  | UnlikePhoto userId photoId => unlikePhoto s userId photoId
  | FollowUser followerId followingId => followUser s followerId followingId
  | UnfollowUser followerId followingId =>
      unfollowUser s followerId followingId
  | CreateComment now userId photoId content =>
      snd (createComment s now userId photoId content)
  | LikeComment userId commentId => likeComment s userId commentId
  | UnlikeComment userId commentId => unlikeComment s userId commentId
  | CreateNotification now userId actorId type photoId commentId =>
      createNotification s now userId actorId type photoId commentId
  | MarkNotificationAsRead notificationId =>
      markNotificationAsRead s notificationId
  | MarkAllNotificationsAsRead userId => markAllNotificationsAsRead s userId
  end.

Definition run (s : MemStorage) (ops : list Op) : MemStorage :=
  fold_left step ops s.

End Mem.

(** ** PostgresStorage (the relational model)

    A table is the list of its rows in insertion order.  The query builder
    calls are read as: [select().from(t).where(c)] keeps the rows that
    satisfy [c], [update(t).set(f).where(c)] rewrites them in place,
    [delete(t).where(c)] drops them and [insert(t).values(r)] appends a row
    with the column defaults filled in.  Every awaited statement is applied
    at once (there is no transaction), so a method that throws half way
    leaves the statements before the throw applied. *)
Module Pg.

(** An id is a value of a [uuid] column ([uuid('id')] in the schema), named
    by its text.  The statements below are the statements on such values:
    a text that the column type does not accept makes the real statement
    fail before it runs, which is outside this model. *)
Definition uuid := string.

Definition is_hex_digit (c : ascii) : bool :=
  let n := nat_of_ascii c in
  ((48 <=? n) && (n <=? 57)) || ((97 <=? n) && (n <=? 102))
  || ((65 <=? n) && (n <=? 70)).

Fixpoint canonical_from (i : nat) (s : string) : bool :=
  match s with
  | EmptyString => i =? 36
  | String c r =>
      (if (i =? 8) || (i =? 13) || (i =? 18) || (i =? 23)
       then Ascii.eqb c "-"%char
       else is_hex_digit c)
      && canonical_from (S i) r
  end.

(** The canonical text of a uuid, 8-4-4-4-12 hexadecimal digits, which the
    column type accepts. *)
Definition canonical_uuid (s : string) : bool := canonical_from 0 s.

Section Query.
Variable A : Type.

Definition select (t : list A) (where_ : A -> bool) : list A :=
  filter where_ t.

Definition update (t : list A) (set : A -> A) (where_ : A -> bool)
  : list A :=
  map (fun r => if where_ r then set r else r) t.

Definition delete (t : list A) (where_ : A -> bool) : list A :=
  filter (fun r => negb (where_ r)) t.

Definition insert (t : list A) (r : A) : list A := t ++ [r].
End Query.

Record User := mkUser {
  u_id : uuid;
  u_username : string;
  u_displayName : option string;
  u_password : string;
  u_bio : option string;
  u_avatarUrl : option string;
  u_followerCount : counter;
  u_isDeleted : bool
}.

Record Photo := mkPhoto {
  p_id : uuid;
  p_userId : uuid;
  p_imageUrl : string;
  p_caption : option string;
  p_likeCount : counter;
  p_commentCount : counter;
  p_createdAt : Z;
  p_isDeleted : bool
}.

Record Comment := mkComment {
  c_id : uuid;
  c_userId : uuid;
  c_photoId : uuid;
  c_content : string;
  c_likeCount : counter;
  c_createdAt : Z;
  c_isDeleted : bool
}.

Record Notification := mkNotification {
  n_id : uuid;
  n_userId : uuid;
  n_actorId : uuid;
  n_type : string;
  n_photoId : option uuid;
  n_commentId : option uuid;
  n_read : bool;
  n_createdAt : Z;
  n_isDeleted : bool
}.

(** The relationship tables.  Their [id] column (a random uuid) is never
    read by the class and is left out; a row is identified by its position
    in the table.  [isDeleted] defaults to [false] and is only ever written
    [true] or [false], so it is a [bool]. *)
Record CommentLike := mkCommentLike {
  cl_userId : uuid;
  cl_commentId : uuid;
  cl_isDeleted : bool
}.

Record Follow := mkFollow {
  f_followerId : uuid;
  f_followingId : uuid;
  f_isDeleted : bool
}.

Record Like := mkLike {
  l_userId : uuid;
  l_photoId : uuid;
  l_isDeleted : bool
}.

(** The seven tables. *)
Record DB := mkDB {
  users : list User;
  photos : list Photo;
  comments : list Comment;
  notifications : list Notification;
  commentLikes : list CommentLike;
  follows : list Follow;
  likes : list Like
}.

(** The database before any statement. *)
Definition empty : DB := mkDB [] [] [] [] [] [] [].

Definition with_followerCount (u : User) (c : counter) : User :=
  mkUser (u_id u) (u_username u) (u_displayName u) (u_password u) (u_bio u)
         (u_avatarUrl u) c (u_isDeleted u).

Definition with_profile (u : User) (bio avatarUrl displayName : option string)
  : User :=
  mkUser (u_id u) (u_username u) displayName (u_password u) bio avatarUrl
         (u_followerCount u) (u_isDeleted u).

Definition with_p_likeCount (p : Photo) (c : counter) : Photo :=
  mkPhoto (p_id p) (p_userId p) (p_imageUrl p) (p_caption p) c
          (p_commentCount p) (p_createdAt p) (p_isDeleted p).

Definition with_commentCount (p : Photo) (c : counter) : Photo :=
  mkPhoto (p_id p) (p_userId p) (p_imageUrl p) (p_caption p)
          (p_likeCount p) c (p_createdAt p) (p_isDeleted p).

Definition with_c_likeCount (c : Comment) (n : counter) : Comment :=
  mkComment (c_id c) (c_userId c) (c_photoId c) (c_content c) n
            (c_createdAt c) (c_isDeleted c).

Definition with_read (n : Notification) (b : bool) : Notification :=
  mkNotification (n_id n) (n_userId n) (n_actorId n) (n_type n)
                 (n_photoId n) (n_commentId n) b (n_createdAt n)
                 (n_isDeleted n).

(** [.set({ isDeleted: b })] on a relationship row. *)
Definition with_l_isDeleted (b : bool) (l : Like) : Like :=
  mkLike (l_userId l) (l_photoId l) b.

Definition with_f_isDeleted (b : bool) (f : Follow) : Follow :=
  mkFollow (f_followerId f) (f_followingId f) b.

Definition with_cl_isDeleted (b : bool) (c : CommentLike) : CommentLike :=
  mkCommentLike (cl_userId c) (cl_commentId c) b.

Definition set_users (db : DB) (t : list User) : DB :=
  mkDB t (photos db) (comments db) (notifications db) (commentLikes db)
       (follows db) (likes db).

Definition set_photos (db : DB) (t : list Photo) : DB :=
  mkDB (users db) t (comments db) (notifications db) (commentLikes db)
       (follows db) (likes db).

Definition set_comments (db : DB) (t : list Comment) : DB :=
  mkDB (users db) (photos db) t (notifications db) (commentLikes db)
       (follows db) (likes db).

Definition set_notifications (db : DB) (t : list Notification) : DB :=
  mkDB (users db) (photos db) (comments db) t (commentLikes db)
       (follows db) (likes db).

Definition set_commentLikes (db : DB) (t : list CommentLike) : DB :=
  mkDB (users db) (photos db) (comments db) (notifications db) t
       (follows db) (likes db).

Definition set_follows (db : DB) (t : list Follow) : DB :=
  mkDB (users db) (photos db) (comments db) (notifications db)
       (commentLikes db) t (likes db).

Definition set_likes (db : DB) (t : list Like) : DB :=
  mkDB (users db) (photos db) (comments db) (notifications db)
       (commentLikes db) (follows db) t.

(** The [where] conditions of the class. *)
Definition user_is (id : uuid) (u : User) : bool := String.eqb (u_id u) id.
Definition photo_is (id : uuid) (p : Photo) : bool := String.eqb (p_id p) id.
Definition comment_is (id : uuid) (c : Comment) : bool :=
  String.eqb (c_id c) id.

Definition like_of (userId photoId : uuid) (l : Like) : bool :=
  String.eqb (l_userId l) userId && String.eqb (l_photoId l) photoId.

Definition follow_of (followerId followingId : uuid) (f : Follow) : bool :=
  String.eqb (f_followerId f) followerId
  && String.eqb (f_followingId f) followingId.

Definition commentLike_of (userId commentId : uuid) (c : CommentLike)
  : bool :=
  String.eqb (cl_userId c) userId && String.eqb (cl_commentId c) commentId.

(** [const [row] = await db.select().from(t).where(eq(t.id, id))] *)
Definition first_user (db : DB) (id : uuid) : option User :=
  hd_error (select (users db) (user_is id)).
Definition first_photo (db : DB) (id : uuid) : option Photo :=
  hd_error (select (photos db) (photo_is id)).
Definition first_comment (db : DB) (id : uuid) : option Comment :=
  hd_error (select (comments db) (comment_is id)).

(** [await db.update(schema.photos).set({ likeCount: photo.likeCount + d })
    .where(eq(schema.photos.id, photoId))]: reading [photo.likeCount] throws
    a [TypeError] when [photo] is [undefined], before the statement is
    sent. *)
Definition write_photo_likeCount (db : DB) (photo : option Photo)
    (photoId : uuid) (d : Z) : result unit * DB :=
  match photo with
  | None => (Thrown TypeError, db)
  | Some ph =>
      (Returned tt,
       set_photos db
         (update (photos db)
            (fun p => with_p_likeCount p (Some (js_add (p_likeCount ph) d)))
            (photo_is photoId)))
  end.

Definition write_photo_commentCount (db : DB) (photo : option Photo)
    (photoId : uuid) (d : Z) : result unit * DB :=
  match photo with
  | None => (Thrown TypeError, db)
  | Some ph =>
      (Returned tt,
       set_photos db
         (update (photos db)
            (fun p =>
               with_commentCount p (Some (js_add (p_commentCount ph) d)))
            (photo_is photoId)))
  end.

Definition write_comment_likeCount (db : DB) (comment : option Comment)
    (commentId : uuid) (d : Z) : result unit * DB :=
  match comment with
  | None => (Thrown TypeError, db)
  | Some cm =>
      (Returned tt,
       set_comments db
         (update (comments db)
            (fun c => with_c_likeCount c (Some (js_add (c_likeCount cm) d)))
            (comment_is commentId)))
  end.

Definition write_user_followerCount (db : DB) (user : option User)
    (followingId : uuid) (d : Z) : result unit * DB :=
  match user with
  | None => (Thrown TypeError, db)
  | Some us =>
      (Returned tt,
       set_users db
         (update (users db)
            (fun u =>
               with_followerCount u (Some (js_add (u_followerCount us) d)))
            (user_is followingId)))
  end.

Definition getUser (db : DB) (id : uuid) : option User := first_user db id.

Definition getUserByUsername (db : DB) (username : string) : option User :=
  hd_error (select (users db) (fun u => String.eqb (u_username u) username)).

(** [insert(users).values(insertUser).returning()].  [id] is the value that
    [defaultRandom()] draws; the primary key and the unique constraint on
    [username] reject a row that repeats one. *)
Definition createUser (db : DB) (id : uuid) (username password : string)
  : result User * DB :=
  if existsb (fun u => String.eqb (u_id u) id
                       || String.eqb (u_username u) username) (users db)
  then (Thrown DbError, db)
  else
    let user := mkUser id username None password None None (Some 0%Z) false in
    (Returned user, set_users db (insert (users db) user)).

(** Returns the first updated row, [undefined] when there is none. *)
Definition updateUserProfile (db : DB) (userId : uuid)
    (bio avatarUrl displayName : string) : result (option User) * DB :=
  let db1 :=
    set_users db
      (update (users db)
         (fun u => with_profile u (str_or bio None) (str_or avatarUrl None)
                                 (str_or displayName None))
         (user_is userId)) in
  (Returned (first_user db1 userId), db1).

Definition isFollowing (db : DB) (followerId followingId : uuid) : bool :=
  let follows_ :=
    select (follows db)
           (fun f => follow_of followerId followingId f
                     && Bool.eqb (f_isDeleted f) false) in
  0 <? List.length follows_.

(** The inner joins of [getFollowers] and [getLikedUsers]: the rows of
    the answer, listed here in table order. *)
Definition getFollowers (db : DB) (userId : uuid) : list User :=
  flat_map (fun f => select (users db) (user_is (f_followerId f)))
           (select (follows db)
                   (fun f => String.eqb (f_followingId f) userId)).

Definition getLikedUsers (db : DB) (photoId : uuid) : list User :=
  flat_map (fun l => select (users db) (user_is (l_userId l)))
           (select (likes db) (fun l => String.eqb (l_photoId l) photoId)).

(** Neither query has an [ORDER BY]: a call returns the rows of its join in
    an order of the database's choosing.  [result] is an answer of the call
    when it holds the rows of the join, each as often as the join has it. *)
Definition getFollowers_returns (db : DB) (userId : uuid)
    (result : list User) : Prop :=
  Permutation (getFollowers db userId) result.

Definition getLikedUsers_returns (db : DB) (photoId : uuid)
    (result : list User) : Prop :=
  Permutation (getLikedUsers db photoId) result.

(** [id] is the drawn primary key and [now] the value of [defaultNow()]. *)
Definition createPhoto (db : DB) (id : uuid) (now : Z) (userId : uuid)
    (imageUrl : string) (caption : option string) : result Photo * DB :=
  if existsb (photo_is id) (photos db) then (Thrown DbError, db)
  else
    let photo := mkPhoto id userId imageUrl (opt_str_or_null caption)
                         (Some 0%Z) (Some 0%Z) now false in
    (Returned photo, set_photos db (insert (photos db) photo)).

Definition likePhoto (db : DB) (userId photoId : uuid) : result unit * DB :=
  let hasLiked := List.length (select (likes db) (like_of userId photoId)) in
  let hasDeleted :=
    List.length (select (likes db)
                   (fun l => like_of userId photoId l
                             && Bool.eqb (l_isDeleted l) true)) in
  let photo := first_photo db photoId in
  if hasLiked =? 0 then
    let db1 := set_likes db (insert (likes db) (mkLike userId photoId false)) in
    write_photo_likeCount db1 photo photoId 1
  else if negb (hasLiked =? 0) && negb (hasDeleted =? 0) then
    let db1 :=
      set_likes db
        (update (likes db) (with_l_isDeleted false)
           (fun l => like_of userId photoId l
                     && Bool.eqb (l_isDeleted l) true)) in
    write_photo_likeCount db1 photo photoId 1
  else
    let db1 :=
      set_likes db
        (update (likes db) (with_l_isDeleted true)
           (fun l => like_of userId photoId l
                     && Bool.eqb (l_isDeleted l) false)) in
    write_photo_likeCount db1 photo photoId (-1).

Definition followUser (db : DB) (followerId followingId : uuid)
  : result unit * DB :=
  let isFollower :=
    List.length (select (follows db) (follow_of followerId followingId)) in
  let user := first_user db followingId in
  if negb (isFollower =? 0) then
    match write_user_followerCount db user followingId 1 with
    | (Thrown e, db1) => (Thrown e, db1)
    | (Returned _, db1) =>
        (Returned tt,
         set_follows db1
           (update (follows db1) (with_f_isDeleted false)
                   (follow_of followerId followingId)))
    end
  else
    let db1 :=
      set_follows db
        (insert (follows db) (mkFollow followerId followingId false)) in
    write_user_followerCount db1 user followingId 1.

Definition unfollowUser (db : DB) (followerId followingId : uuid)
  : result unit * DB :=
  let user := first_user db followingId in
  match write_user_followerCount db user followingId (-1) with
  | (Thrown e, db1) => (Thrown e, db1)
  | (Returned _, db1) =>
      (Returned tt,
       set_follows db1
         (update (follows db1) (with_f_isDeleted true)
                 (follow_of followerId followingId)))
  end.

Definition createComment (db : DB) (id : uuid) (now : Z)
    (userId photoId : uuid) (content : string) : result Comment * DB :=
  if existsb (comment_is id) (comments db) then (Thrown DbError, db)
  else
    let comment := mkComment id userId photoId content (Some 0%Z) now false in
    let db1 := set_comments db (insert (comments db) comment) in
    let photo := first_photo db1 photoId in
    match write_photo_commentCount db1 photo photoId 1 with
    | (Thrown e, db2) => (Thrown e, db2)
    | (Returned _, db2) => (Returned comment, db2)
    end.

Definition likeComment (db : DB) (userId commentId : uuid)
  : result unit * DB :=
  let hasLiked :=
    List.length (select (commentLikes db) (commentLike_of userId commentId)) in
  let hasDeleted :=
    List.length (select (commentLikes db)
                   (fun c => commentLike_of userId commentId c
                             && Bool.eqb (cl_isDeleted c) true)) in
  let comment := first_comment db commentId in
  if hasLiked =? 0 then
    let db1 :=
      set_commentLikes db
        (insert (commentLikes db) (mkCommentLike userId commentId false)) in
    write_comment_likeCount db1 comment commentId 1
  else if negb (hasLiked =? 0) && negb (hasDeleted =? 0) then
    let db1 :=
      set_commentLikes db
        (update (commentLikes db) (with_cl_isDeleted false)
           (fun c => commentLike_of userId commentId c
                     && Bool.eqb (cl_isDeleted c) true)) in
    write_comment_likeCount db1 comment commentId 1
  else
    let db1 :=
      set_commentLikes db
        (update (commentLikes db) (with_cl_isDeleted true)
           (fun c => commentLike_of userId commentId c
                     && Bool.eqb (cl_isDeleted c) false)) in
    write_comment_likeCount db1 comment commentId (-1).

(** The first statement deletes the rows.  The second one sets [likeCount]
    to [schema.comments.likeCount - 1], a column object minus one, which is
    [NaN]; the integer column rejects it, so the statement changes nothing
    and the call throws. *)
Definition unlikeComment (db : DB) (userId commentId : uuid)
  : result unit * DB :=
  let db1 :=
    set_commentLikes db
      (delete (commentLikes db) (commentLike_of userId commentId)) in
  (Thrown DbError, db1).

Definition createNotification (db : DB) (id : uuid) (now : Z)
    (userId actorId : uuid) (type : string) (photoId commentId : option uuid)
  : result unit * DB :=
  if existsb (fun n => String.eqb (n_id n) id) (notifications db)
  then (Thrown DbError, db)
  else
    let notification :=
      mkNotification id userId actorId type (opt_str_or_null photoId)
                     (opt_str_or_null commentId) false now false in
    (Returned tt,
     set_notifications db (insert (notifications db) notification)).

Definition markNotificationAsRead (db : DB) (notificationId : uuid)
  : result unit * DB :=
  (Returned tt,
   set_notifications db
     (update (notifications db) (fun n => with_read n true)
             (fun n => String.eqb (n_id n) notificationId))).

Definition markAllNotificationsAsRead (db : DB) (userId : uuid)
  : result unit * DB :=
  (Returned tt,
   set_notifications db
     (update (notifications db) (fun n => with_read n true)
             (fun n => String.eqb (n_userId n) userId))).

(** The state-changing methods of the class. *)
Inductive Op : Type :=
| CreateUser (id : uuid) (username password : string)
| UpdateUserProfile (userId : uuid) (bio avatarUrl displayName : string)
| CreatePhoto (id : uuid) (now : Z) (userId : uuid) (imageUrl : string)
              (caption : option string)
| LikePhoto (userId photoId : uuid)
| FollowUser (followerId followingId : uuid)
| UnfollowUser (followerId followingId : uuid)
| CreateComment (id : uuid) (now : Z) (userId photoId : uuid)
                (content : string)
| LikeComment (userId commentId : uuid)
| UnlikeComment (userId commentId : uuid)
| CreateNotification (id : uuid) (now : Z) (userId actorId : uuid)
                     (type : string) (photoId commentId : option uuid)
| MarkNotificationAsRead (notificationId : uuid)
| MarkAllNotificationsAsRead (userId : uuid).

(** The database after a call, whether it returned or threw. *)
Definition step (db : DB) (o : Op) : DB :=
  match o with
  | CreateUser id username password => snd (createUser db id username password)
  | UpdateUserProfile userId bio avatarUrl displayName =>
      snd (updateUserProfile db userId bio avatarUrl displayName)
  | CreatePhoto id now userId imageUrl caption =>
      snd (createPhoto db id now userId imageUrl caption)
  | LikePhoto userId photoId => snd (likePhoto db userId photoId)
  | FollowUser followerId followingId =>
      snd (followUser db followerId followingId)
  | UnfollowUser followerId followingId =>
      snd (unfollowUser db followerId followingId)
  | CreateComment id now userId photoId content =>
      snd (createComment db id now userId photoId content)
  | LikeComment userId commentId => snd (likeComment db userId commentId)
  | UnlikeComment userId commentId => snd (unlikeComment db userId commentId)
  | CreateNotification id now userId actorId type photoId commentId =>
      snd (createNotification db id now userId actorId type photoId commentId)
  | MarkNotificationAsRead notificationId =>
      snd (markNotificationAsRead db notificationId)
  | MarkAllNotificationsAsRead userId =>
      snd (markAllNotificationsAsRead db userId)
  end.

Definition run (db : DB) (ops : list Op) : DB := fold_left step ops db.

End Pg.

(** ** Concurrent requests on PostgresStorage

    An [async] method runs without interruption up to an [await]; every
    awaited query of [likePhoto] is one statement that the database applies
    atomically.  A call in flight is therefore a program point together with
    the local constants read so far, and concurrent calls interleave
    statement by statement. *)
Module PgAsync.

Inductive Point : Type :=
| AtHasLiked
| AtHasDeleted (hasLiked : nat)
| AtPhoto (hasLiked hasDeleted : nat)
| AtRelation (hasLiked hasDeleted : nat) (photo : option Pg.Photo)
| AtCounter (photo : option Pg.Photo) (d : Z)
| Finished (r : result unit).

(** A call [likePhoto(userId, photoId)] in flight. *)
Record Call := mkCall {
  userId : Pg.uuid;
  photoId : Pg.uuid;
  point : Point
}.

Definition likePhoto_call (userId photoId : Pg.uuid) : Call :=
  mkCall userId photoId AtHasLiked.

Definition at_point (c : Call) (p : Point) : Call :=
  mkCall (userId c) (photoId c) p.

(** The next statement of a call. *)
Definition call_step (db : Pg.DB) (c : Call) : Pg.DB * Call :=
  match point c with
  | AtHasLiked =>
      let hasLiked :=
        List.length (Pg.select (Pg.likes db)
                               (Pg.like_of (userId c) (photoId c))) in
      (db, at_point c (AtHasDeleted hasLiked))
  | AtHasDeleted hasLiked =>
      let hasDeleted :=
        List.length
          (Pg.select (Pg.likes db)
             (fun l => Pg.like_of (userId c) (photoId c) l
                       && Bool.eqb (Pg.l_isDeleted l) true)) in
      (db, at_point c (AtPhoto hasLiked hasDeleted))
  | AtPhoto hasLiked hasDeleted =>
      (db, at_point c (AtRelation hasLiked hasDeleted
                                  (Pg.first_photo db (photoId c))))
  | AtRelation hasLiked hasDeleted photo =>
      if hasLiked =? 0 then
        (Pg.set_likes db
           (Pg.insert (Pg.likes db)
                      (Pg.mkLike (userId c) (photoId c) false)),
         at_point c (AtCounter photo 1))
      else if negb (hasLiked =? 0) && negb (hasDeleted =? 0) then
        (Pg.set_likes db
           (Pg.update (Pg.likes db) (Pg.with_l_isDeleted false)
              (fun l => Pg.like_of (userId c) (photoId c) l
                        && Bool.eqb (Pg.l_isDeleted l) true)),
         at_point c (AtCounter photo 1))
      else
        (Pg.set_likes db
           (Pg.update (Pg.likes db) (Pg.with_l_isDeleted true)
              (fun l => Pg.like_of (userId c) (photoId c) l
                        && Bool.eqb (Pg.l_isDeleted l) false)),
         at_point c (AtCounter photo (-1)))
  | AtCounter photo d =>
      let (r, db') := Pg.write_photo_likeCount db photo (photoId c) d in
      (db', at_point c (Finished r))
  | Finished r => (db, c)
  end.

(** The call at position [i] runs its next statement. *)
Fixpoint step_nth (db : Pg.DB) (calls : list Call) (i : nat)
  : Pg.DB * list Call :=
  match calls, i with
  | [], _ => (db, [])
  | c :: cs, 0 => let (db', c') := call_step db c in (db', c' :: cs)
  | c :: cs, S j => let (db', cs') := step_nth db cs j in (db', c :: cs')
  end.

(** A schedule names, statement by statement, the call that runs next. *)
Definition interleave (db : Pg.DB) (calls : list Call) (schedule : list nat)
  : Pg.DB * list Call :=
  fold_left (fun st i => step_nth (fst st) (snd st) i) schedule (db, calls).

Definition returned (c : Call) : bool :=
  match point c with
  | Finished (Returned _) => true
  | _ => false
  end.

End PgAsync.

(** ** The toggle contract

    The notions in which the properties below are stated. *)

(** The number a counter shows ([null] shows as [0]). *)
Definition shown (c : counter) : Z := js_add c 0.

(** The three states of an (actor, target) pair. *)
Inductive RelState : Type := ABSENT | ACTIVE | INACTIVE.

(** A pair is classified the way the toggles classify it: by its number of
    rows and its number of rows flagged deleted. *)
Definition rel_state (rows deleted : nat) : RelState :=
  if rows =? 0 then ABSENT
  else if deleted =? 0 then ACTIVE
  else INACTIVE.

(** How a toggle moves the state of its pair. *)
Definition toggled (s : RelState) : RelState :=
  match s with
  | ABSENT => ACTIVE
  | ACTIVE => INACTIVE
  | INACTIVE => ACTIVE
  end.

(** The counter delta of a toggle, by the state of the pair before it. *)
Definition delta (s : RelState) : Z :=
  match s with
  | ABSENT => 1
  | ACTIVE => -1
  | INACTIVE => 1
  end.

Section PairState.
Variable A : Type.
Variables (key del : A -> bool) (flag : bool -> A -> A).

(** The state of the pair selected by [key] in a relationship table. *)
Definition pair_state (t : list A) : RelState :=
  rel_state (List.length (Pg.select t key))
            (List.length
               (Pg.select t (fun r => key r && Bool.eqb (del r) true))).

(** The rows selected by [key] (here: the rows of a target) whose flag is
    false. *)
Definition active_rows (t : list A) : nat :=
  List.length (Pg.select t (fun r => key r && Bool.eqb (del r) false)).

(** The table after a toggle, by the state of the pair before it: a row is
    inserted, or every row of the pair is flagged, or every row of the pair
    has its flag cleared. *)
Definition toggled_rows (t : list A) (fresh : A) : list A :=
  match pair_state t with
  | ABSENT => Pg.insert t fresh
  | ACTIVE => Pg.update t (flag true) key
  | INACTIVE => Pg.update t (flag false) key
  end.
End PairState.

Module Contract.
Import Pg.

Definition like_state (db : DB) (userId photoId : uuid) : RelState :=
  pair_state (like_of userId photoId) l_isDeleted (likes db).

Definition commentLike_state (db : DB) (userId commentId : uuid) : RelState :=
  pair_state (commentLike_of userId commentId) cl_isDeleted (commentLikes db).

Definition follow_state (db : DB) (followerId followingId : uuid)
  : RelState :=
  pair_state (follow_of followerId followingId) f_isDeleted (follows db).

(** The rows of a target whose [isDeleted] flag is false. *)
Definition active_likes (db : DB) (photoId : uuid) : nat :=
  active_rows (fun l => String.eqb (l_photoId l) photoId) l_isDeleted
              (likes db).

Definition active_commentLikes (db : DB) (commentId : uuid) : nat :=
  active_rows (fun c => String.eqb (cl_commentId c) commentId) cl_isDeleted
              (commentLikes db).

Definition active_follows (db : DB) (followingId : uuid) : nat :=
  active_rows (fun f => String.eqb (f_followingId f) followingId) f_isDeleted
              (follows db).

(** The counter invariant for likes: every photo row shows the number of
    active rows of its photo, and no pair has two rows. *)
Definition likes_in_sync (db : DB) : Prop :=
  (forall ph, In ph (photos db) ->
     p_likeCount ph = Some (Z.of_nat (active_likes db (p_id ph))))
  /\ (forall u p, List.length (select (likes db) (like_of u p)) <= 1).

Definition commentLikes_in_sync (db : DB) : Prop :=
  (forall cm, In cm (comments db) ->
     c_likeCount cm = Some (Z.of_nat (active_commentLikes db (c_id cm))))
  /\ (forall u c,
        List.length (select (commentLikes db) (commentLike_of u c)) <= 1).

(** The part of a relationship row that no update touches. *)
Definition like_key (l : Like) : uuid * uuid := (l_userId l, l_photoId l).
Definition follow_key (f : Follow) : uuid * uuid :=
  (f_followerId f, f_followingId f).
Definition commentLike_key (c : CommentLike) : uuid * uuid :=
  (cl_userId c, cl_commentId c).

(** [old] is kept row by row in [new], up to the flags: [new] starts with
    the rows of [old], in the same positions. *)
Definition rows_kept (old new : list (uuid * uuid)) : Prop :=
  exists added, new = old ++ added.

Definition is_unlikeComment (o : Op) : bool :=
  match o with
  | UnlikeComment _ _ => true
  | _ => false
  end.

(** Only the two toggles. *)
Definition is_like_toggle (o : Op) : bool :=
  match o with
  | LikePhoto _ _ | LikeComment _ _ => true
  | _ => false
  end.

(** The primary keys and the unique column hold no value twice. *)
Definition keys_unique (db : DB) : Prop :=
  NoDup (map u_id (users db))
  /\ NoDup (map u_username (users db))
  /\ NoDup (map p_id (photos db))
  /\ NoDup (map c_id (comments db))
  /\ NoDup (map n_id (notifications db)).

(** The comments stored for a photo. *)
Definition comment_rows (db : DB) (photoId : uuid) : nat :=
  List.length (select (comments db)
                      (fun c => String.eqb (c_photoId c) photoId)).

(** Every photo row shows the number of comments stored for its photo. *)
Definition comments_in_sync (db : DB) : Prop :=
  forall ph, In ph (photos db) ->
    p_commentCount ph = Some (Z.of_nat (comment_rows db (p_id ph))).

(** What keeps the comment counter right: every photo row counted right,
    and no comment on a photo that has no row. *)
Definition comments_inv (db : DB) : Prop :=
  comments_in_sync db
  /\ (forall c, In c (comments db) -> first_photo db (c_photoId c) <> None).

(** A trace in which every [createComment] names a photo that has a row at
    that moment. *)
Fixpoint comments_on_photos (db : DB) (ops : list Op) : bool :=
  match ops with
  | [] => true
  | o :: ops' =>
      match o with
      | CreateComment _ _ _ photoId _ =>
          match first_photo db photoId with
          | Some _ => true
          | None => false
          end
      | _ => true
      end
      && comments_on_photos (step db o) ops'
  end.

End Contract.

Module MemContract.
Import Mem.

(** The follow rows that point at a user. *)
Definition follow_rows (s : MemStorage) (followingId : nat) : nat :=
  List.length (filter (fun f => f_followingId f =? followingId)
                      (JsMap.values (follows s))).

Definition pair_rows (s : MemStorage) (followerId followingId : nat)
  : list Follow :=
  filter (fun f => (f_followerId f =? followerId)
                   && (f_followingId f =? followingId))
         (JsMap.values (follows s)).

(** The like rows that point at a photo. *)
Definition like_rows (s : MemStorage) (photoId : nat) : nat :=
  List.length (filter (fun l => l_photoId l =? photoId)
                      (JsMap.values (likes s))).

Definition is_follow_op (o : Op) : bool :=
  match o with
  | FollowUser _ _ | UnfollowUser _ _ => true
  | _ => false
  end.

(** The [follows] map is a map (no key twice), its keys were drawn from
    the counter, no pair has two rows, and every user shows the number of
    follow rows that point at them. *)
Definition follows_wf (s : MemStorage) : Prop :=
  (forall k, In k (JsMap.keys (follows s)) -> k < currentFollowId s)
  /\ NoDup (JsMap.keys (follows s))
  /\ (forall f u, List.length (pair_rows s f u) <= 1)
  /\ (forall u user,
        getUser s u = Some user ->
        u_followerCount user = Some (Z.of_nat (follow_rows s u))).

(** A map whose entries sit under their own id, each key once, every key
    drawn from a counter that now stands at [next]. *)
Definition keyed (V : Type) (id : V -> nat) (m : JsMap.t V) (next : nat)
  : Prop :=
  NoDup (JsMap.keys m)
  /\ forall k v, In (k, v) m -> id v = k /\ k < next.

Definition store_wf (s : MemStorage) : Prop :=
  keyed u_id (users s) (currentId s)
  /\ keyed p_id (photos s) (currentPhotoId s)
  /\ keyed c_id (comments s) (currentCommentId s)
  /\ keyed f_id (follows s) (currentFollowId s)
  /\ keyed n_id (notifications s) (currentNotificationId s).

(** A counter that holds a number, and not a negative one. *)
Definition counted (c : counter) : Prop := exists z, c = Some z /\ (0 <= z)%Z.

Definition counters_ok (s : MemStorage) : Prop :=
  (forall u, In u (JsMap.values (users s)) -> counted (u_followerCount u))
  /\ (forall p, In p (JsMap.values (photos s)) ->
        counted (p_likeCount p) /\ counted (p_commentCount p))
  /\ (forall c, In c (JsMap.values (comments s)) ->
        counted (c_likeCount c)).

(** The comments stored for a photo. *)
Definition comment_rows (s : MemStorage) (photoId : nat) : nat :=
  List.length (filter (fun c => c_photoId c =? photoId)
                      (JsMap.values (comments s))).

(** Every photo shows the number of comments stored for it. *)
Definition comments_counted (s : MemStorage) : Prop :=
  forall k p, In (k, p) (photos s) ->
    p_commentCount p = Some (Z.of_nat (comment_rows s k)).

(** What keeps the comment counter right: well-formed maps, every photo
    counted right, and no comment on a photo that is not stored. *)
Definition comments_inv (s : MemStorage) : Prop :=
  store_wf s
  /\ comments_counted s
  /\ (forall c, In c (JsMap.values (comments s)) ->
        JsMap.get (photos s) (c_photoId c) <> None).

(** A trace in which every [createComment] names a photo that is stored at
    that moment. *)
Fixpoint comments_on_photos (s : MemStorage) (ops : list Op) : bool :=
  match ops with
  | [] => true
  | o :: ops' =>
      match o with
      | CreateComment _ _ photoId _ =>
          match JsMap.get (photos s) photoId with
          | Some _ => true
          | None => false
          end
      | _ => true
      end
      && comments_on_photos (step s o) ops'
  end.

End MemContract.

(** ** The two classes side by side *)
Module Refinement.
Section Encoding.
(** The ids of MemStorage are numbers and those of PostgresStorage are
    uuids; [enc] says which uuid stands for which number. *)
Variable enc : nat -> Pg.uuid.




End Encoding.
End Refinement.

(** ** Small stores used as concrete inputs *)
Module Scenario.



(** Two users, with ids 1 and 2. *)
Definition mem_two_users : Mem.MemStorage :=
  Mem.run Mem.constructor [Mem.CreateUser "f" "pw"; Mem.CreateUser "u" "pw"].

(** One user (id 1) who owns one photo (id 1) with one comment (id 1). *)
Definition mem_one_photo : Mem.MemStorage :=
  Mem.run Mem.constructor
    [Mem.CreateUser "o" "pw"; Mem.CreatePhoto 0 1 "img" None;
     Mem.CreateComment 0 1 1 "hi"].

(** Two users, "F" and "U". *)
Definition pg_two_users : Pg.DB :=
  Pg.run Pg.empty [Pg.CreateUser "F" "f" "pw"; Pg.CreateUser "U" "u" "pw"].

(** One user "O" who owns one photo "P" with one comment "C". *)
Definition pg_one_photo : Pg.DB :=
  Pg.run Pg.empty
    [Pg.CreateUser "O" "o" "pw"; Pg.CreatePhoto "P" 0 "O" "img" None;
     Pg.CreateComment "C" 0 "O" "P" "hi"].

End Scenario.

(** * Properties *)

Unset Implicit Arguments.

(** ** General facts about folds *)
Section FoldKeeps.
Variables (S E B : Type) (f : S -> E -> S) (proj : S -> B).
Hypothesis f_keeps : forall s e, proj (f s e) = proj s.

Lemma fold_left_keeps : forall es s, proj (fold_left f es s) = proj s.
Proof.
  induction es as [|e es IH]; intros s; simpl.
  - reflexivity.
  - rewrite IH. apply f_keeps.
Qed.
End FoldKeeps.

(** ** MemStorage never writes its like collections *)

Ltac mem_unfold :=
  unfold Mem.createUser, Mem.updateUserProfile, Mem.createPhoto,
    Mem.likePhoto, Mem.unlikePhoto, Mem.followUser, Mem.unfollowUser,
    Mem.createComment, Mem.likeComment, Mem.unlikeComment,
    Mem.createNotification, Mem.markNotificationAsRead.

Ltac break_match :=
  match goal with
  | |- context [match ?x with _ => _ end] => destruct x eqn:?
  end.

Lemma mem_markAll_likes : forall s userId,
  Mem.likes (Mem.markAllNotificationsAsRead s userId) = Mem.likes s
  /\ Mem.commentLikes (Mem.markAllNotificationsAsRead s userId)
     = Mem.commentLikes s.
Proof.
  intros s userId. unfold Mem.markAllNotificationsAsRead.
  split.
  - apply fold_left_keeps with (proj := Mem.likes).
    intros acc e. destruct (Mem.n_userId (snd e) =? userId); reflexivity.
  - apply fold_left_keeps with (proj := Mem.commentLikes).
    intros acc e. destruct (Mem.n_userId (snd e) =? userId); reflexivity.
Qed.

Lemma mem_step_likes : forall s o,
  Mem.likes (Mem.step s o) = Mem.likes s
  /\ Mem.commentLikes (Mem.step s o) = Mem.commentLikes s.
Proof.
  intros s o.
  destruct o; simpl; try apply mem_markAll_likes;
    mem_unfold; repeat break_match; simpl; auto.
Qed.

Lemma mem_run_likes : forall ops s,
  Mem.likes (Mem.run s ops) = Mem.likes s
  /\ Mem.commentLikes (Mem.run s ops) = Mem.commentLikes s.
Proof.
  induction ops as [|o ops IH]; intros s; simpl.
  - auto.
  - destruct (IH (Mem.step s o)) as [Hl Hc].
    destruct (mem_step_likes s o) as [Hl' Hc'].
    unfold Mem.run in *. simpl. rewrite Hl, Hc. auto.
Qed.

(** C10: in every state that the interface operations reach from the
    constructor, the [likes] and [commentLikes] maps of [MemStorage] are
    empty, and [getLikedUsers] returns the empty list for every photo. *)
Theorem mem_like_collections_stay_empty : forall (ops : list Mem.Op),
  let s := Mem.run Mem.constructor ops in
  Mem.likes s = JsMap.empty
  /\ Mem.commentLikes s = JsMap.empty
  /\ forall photoId, Mem.getLikedUsers s photoId = [].
Proof.
  intros ops s.
  destruct (mem_run_likes ops Mem.constructor) as [Hl Hc].
  fold s in Hl, Hc. simpl in Hl, Hc.
  repeat split; try assumption.
  intros photoId. unfold Mem.getLikedUsers. rewrite Hl. reflexivity.
Qed.

(** ** Facts about the JavaScript [Map] *)
Section JsMapFacts.
Variable V : Type.
Implicit Types (m : JsMap.t V) (k : nat) (v : V).

Lemma get_set_same : forall m k v, JsMap.get (JsMap.set m k v) k = Some v.
Proof.
  induction m as [|[k' v'] m IH]; intros k v; simpl.
  - rewrite Nat.eqb_refl. reflexivity.
  - destruct (k' =? k) eqn:E; simpl; rewrite E; auto.
Qed.

Lemma get_set_other : forall m k k' v,
  k <> k' -> JsMap.get (JsMap.set m k v) k' = JsMap.get m k'.
Proof.
  induction m as [|[k0 v0] m IH]; intros k k' v Hne; simpl.
  - destruct (k =? k') eqn:E; [apply Nat.eqb_eq in E; contradiction|].
    reflexivity.
  - destruct (k0 =? k) eqn:E; simpl.
    + apply Nat.eqb_eq in E. subst k0.
      destruct (k =? k') eqn:E'; [apply Nat.eqb_eq in E'; contradiction|].
      reflexivity.
    + destruct (k0 =? k'); auto.
Qed.

Variable P : V -> bool.

Lemma filter_none : forall (l : list V),
  existsb P l = false -> filter P l = [].
Proof.
  induction l as [|x l IH]; simpl; intros H; [reflexivity|].
  apply orb_false_iff in H. destruct H as [Hx Hl].
  rewrite Hx. auto.
Qed.

Lemma existsb_values_set : forall m k v,
  P v = true -> existsb P (JsMap.values (JsMap.set m k v)) = true.
Proof.
  unfold JsMap.values.
  induction m as [|[k' v'] m IH]; intros k v Hv; simpl.
  - rewrite Hv. reflexivity.
  - destruct (k' =? k); simpl.
    + rewrite Hv. reflexivity.
    + rewrite IH by assumption. apply orb_true_r.
Qed.

Lemma filter_values_set_fresh : forall m k v,
  P v = true -> existsb P (JsMap.values m) = false ->
  filter P (JsMap.values (JsMap.set m k v)) = [v].
Proof.
  unfold JsMap.values.
  induction m as [|[k' v'] m IH]; intros k v Hv Hm; simpl in *.
  - rewrite Hv. reflexivity.
  - apply orb_false_iff in Hm. destruct Hm as [Hv' Hm].
    destruct (k' =? k); simpl.
    + rewrite Hv. f_equal. apply filter_none. exact Hm.
    + rewrite Hv'. apply IH; assumption.
Qed.
End JsMapFacts.

(** ** Facts about tables *)
Section TableFacts.
Variable A : Type.
Implicit Types (t : list A) (w : A -> bool) (g : A -> A).

Lemma select_update_same : forall t w g,
  (forall r, w (g r) = w r) ->
  Pg.select (Pg.update t g w) w = map g (Pg.select t w).
Proof.
  intros t w g Hw. unfold Pg.select, Pg.update.
  induction t as [|r t IH]; simpl; [reflexivity|].
  destruct (w r) eqn:E.
  - rewrite Hw, E. simpl. f_equal. exact IH.
  - rewrite E. exact IH.
Qed.

Lemma select_update_inv : forall t w g (q : A -> bool),
  (forall r, q (g r) = q r) ->
  List.length (Pg.select (Pg.update t g w) q)
  = List.length (Pg.select t q).
Proof.
  intros t w g q Hq. unfold Pg.select, Pg.update.
  induction t as [|r t IH]; simpl; [reflexivity|].
  destruct (w r); [rewrite Hq|]; destruct (q r); simpl; auto.
Qed.

Lemma select_update_untouched : forall t w g (q : A -> bool),
  (forall r, w r = true -> q r = false /\ q (g r) = false) ->
  Pg.select (Pg.update t g w) q = Pg.select t q.
Proof.
  intros t w g q Hq. unfold Pg.select, Pg.update.
  induction t as [|r t IH]; simpl; [reflexivity|].
  destruct (w r) eqn:E.
  - destruct (Hq r E) as [H1 H2]. rewrite H1, H2. exact IH.
  - destruct (q r); simpl; auto. f_equal. exact IH.
Qed.

Lemma select_insert : forall t r w,
  Pg.select (Pg.insert t r) w
  = Pg.select t w ++ (if w r then [r] else []).
Proof.
  intros t r w. unfold Pg.select, Pg.insert.
  rewrite filter_app. reflexivity.
Qed.

Lemma first_update_same : forall t w g,
  (forall r, w (g r) = w r) ->
  hd_error (Pg.select (Pg.update t g w) w)
  = option_map g (hd_error (Pg.select t w)).
Proof.
  intros t w g Hw. rewrite select_update_same by assumption.
  destruct (Pg.select t w); reflexivity.
Qed.

Lemma first_update_other : forall t w g (q : A -> bool),
  (forall r, q (g r) = q r) ->
  (forall r, w r = true -> q r = false) ->
  hd_error (Pg.select (Pg.update t g w) q) = hd_error (Pg.select t q).
Proof.
  intros t w g q Hq Hd. rewrite select_update_untouched; [reflexivity|].
  intros r Hr. split; [|rewrite Hq]; apply Hd; exact Hr.
Qed.

Lemma length_update : forall t w g,
  List.length (Pg.update t g w) = List.length t.
Proof. intros. unfold Pg.update. apply length_map. Qed.
End TableFacts.

(** ** followUser and unfollowUser *)

(** C5: the failing input.  User "U" has no follower and a counter of 0;
    [unfollowUser("F", "U")] on the relational class returns normally and
    leaves [followerCount] at -1. *)
Theorem pg_unfollowUser_below_zero :
  option_map Pg.u_followerCount (Pg.getUser Scenario.pg_two_users "U")
  = Some (Some 0%Z)
  /\ Pg.follows Scenario.pg_two_users = []
  /\ fst (Pg.unfollowUser Scenario.pg_two_users "F" "U") = Returned tt
  /\ option_map Pg.u_followerCount
       (Pg.getUser (snd (Pg.unfollowUser Scenario.pg_two_users "F" "U")) "U")
     = Some (Some (-1)%Z).
Proof. repeat split. Qed.

(** C6 as stated fails in both classes: after [followUser(F, U)] twice the
    counter is 1 in MemStorage and 2 in PostgresStorage (not 0), and the one
    Follow row is active (PostgresStorage: [isDeleted] is false). *)
Lemma followUser_twice_is_not_a_toggle :
  (let s2 := Mem.followUser (Mem.followUser Scenario.mem_two_users 1 2) 1 2 in
   option_map Mem.u_followerCount (Mem.getUser s2 2) = Some (Some 1%Z)
   /\ Mem.isFollowing s2 1 2 = true)
  /\
  (let d2 := snd (Pg.followUser
                    (snd (Pg.followUser Scenario.pg_two_users "F" "U"))
                    "F" "U") in
   option_map Pg.u_followerCount (Pg.getUser d2 "U") = Some (Some 2%Z)
   /\ Pg.follows d2 = [Pg.mkFollow "F" "U" false]).
Proof. repeat split. Qed.

Lemma pg_user_is_flag : forall id c u,
  Pg.user_is id (Pg.with_followerCount u c) = Pg.user_is id u.
Proof. reflexivity. Qed.

Lemma pg_follow_of_flag : forall f u b r,
  Pg.follow_of f u (Pg.with_f_isDeleted b r) = Pg.follow_of f u r.
Proof. reflexivity. Qed.

(** C6, amended: from a state where F has no Follow row for U and U's
    counter is 0, the first [followUser(F, U)] takes the counter to 1; the
    second call does not toggle off: in MemStorage it changes nothing
    (0 -> 1 -> 1) and in PostgresStorage it returns normally, and in both
    classes exactly one Follow row for (F, U) exists afterwards, an active
    one. *)
Theorem followUser_twice :
  forall (s : Mem.MemStorage) (F U : nat) (user : Mem.User)
         (db : Pg.DB) (F' U' : Pg.uuid) (user' : Pg.User),
    Mem.getUser s U = Some user ->
    Mem.u_followerCount user = Some 0%Z ->
    Mem.isFollowing s F U = false ->
    Pg.getUser db U' = Some user' ->
    Pg.u_followerCount user' = Some 0%Z ->
    Pg.select (Pg.follows db) (Pg.follow_of F' U') = [] ->
    (let s1 := Mem.followUser s F U in
     let s2 := Mem.followUser s1 F U in
     option_map Mem.u_followerCount (Mem.getUser s1 U) = Some (Some 1%Z)
     /\ s2 = s1
     /\ MemContract.pair_rows s2 F U
        = [Mem.mkFollow (Mem.currentFollowId s) F U]
     /\ Mem.isFollowing s2 F U = true)
    /\
    (let d1 := snd (Pg.followUser db F' U') in
     let d2 := snd (Pg.followUser d1 F' U') in
     fst (Pg.followUser db F' U') = Returned tt
     /\ option_map Pg.u_followerCount (Pg.getUser d1 U') = Some (Some 1%Z)
     /\ fst (Pg.followUser d1 F' U') = Returned tt
     /\ Pg.select (Pg.follows d2) (Pg.follow_of F' U')
        = [Pg.mkFollow F' U' false]
     /\ Pg.isFollowing d2 F' U' = true).
Proof.
  intros s F U user db F' U' user' Hget Hcnt Hnot Hget' Hcnt' Hnone.
  split.
  - intros s1 s2.
    assert (Hpair : (fun f => (Mem.f_followerId f =? F)
                              && (Mem.f_followingId f =? U))
                      (Mem.mkFollow (Mem.currentFollowId s) F U) = true).
    { simpl. rewrite !Nat.eqb_refl. reflexivity. }
    assert (H1 : Mem.isFollowing s1 F U = true).
    { unfold s1, Mem.followUser. rewrite Hnot. simpl.
      unfold Mem.getUser in Hget. rewrite Hget. unfold Mem.isFollowing. simpl.
      apply existsb_values_set. exact Hpair. }
    assert (Hs2 : s2 = s1).
    { unfold s2. unfold Mem.followUser at 1. rewrite H1. reflexivity. }
    repeat split.
    + unfold s1, Mem.followUser. rewrite Hnot. simpl.
      unfold Mem.getUser in *. rewrite Hget. simpl.
      rewrite get_set_same. simpl. rewrite Hcnt. reflexivity.
    + exact Hs2.
    + rewrite Hs2. unfold s1, Mem.followUser. rewrite Hnot. simpl.
      unfold Mem.getUser in Hget. rewrite Hget.
      unfold MemContract.pair_rows. simpl.
      apply filter_values_set_fresh; [exact Hpair|exact Hnot].
    + rewrite Hs2. exact H1.
  - clear s F U user Hget Hcnt Hnot.
    rename F' into F, U' into U, user' into user, Hget' into Hget,
      Hcnt' into Hcnt.
    intros d1 d2. unfold Pg.getUser in *.
    assert (E1 : Pg.followUser db F U
                 = (Returned tt,
                    Pg.set_users
                      (Pg.set_follows db
                         (Pg.insert (Pg.follows db) (Pg.mkFollow F U false)))
                      (Pg.update (Pg.users db)
                         (fun u => Pg.with_followerCount u (Some 1%Z))
                         (Pg.user_is U)))).
    { unfold Pg.followUser. rewrite Hnone. simpl. rewrite Hget.
      unfold Pg.write_user_followerCount. simpl. rewrite Hcnt. reflexivity. }
    assert (Hrows : Pg.select (Pg.follows d1) (Pg.follow_of F U)
                    = [Pg.mkFollow F U false]).
    { unfold d1. rewrite E1. simpl. rewrite select_insert, Hnone. simpl.
      unfold Pg.follow_of. simpl. rewrite !String.eqb_refl. reflexivity. }
    assert (Hu1 : Pg.first_user d1 U
                  = Some (Pg.with_followerCount user (Some 1%Z))).
    { unfold d1. rewrite E1. unfold Pg.first_user. simpl.
      rewrite first_update_same by reflexivity.
      unfold Pg.first_user in Hget. rewrite Hget. reflexivity. }
    assert (E2 : Pg.followUser d1 F U
                 = (Returned tt,
                    Pg.set_follows
                      (Pg.set_users d1
                         (Pg.update (Pg.users d1)
                            (fun u => Pg.with_followerCount u (Some 2%Z))
                            (Pg.user_is U)))
                      (Pg.update (Pg.follows d1) (Pg.with_f_isDeleted false)
                         (Pg.follow_of F U)))).
    { unfold Pg.followUser. rewrite Hrows, Hu1. reflexivity. }
    assert (Hrows2 : Pg.select (Pg.follows d2) (Pg.follow_of F U)
                     = [Pg.mkFollow F U false]).
    { unfold d2. rewrite E2. simpl.
      rewrite select_update_same by reflexivity. rewrite Hrows. reflexivity. }
    repeat split.
    + rewrite E1. reflexivity.
    + rewrite Hu1. reflexivity.
    + rewrite E2. reflexivity.
    + exact Hrows2.
    + unfold Pg.isFollowing.
      assert (Hsel : Pg.select (Pg.follows d2)
                       (fun f => Pg.follow_of F U f
                                 && Bool.eqb (Pg.f_isDeleted f) false)
                     = [Pg.mkFollow F U false]).
      { unfold Pg.select in *.
        revert Hrows2. generalize (Pg.follows d2) as t.
        induction t as [|r t IH]; simpl; intros H; [discriminate|].
        destruct (Pg.follow_of F U r) eqn:E; simpl.
        - injection H as Hr Ht. subst r. simpl.
          f_equal. clear IH.
          induction t as [|r t IH]; simpl in *; [reflexivity|].
          destruct (Pg.follow_of F U r); [discriminate|]. simpl. auto.
        - apply IH. exact H. }
      rewrite Hsel. reflexivity.
Qed.

Lemma followUser_twice_witness :
  (let s1 := Mem.followUser Scenario.mem_two_users 1 2 in
   let s2 := Mem.followUser s1 1 2 in
   option_map Mem.u_followerCount (Mem.getUser s1 2) = Some (Some 1%Z)
   /\ s2 = s1
   /\ MemContract.pair_rows s2 1 2 = [Mem.mkFollow 1 1 2]
   /\ Mem.isFollowing s2 1 2 = true)
  /\
  (let d1 := snd (Pg.followUser Scenario.pg_two_users "F" "U") in
   let d2 := snd (Pg.followUser d1 "F" "U") in
   fst (Pg.followUser Scenario.pg_two_users "F" "U") = Returned tt
   /\ option_map Pg.u_followerCount (Pg.getUser d1 "U") = Some (Some 1%Z)
   /\ fst (Pg.followUser d1 "F" "U") = Returned tt
   /\ Pg.select (Pg.follows d2) (Pg.follow_of "F" "U")
      = [Pg.mkFollow "F" "U" false]
   /\ Pg.isFollowing d2 "F" "U" = true).
Proof.
  apply (followUser_twice Scenario.mem_two_users 1 2
           (Mem.mkUser 2 "u" "pw" None None None (Some 0%Z))
           Scenario.pg_two_users "F" "U"
           (Pg.mkUser "U" "u" None "pw" None None (Some 0%Z) false));
    reflexivity.
Defined.

(** ** Soft-delete flags on a relationship table *)
Section Flags.
Variable A : Type.
Variables (key del : A -> bool) (flag : bool -> A -> A).
Hypothesis key_flag : forall b r, key (flag b r) = key r.
Hypothesis del_flag : forall b r, del (flag b r) = b.
Hypothesis flag_same : forall r, flag (del r) r = r.

(** Flagging the rows of a pair that do not carry the flag yet is flagging
    all the rows of the pair. *)
Lemma update_unflag_where : forall t,
  Pg.update t (flag false) (fun r => key r && Bool.eqb (del r) true)
  = Pg.update t (flag false) key.
Proof.
  intros t. unfold Pg.update. apply map_ext. intros r.
  destruct (key r) eqn:K; simpl; [|reflexivity].
  destruct (del r) eqn:D; simpl; [reflexivity|].
  rewrite <- D at 1. symmetry. apply flag_same.
Qed.

Lemma update_flag_where : forall t,
  Pg.update t (flag true) (fun r => key r && Bool.eqb (del r) false)
  = Pg.update t (flag true) key.
Proof.
  intros t. unfold Pg.update. apply map_ext. intros r.
  destruct (key r) eqn:K; simpl; [|reflexivity].
  destruct (del r) eqn:D; simpl; [|reflexivity].
  rewrite <- D at 1. symmetry. apply flag_same.
Qed.

Lemma rows_after_flag : forall t b,
  List.length (Pg.select (Pg.update t (flag b) key) key)
  = List.length (Pg.select t key).
Proof. intros. apply select_update_inv. intros r. apply key_flag. Qed.

Lemma deleted_after_flag : forall t b,
  List.length
    (Pg.select (Pg.update t (flag b) key)
               (fun r => key r && Bool.eqb (del r) true))
  = if b then List.length (Pg.select t key) else 0.
Proof.
  intros t b. unfold Pg.select, Pg.update.
  induction t as [|r t IH]; simpl; [destruct b; reflexivity|].
  destruct (key r) eqn:K.
  - rewrite key_flag, K, del_flag. destruct b; simpl; auto.
  - rewrite K. simpl. exact IH.
Qed.

Lemma rows_after_insert : forall t r,
  key r = true ->
  List.length (Pg.select (Pg.insert t r) key)
  = S (List.length (Pg.select t key)).
Proof.
  intros t r K. rewrite select_insert, K, length_app. simpl. lia.
Qed.

Lemma deleted_after_insert : forall t r,
  del r = false ->
  Pg.select (Pg.insert t r) (fun r => key r && Bool.eqb (del r) true)
  = Pg.select t (fun r => key r && Bool.eqb (del r) true).
Proof.
  intros t r D. rewrite select_insert, D.
  rewrite andb_false_r. apply app_nil_r.
Qed.

Lemma deleted_le_rows : forall t,
  List.length (Pg.select t (fun r => key r && Bool.eqb (del r) true))
  <= List.length (Pg.select t key).
Proof.
  intros t. unfold Pg.select.
  induction t as [|r t IH]; simpl; [lia|].
  destruct (key r); simpl; [destruct (Bool.eqb (del r) true)|];
    simpl; lia.
Qed.

Lemma pair_state_toggled : forall t fresh,
  key fresh = true -> del fresh = false ->
  pair_state key del (toggled_rows key del flag t fresh)
  = toggled (pair_state key del t).
Proof.
  intros t fresh K D. unfold toggled_rows.
  pose proof (deleted_le_rows t) as Hle.
  destruct (pair_state key del t) eqn:S; unfold pair_state, rel_state in *;
    [ rewrite rows_after_insert, deleted_after_insert by assumption
    | rewrite rows_after_flag, deleted_after_flag
    | rewrite rows_after_flag, deleted_after_flag ];
    set (nr := List.length (Pg.select t key)) in *;
    set (nd := List.length
                 (Pg.select t (fun r => key r && Bool.eqb (del r) true)))
      in *;
    destruct nr, nd; simpl in *; try discriminate; try lia; reflexivity.
Qed.
End Flags.

(** ** The toggles of PostgresStorage *)

Lemma like_flag_same : forall l, Pg.with_l_isDeleted (Pg.l_isDeleted l) l = l.
Proof. intros []; reflexivity. Qed.

Lemma commentLike_flag_same : forall c,
  Pg.with_cl_isDeleted (Pg.cl_isDeleted c) c = c.
Proof. intros []; reflexivity. Qed.

Lemma follow_flag_same : forall f,
  Pg.with_f_isDeleted (Pg.f_isDeleted f) f = f.
Proof. intros []; reflexivity. Qed.

Lemma like_of_fresh : forall u p,
  Pg.like_of u p (Pg.mkLike u p false) = true.
Proof.
  intros. unfold Pg.like_of. simpl. rewrite !String.eqb_refl. reflexivity.
Qed.

Lemma commentLike_of_fresh : forall u c,
  Pg.commentLike_of u c (Pg.mkCommentLike u c false) = true.
Proof.
  intros. unfold Pg.commentLike_of. simpl. rewrite !String.eqb_refl.
  reflexivity.
Qed.

Lemma follow_of_fresh : forall f u,
  Pg.follow_of f u (Pg.mkFollow f u false) = true.
Proof.
  intros. unfold Pg.follow_of. simpl. rewrite !String.eqb_refl. reflexivity.
Qed.

(** [likePhoto] is the toggle of the pair followed by the counter write. *)
Lemma pg_likePhoto_toggle : forall db u p,
  Pg.likePhoto db u p
  = Pg.write_photo_likeCount
      (Pg.set_likes db
         (toggled_rows (Pg.like_of u p) Pg.l_isDeleted Pg.with_l_isDeleted
                       (Pg.likes db) (Pg.mkLike u p false)))
      (Pg.first_photo db p) p (delta (Contract.like_state db u p)).
Proof.
  intros db u p.
  unfold Pg.likePhoto, Contract.like_state, toggled_rows, pair_state,
    rel_state.
  destruct (List.length (Pg.select (Pg.likes db) (Pg.like_of u p)) =? 0);
    [reflexivity|].
  destruct (List.length (Pg.select (Pg.likes db) _) =? 0); simpl.
  - rewrite (update_flag_where _ (Pg.like_of u p) Pg.l_isDeleted
               Pg.with_l_isDeleted like_flag_same). reflexivity.
  - rewrite (update_unflag_where _ (Pg.like_of u p) Pg.l_isDeleted
               Pg.with_l_isDeleted like_flag_same). reflexivity.
Qed.

Lemma pg_likeComment_toggle : forall db u c,
  Pg.likeComment db u c
  = Pg.write_comment_likeCount
      (Pg.set_commentLikes db
         (toggled_rows (Pg.commentLike_of u c) Pg.cl_isDeleted
                       Pg.with_cl_isDeleted
                       (Pg.commentLikes db) (Pg.mkCommentLike u c false)))
      (Pg.first_comment db c) c (delta (Contract.commentLike_state db u c)).
Proof.
  intros db u c.
  unfold Pg.likeComment, Contract.commentLike_state, toggled_rows,
    pair_state, rel_state.
  destruct (List.length
              (Pg.select (Pg.commentLikes db) (Pg.commentLike_of u c)) =? 0);
    [reflexivity|].
  destruct (List.length (Pg.select (Pg.commentLikes db) _) =? 0); simpl.
  - rewrite (update_flag_where _ (Pg.commentLike_of u c) Pg.cl_isDeleted
               Pg.with_cl_isDeleted commentLike_flag_same). reflexivity.
  - rewrite (update_unflag_where _ (Pg.commentLike_of u c) Pg.cl_isDeleted
               Pg.with_cl_isDeleted commentLike_flag_same). reflexivity.
Qed.

Lemma pg_follow_toggle : forall db F U us,
  Pg.first_user db U = Some us ->
  match Contract.follow_state db F U with
  | ACTIVE => Pg.unfollowUser db F U
  | _ => Pg.followUser db F U
  end
  = (Returned tt,
     Pg.set_follows
       (Pg.set_users db
          (Pg.update (Pg.users db)
             (fun u => Pg.with_followerCount u
                (Some (js_add (Pg.u_followerCount us)
                              (delta (Contract.follow_state db F U)))))
             (Pg.user_is U)))
       (toggled_rows (Pg.follow_of F U) Pg.f_isDeleted Pg.with_f_isDeleted
                     (Pg.follows db) (Pg.mkFollow F U false))).
Proof.
  intros db F U us Hus.
  unfold Contract.follow_state, toggled_rows, pair_state, rel_state,
    Pg.followUser, Pg.unfollowUser.
  set (nd := List.length
               (Pg.select (Pg.follows db)
                  (fun r => Pg.follow_of F U r
                            && Bool.eqb (Pg.f_isDeleted r) true))).
  destruct (List.length (Pg.select (Pg.follows db) (Pg.follow_of F U)) =? 0)
    eqn:R.
  - simpl. unfold Pg.first_user in *. simpl. rewrite Hus. reflexivity.
  - destruct (nd =? 0); simpl; rewrite ?R, Hus; reflexivity.
Qed.

Lemma pg_likePhoto_found : forall db u p ph,
  Pg.first_photo db p = Some ph ->
  Pg.likePhoto db u p
  = (Returned tt,
     Pg.set_photos
       (Pg.set_likes db
          (toggled_rows (Pg.like_of u p) Pg.l_isDeleted Pg.with_l_isDeleted
                        (Pg.likes db) (Pg.mkLike u p false)))
       (Pg.update (Pg.photos db)
          (fun x => Pg.with_p_likeCount x
             (Some (js_add (Pg.p_likeCount ph)
                           (delta (Contract.like_state db u p)))))
          (Pg.photo_is p))).
Proof.
  intros db u p ph Hph. rewrite pg_likePhoto_toggle, Hph. reflexivity.
Qed.

Lemma pg_likeComment_found : forall db u c cm,
  Pg.first_comment db c = Some cm ->
  Pg.likeComment db u c
  = (Returned tt,
     Pg.set_comments
       (Pg.set_commentLikes db
          (toggled_rows (Pg.commentLike_of u c) Pg.cl_isDeleted
                        Pg.with_cl_isDeleted
                        (Pg.commentLikes db) (Pg.mkCommentLike u c false)))
       (Pg.update (Pg.comments db)
          (fun x => Pg.with_c_likeCount x
             (Some (js_add (Pg.c_likeCount cm)
                           (delta (Contract.commentLike_state db u c)))))
          (Pg.comment_is c))).
Proof.
  intros db u c cm Hcm. rewrite pg_likeComment_toggle, Hcm. reflexivity.
Qed.

Lemma pg_pair_toggled_like : forall t u p,
  pair_state (Pg.like_of u p) Pg.l_isDeleted
    (toggled_rows (Pg.like_of u p) Pg.l_isDeleted Pg.with_l_isDeleted t
                  (Pg.mkLike u p false))
  = toggled (pair_state (Pg.like_of u p) Pg.l_isDeleted t).
Proof.
  intros t u p. apply pair_state_toggled; try reflexivity.
  apply like_of_fresh.
Qed.

Lemma pg_pair_toggled_commentLike : forall t u c,
  pair_state (Pg.commentLike_of u c) Pg.cl_isDeleted
    (toggled_rows (Pg.commentLike_of u c) Pg.cl_isDeleted
                  Pg.with_cl_isDeleted t (Pg.mkCommentLike u c false))
  = toggled (pair_state (Pg.commentLike_of u c) Pg.cl_isDeleted t).
Proof.
  intros t u c. apply pair_state_toggled; try reflexivity.
  apply commentLike_of_fresh.
Qed.

Lemma pg_pair_toggled_follow : forall t f u,
  pair_state (Pg.follow_of f u) Pg.f_isDeleted
    (toggled_rows (Pg.follow_of f u) Pg.f_isDeleted Pg.with_f_isDeleted t
                  (Pg.mkFollow f u false))
  = toggled (pair_state (Pg.follow_of f u) Pg.f_isDeleted t).
Proof.
  intros t f u. apply pair_state_toggled; try reflexivity.
  apply follow_of_fresh.
Qed.

Lemma toggled_not_absent : forall s, toggled s <> ABSENT.
Proof. intros []; discriminate. Qed.

(** C2 as stated fails for Follow and for CommentLike: [followUser] on an
    ACTIVE pair leaves it ACTIVE and adds 1 (it neither flags the row nor
    subtracts), and [unlikeComment] on an ACTIVE pair takes it back to
    ABSENT. *)
Lemma active_pair_not_toggled :
  (let d1 := snd (Pg.followUser Scenario.pg_two_users "F" "U") in
   let d2 := snd (Pg.followUser d1 "F" "U") in
   Contract.follow_state d1 "F" "U" = ACTIVE
   /\ Contract.follow_state d2 "F" "U" = ACTIVE
   /\ option_map Pg.u_followerCount (Pg.getUser d1 "U") = Some (Some 1%Z)
   /\ option_map Pg.u_followerCount (Pg.getUser d2 "U") = Some (Some 2%Z))
  /\
  (let d1 := snd (Pg.likeComment Scenario.pg_one_photo "O" "C") in
   let d2 := snd (Pg.unlikeComment d1 "O" "C") in
   Contract.commentLike_state d1 "O" "C" = ACTIVE
   /\ Contract.commentLike_state d2 "O" "C" = ABSENT
   /\ Pg.commentLikes d2 = []).
Proof. repeat split. Qed.

(** C2, amended: in PostgresStorage, on a target that exists, [likePhoto]
    and [likeComment] move the pair through ABSENT -> ACTIVE -> INACTIVE ->
    ACTIVE -> ...: on an ABSENT pair a row is inserted and the counter gets
    +1, on an ACTIVE pair the rows of the pair are flagged deleted and the
    counter gets -1, on an INACTIVE pair the flag is cleared and the counter
    gets +1, and the pair is never ABSENT after the call.  Follow has the
    same transitions split over two methods: [followUser] on a pair that is
    not ACTIVE and [unfollowUser] on a pair that is ACTIVE.  Each kind asks
    for its own target only: [likePhoto] for the photo, [likeComment] for
    the comment, the follow methods for the followed user. *)
Theorem pg_toggle_state_machine :
  forall (db : Pg.DB),
    (forall (u p : Pg.uuid) (ph : Pg.Photo),
     Pg.first_photo db p = Some ph ->
     let s := Contract.like_state db u p in
     let r := Pg.likePhoto db u p in
     fst r = Returned tt
     /\ Pg.likes (snd r)
        = toggled_rows (Pg.like_of u p) Pg.l_isDeleted Pg.with_l_isDeleted
                       (Pg.likes db) (Pg.mkLike u p false)
     /\ Contract.like_state (snd r) u p = toggled s
     /\ Contract.like_state (snd r) u p <> ABSENT
     /\ option_map Pg.p_likeCount (Pg.first_photo (snd r) p)
        = Some (Some (js_add (Pg.p_likeCount ph) (delta s))))
    /\
    (forall (u c : Pg.uuid) (cm : Pg.Comment),
     Pg.first_comment db c = Some cm ->
     let s := Contract.commentLike_state db u c in
     let r := Pg.likeComment db u c in
     fst r = Returned tt
     /\ Pg.commentLikes (snd r)
        = toggled_rows (Pg.commentLike_of u c) Pg.cl_isDeleted
                       Pg.with_cl_isDeleted
                       (Pg.commentLikes db) (Pg.mkCommentLike u c false)
     /\ Contract.commentLike_state (snd r) u c = toggled s
     /\ Contract.commentLike_state (snd r) u c <> ABSENT
     /\ option_map Pg.c_likeCount (Pg.first_comment (snd r) c)
        = Some (Some (js_add (Pg.c_likeCount cm) (delta s))))
    /\
    (forall (F U : Pg.uuid) (us : Pg.User),
     Pg.first_user db U = Some us ->
     let s := Contract.follow_state db F U in
     let r := match s with
              | ACTIVE => Pg.unfollowUser db F U
              | _ => Pg.followUser db F U
              end in
     fst r = Returned tt
     /\ Pg.follows (snd r)
        = toggled_rows (Pg.follow_of F U) Pg.f_isDeleted Pg.with_f_isDeleted
                       (Pg.follows db) (Pg.mkFollow F U false)
     /\ Contract.follow_state (snd r) F U = toggled s
     /\ Contract.follow_state (snd r) F U <> ABSENT
     /\ option_map Pg.u_followerCount (Pg.first_user (snd r) U)
        = Some (Some (js_add (Pg.u_followerCount us) (delta s)))).
Proof.
  intros db. split; [|split].
  - intros u p ph Hph s r. unfold r.
    rewrite (pg_likePhoto_found db u p ph Hph). simpl.
    assert (St : Contract.like_state
                   (Pg.set_photos
                      (Pg.set_likes db
                         (toggled_rows (Pg.like_of u p) Pg.l_isDeleted
                            Pg.with_l_isDeleted (Pg.likes db)
                            (Pg.mkLike u p false)))
                      (Pg.update (Pg.photos db)
                         (fun x => Pg.with_p_likeCount x
                            (Some (js_add (Pg.p_likeCount ph)
                               (delta (Contract.like_state db u p)))))
                         (Pg.photo_is p))) u p = toggled s).
    { unfold Contract.like_state. simpl.
      apply pg_pair_toggled_like. }
    repeat split; try assumption.
    + rewrite St. apply toggled_not_absent.
    + unfold Pg.first_photo in *. simpl.
      rewrite first_update_same by reflexivity. rewrite Hph. reflexivity.
  - intros u c cm Hcm s r. unfold r.
    rewrite (pg_likeComment_found db u c cm Hcm). simpl.
    assert (St : Contract.commentLike_state
                   (Pg.set_comments
                      (Pg.set_commentLikes db
                         (toggled_rows (Pg.commentLike_of u c)
                            Pg.cl_isDeleted Pg.with_cl_isDeleted
                            (Pg.commentLikes db)
                            (Pg.mkCommentLike u c false)))
                      (Pg.update (Pg.comments db)
                         (fun x => Pg.with_c_likeCount x
                            (Some (js_add (Pg.c_likeCount cm)
                               (delta (Contract.commentLike_state db u c)))))
                         (Pg.comment_is c))) u c = toggled s).
    { unfold Contract.commentLike_state. simpl.
      apply pg_pair_toggled_commentLike. }
    repeat split; try assumption.
    + rewrite St. apply toggled_not_absent.
    + unfold Pg.first_comment in *. simpl.
      rewrite first_update_same by reflexivity. rewrite Hcm. reflexivity.
  - intros F U us Hus s r. unfold r, s.
    rewrite (pg_follow_toggle db F U us Hus). simpl.
    assert (St : Contract.follow_state
                   (Pg.set_follows
                      (Pg.set_users db
                         (Pg.update (Pg.users db)
                            (fun x => Pg.with_followerCount x
                               (Some (js_add (Pg.u_followerCount us)
                                  (delta (Contract.follow_state db F U)))))
                            (Pg.user_is U)))
                      (toggled_rows (Pg.follow_of F U) Pg.f_isDeleted
                         Pg.with_f_isDeleted (Pg.follows db)
                         (Pg.mkFollow F U false))) F U
                 = toggled (Contract.follow_state db F U)).
    { unfold Contract.follow_state. simpl.
      apply pg_pair_toggled_follow. }
    repeat split; try assumption.
    + rewrite St. apply toggled_not_absent.
    + unfold Pg.first_user in *. simpl.
      rewrite first_update_same by reflexivity. rewrite Hus. reflexivity.
Qed.

Lemma pg_toggle_state_machine_witness :
  (fst (Pg.likePhoto Scenario.pg_one_photo "O" "P") = Returned tt
   /\ Pg.likes (snd (Pg.likePhoto Scenario.pg_one_photo "O" "P"))
      = [Pg.mkLike "O" "P" false]
   /\ Contract.like_state (snd (Pg.likePhoto Scenario.pg_one_photo "O" "P"))
        "O" "P" = ACTIVE
   /\ Contract.like_state (snd (Pg.likePhoto Scenario.pg_one_photo "O" "P"))
        "O" "P" <> ABSENT
   /\ option_map Pg.p_likeCount
        (Pg.first_photo (snd (Pg.likePhoto Scenario.pg_one_photo "O" "P"))
           "P") = Some (Some 1%Z))
  /\
  (fst (Pg.likeComment Scenario.pg_one_photo "O" "C") = Returned tt
   /\ Pg.commentLikes (snd (Pg.likeComment Scenario.pg_one_photo "O" "C"))
      = [Pg.mkCommentLike "O" "C" false]
   /\ Contract.commentLike_state
        (snd (Pg.likeComment Scenario.pg_one_photo "O" "C")) "O" "C" = ACTIVE
   /\ Contract.commentLike_state
        (snd (Pg.likeComment Scenario.pg_one_photo "O" "C")) "O" "C"
      <> ABSENT
   /\ option_map Pg.c_likeCount
        (Pg.first_comment
           (snd (Pg.likeComment Scenario.pg_one_photo "O" "C")) "C")
      = Some (Some 1%Z))
  /\
  (fst (Pg.followUser Scenario.pg_one_photo "X" "O") = Returned tt
   /\ Pg.follows (snd (Pg.followUser Scenario.pg_one_photo "X" "O"))
      = [Pg.mkFollow "X" "O" false]
   /\ Contract.follow_state
        (snd (Pg.followUser Scenario.pg_one_photo "X" "O")) "X" "O" = ACTIVE
   /\ Contract.follow_state
        (snd (Pg.followUser Scenario.pg_one_photo "X" "O")) "X" "O"
      <> ABSENT
   /\ option_map Pg.u_followerCount
        (Pg.first_user (snd (Pg.followUser Scenario.pg_one_photo "X" "O"))
           "O") = Some (Some 1%Z)).
Proof.
  destruct (pg_toggle_state_machine Scenario.pg_one_photo)
    as [Hlike [Hcomment Hfollow]].
  split; [|split].
  - apply (Hlike "O" "P"
             (Pg.mkPhoto "P" "O" "img" None (Some 0%Z) (Some 1%Z) 0%Z
                         false)).
    reflexivity.
  - apply (Hcomment "O" "C"
             (Pg.mkComment "C" "O" "P" "hi" (Some 0%Z) 0%Z false)).
    reflexivity.
  - apply (Hfollow "X" "O"
             (Pg.mkUser "O" "o" None "pw" None None (Some 0%Z) false)).
    reflexivity.
Defined.

(** ** Two toggles in a row *)

Lemma photo_is_other : forall p q r,
  p <> q -> Pg.photo_is p r = true -> Pg.photo_is q r = false.
Proof.
  unfold Pg.photo_is. intros p q r Hne H.
  apply String.eqb_eq in H. rewrite H. apply String.eqb_neq. exact Hne.
Qed.

Lemma comment_is_other : forall p q r,
  p <> q -> Pg.comment_is p r = true -> Pg.comment_is q r = false.
Proof.
  unfold Pg.comment_is. intros p q r Hne H.
  apply String.eqb_eq in H. rewrite H. apply String.eqb_neq. exact Hne.
Qed.


(** The first photo with a given id after the counter write. *)
Lemma first_photo_after_write : forall db photo p d q,
  Pg.first_photo (snd (Pg.write_photo_likeCount db photo p d)) q
  = match photo with
    | None => Pg.first_photo db q
    | Some ph =>
        if String.eqb p q
        then option_map
               (fun x => Pg.with_p_likeCount x
                           (Some (js_add (Pg.p_likeCount ph) d)))
               (Pg.first_photo db p)
        else Pg.first_photo db q
    end.
Proof.
  intros db [ph|] p d q; simpl; [|reflexivity].
  unfold Pg.first_photo. simpl.
  destruct (String.eqb_spec p q) as [->|Hne].
  - apply first_update_same. reflexivity.
  - apply first_update_other; [reflexivity|].
    intros r. apply photo_is_other. exact Hne.
Qed.

Lemma first_comment_after_write : forall db comment c d q,
  Pg.first_comment (snd (Pg.write_comment_likeCount db comment c d)) q
  = match comment with
    | None => Pg.first_comment db q
    | Some cm =>
        if String.eqb c q
        then option_map
               (fun x => Pg.with_c_likeCount x
                           (Some (js_add (Pg.c_likeCount cm) d)))
               (Pg.first_comment db c)
        else Pg.first_comment db q
    end.
Proof.
  intros db [cm|] c d q; simpl; [|reflexivity].
  unfold Pg.first_comment. simpl.
  destruct (String.eqb_spec c q) as [->|Hne].
  - apply first_update_same. reflexivity.
  - apply first_update_other; [reflexivity|].
    intros r. apply comment_is_other. exact Hne.
Qed.

Lemma likes_after_write : forall db photo p d,
  Pg.likes (snd (Pg.write_photo_likeCount db photo p d)) = Pg.likes db.
Proof. intros db [ph|] p d; reflexivity. Qed.

Lemma commentLikes_after_write : forall db comment c d,
  Pg.commentLikes (snd (Pg.write_comment_likeCount db comment c d))
  = Pg.commentLikes db.
Proof. intros db [cm|] c d; reflexivity. Qed.

Lemma first_photo_set_likes : forall db t q,
  Pg.first_photo (Pg.set_likes db t) q = Pg.first_photo db q.
Proof. reflexivity. Qed.

Lemma first_comment_set_commentLikes : forall db t q,
  Pg.first_comment (Pg.set_commentLikes db t) q = Pg.first_comment db q.
Proof. reflexivity. Qed.

Lemma delta_toggled : forall s, (delta s + delta (toggled s) = 0)%Z.
Proof. intros []; reflexivity. Qed.

Lemma shown_back : forall c s,
  shown (Some (js_add (Some (js_add c (delta s))) (delta (toggled s))))
  = shown c.
Proof.
  intros c s. pose proof (delta_toggled s) as H.
  destruct c; unfold shown, js_add; lia.
Qed.

(** C3 as stated fails in MemStorage: [likePhoto] is not a toggle there,
    two calls take the counter of photo 1 from 0 to 2. *)
Lemma mem_likePhoto_twice_adds_two :
  option_map Mem.p_likeCount (JsMap.get (Mem.photos Scenario.mem_one_photo) 1)
  = Some (Some 0%Z)
  /\ option_map Mem.p_likeCount
       (JsMap.get
          (Mem.photos
             (Mem.likePhoto (Mem.likePhoto Scenario.mem_one_photo 1 1) 1 1))
          1)
     = Some (Some 2%Z).
Proof. split; reflexivity. Qed.

(** C3, amended: in PostgresStorage, for every actor, every target and
    every starting state, two calls of [likePhoto] in a row (and two calls of
    [likeComment] in a row) leave every counter showing the value it showed
    before the first call. *)
Theorem pg_double_toggle_restores_counter :
  forall (db : Pg.DB) (u p q : Pg.uuid),
    option_map (fun x => shown (Pg.p_likeCount x))
      (Pg.first_photo
         (snd (Pg.likePhoto (snd (Pg.likePhoto db u p)) u p)) q)
    = option_map (fun x => shown (Pg.p_likeCount x)) (Pg.first_photo db q)
    /\
    option_map (fun x => shown (Pg.c_likeCount x))
      (Pg.first_comment
         (snd (Pg.likeComment (snd (Pg.likeComment db u p)) u p)) q)
    = option_map (fun x => shown (Pg.c_likeCount x)) (Pg.first_comment db q).
Proof.
  intros db u p q. split.
  - rewrite (pg_likePhoto_toggle (snd (Pg.likePhoto db u p))).
    rewrite first_photo_after_write.
    assert (St : Contract.like_state (snd (Pg.likePhoto db u p)) u p
                 = toggled (Contract.like_state db u p)).
    { unfold Contract.like_state. rewrite pg_likePhoto_toggle.
      rewrite likes_after_write. simpl. apply pg_pair_toggled_like. }
    rewrite St.
    assert (F1 : forall q',
      Pg.first_photo (snd (Pg.likePhoto db u p)) q'
      = match Pg.first_photo db p with
        | None => Pg.first_photo db q'
        | Some ph =>
            if String.eqb p q'
            then option_map
                   (fun x => Pg.with_p_likeCount x
                      (Some (js_add (Pg.p_likeCount ph)
                                    (delta (Contract.like_state db u p)))))
                   (Pg.first_photo db p)
            else Pg.first_photo db q'
        end).
    { intros q'. rewrite pg_likePhoto_toggle, first_photo_after_write.
      reflexivity. }
    rewrite !first_photo_set_likes, !F1.
    destruct (Pg.first_photo db p) as [ph|] eqn:Hp; [|reflexivity].
    rewrite String.eqb_refl. simpl.
    destruct (String.eqb_spec p q) as [->|Hne]; [|reflexivity].
    rewrite Hp. simpl. f_equal. apply shown_back.
  - rewrite (pg_likeComment_toggle (snd (Pg.likeComment db u p))).
    rewrite first_comment_after_write.
    assert (St : Contract.commentLike_state (snd (Pg.likeComment db u p)) u p
                 = toggled (Contract.commentLike_state db u p)).
    { unfold Contract.commentLike_state. rewrite pg_likeComment_toggle.
      rewrite commentLikes_after_write. simpl.
      apply pg_pair_toggled_commentLike. }
    rewrite St.
    assert (F1 : forall q',
      Pg.first_comment (snd (Pg.likeComment db u p)) q'
      = match Pg.first_comment db p with
        | None => Pg.first_comment db q'
        | Some cm =>
            if String.eqb p q'
            then option_map
                   (fun x => Pg.with_c_likeCount x
                      (Some (js_add (Pg.c_likeCount cm)
                               (delta (Contract.commentLike_state db u p)))))
                   (Pg.first_comment db p)
            else Pg.first_comment db q'
        end).
    { intros q'. rewrite pg_likeComment_toggle, first_comment_after_write.
      reflexivity. }
    rewrite !first_comment_set_commentLikes, !F1.
    destruct (Pg.first_comment db p) as [cm|] eqn:Hp; [|reflexivity].
    rewrite String.eqb_refl. simpl.
    destruct (String.eqb_spec p q) as [->|Hne]; [|reflexivity].
    rewrite Hp. simpl. f_equal. apply shown_back.
Qed.

(** ** A target that does not exist *)

(** C4: the failing input.  The database holds one user and no photo; the
    user likes a photo id that is a well-formed uuid and has no row.  The
    claim asks for a [NotFoundError] and an unchanged store.
    [PostgresStorage.likePhoto] has inserted the Like row when reading the
    counter of the missing photo throws a [TypeError], so the row stays;
    [MemStorage.likePhoto] on a photo id that is not stored leaves the store
    as it is but returns normally, with no error. *)
Theorem likePhoto_of_missing_photo :
  let u := "11111111-1111-4111-8111-111111111111" in
  let p := "22222222-2222-4222-8222-222222222222" in
  let db := Pg.run Pg.empty [Pg.CreateUser u "u" "pw"] in
  let r := Pg.likePhoto db u p in
  Pg.canonical_uuid u = true /\ Pg.canonical_uuid p = true
  /\ Pg.first_photo db p = None
  /\ Pg.likes db = []
  /\ fst r = Thrown TypeError
  /\ Pg.likes (snd r) = [Pg.mkLike u p false]
  /\ Contract.active_likes (snd r) p = 1
  /\ JsMap.get (Mem.photos Scenario.mem_two_users) 7 = None
  /\ Mem.likePhoto Scenario.mem_two_users 1 7 = Scenario.mem_two_users.
Proof. repeat split. Qed.

(** ** Relationship rows are kept *)

Ltac break_inner :=
  match goal with
  | |- context [match ?x with _ => _ end] =>
      lazymatch x with
      | context [match _ with _ => _ end] => fail
      | _ => destruct x eqn:?
      end
  end.

Ltac pg_unfold :=
  unfold Pg.createUser, Pg.updateUserProfile, Pg.createPhoto, Pg.likePhoto,
    Pg.followUser, Pg.unfollowUser, Pg.createComment, Pg.likeComment,
    Pg.unlikeComment, Pg.createNotification, Pg.markNotificationAsRead,
    Pg.markAllNotificationsAsRead, Pg.write_photo_likeCount,
    Pg.write_photo_commentCount, Pg.write_comment_likeCount,
    Pg.write_user_followerCount.

Lemma rows_kept_same : forall l, Contract.rows_kept l l.
Proof. intros l. exists []. symmetry. apply app_nil_r. Qed.

Lemma rows_kept_trans : forall l1 l2 l3,
  Contract.rows_kept l1 l2 -> Contract.rows_kept l2 l3 ->
  Contract.rows_kept l1 l3.
Proof.
  intros l1 l2 l3 [a ->] [b ->]. exists (a ++ b). symmetry. apply app_assoc.
Qed.

Section KeysKept.
Variable A : Type.
Variable k : A -> Pg.uuid * Pg.uuid.

Lemma keys_insert : forall t r,
  Contract.rows_kept (map k t) (map k (Pg.insert t r)).
Proof.
  intros t r. exists [k r]. unfold Pg.insert. apply map_app.
Qed.

Lemma keys_update : forall t g w,
  (forall r, k (g r) = k r) ->
  Contract.rows_kept (map k t) (map k (Pg.update t g w)).
Proof.
  intros t g w Hk. exists []. rewrite app_nil_r.
  unfold Pg.update. rewrite map_map. apply map_ext.
  intros r. destruct (w r); [apply Hk|reflexivity].
Qed.
End KeysKept.

Ltac rows_kept_tac :=
  first [ apply rows_kept_same
        | apply keys_insert
        | apply keys_update; reflexivity ].

Lemma pg_step_keeps_likes : forall db o,
  Contract.rows_kept (map Contract.like_key (Pg.likes db))
                     (map Contract.like_key (Pg.likes (Pg.step db o))).
Proof.
  intros db o. destruct o; simpl; pg_unfold;
    repeat break_inner; simpl; rows_kept_tac.
Qed.

Lemma pg_step_keeps_follows : forall db o,
  Contract.rows_kept (map Contract.follow_key (Pg.follows db))
                     (map Contract.follow_key (Pg.follows (Pg.step db o))).
Proof.
  intros db o. destruct o; simpl; pg_unfold;
    repeat break_inner; simpl; rows_kept_tac.
Qed.

Lemma pg_step_keeps_commentLikes : forall db o,
  Contract.is_unlikeComment o = false ->
  Contract.rows_kept
    (map Contract.commentLike_key (Pg.commentLikes db))
    (map Contract.commentLike_key (Pg.commentLikes (Pg.step db o))).
Proof.
  intros db o Ho. destruct o; try discriminate; simpl; pg_unfold;
    repeat break_inner; simpl; rows_kept_tac.
Qed.

(** C7 as stated fails: [unlikeComment] of PostgresStorage deletes the
    CommentLike row that [likeComment] created, and [unfollowUser] of
    MemStorage deletes the Follow row that [followUser] created. *)
Lemma rows_physically_removed :
  (let d1 := snd (Pg.likeComment Scenario.pg_one_photo "O" "C") in
   Pg.commentLikes d1 = [Pg.mkCommentLike "O" "C" false]
   /\ Pg.commentLikes (snd (Pg.unlikeComment d1 "O" "C")) = [])
  /\
  (let s1 := Mem.followUser Scenario.mem_two_users 1 2 in
   Mem.follows s1 = [(1, Mem.mkFollow 1 1 2)]
   /\ Mem.follows (Mem.unfollowUser s1 1 2) = []).
Proof. repeat split. Qed.

(** C7, amended: in PostgresStorage no operation ever removes a Like row or
    a Follow row: after any sequence of operations the table still holds
    every earlier row, in place, with the same actor and target (only
    [isDeleted] may differ).  The same holds for CommentLike rows over every
    sequence of operations other than [unlikeComment]. *)
Theorem pg_rows_are_kept :
  forall (db : Pg.DB) (ops ops' : list Pg.Op),
    forallb (fun o => negb (Contract.is_unlikeComment o)) ops' = true ->
    Contract.rows_kept (map Contract.like_key (Pg.likes db))
                       (map Contract.like_key (Pg.likes (Pg.run db ops)))
    /\ Contract.rows_kept
         (map Contract.follow_key (Pg.follows db))
         (map Contract.follow_key (Pg.follows (Pg.run db ops)))
    /\ Contract.rows_kept
         (map Contract.commentLike_key (Pg.commentLikes db))
         (map Contract.commentLike_key (Pg.commentLikes (Pg.run db ops'))).
Proof.
  intros db ops ops' Hops'. repeat split.
  - revert db. induction ops as [|o ops IH]; intros db; simpl.
    + apply rows_kept_same.
    + eapply rows_kept_trans; [apply pg_step_keeps_likes|apply IH].
  - revert db. induction ops as [|o ops IH]; intros db; simpl.
    + apply rows_kept_same.
    + eapply rows_kept_trans; [apply pg_step_keeps_follows|apply IH].
  - clear ops. revert db. induction ops' as [|o ops IH]; intros db; simpl.
    + apply rows_kept_same.
    + simpl in Hops'. apply andb_true_iff in Hops'.
      destruct Hops' as [Ho Hops'].
      eapply rows_kept_trans;
        [apply pg_step_keeps_commentLikes|apply IH; exact Hops'].
      destruct (Contract.is_unlikeComment o); [discriminate|reflexivity].
Qed.

Lemma pg_rows_are_kept_witness :
  let ops := [Pg.LikePhoto "O" "P"; Pg.FollowUser "X" "O";
              Pg.LikePhoto "O" "P"; Pg.UnfollowUser "X" "O";
              Pg.LikeComment "O" "C"; Pg.UnlikeComment "O" "C"] in
  let ops' := [Pg.LikeComment "O" "C"; Pg.LikeComment "O" "C";
               Pg.LikePhoto "O" "P"] in
  Contract.rows_kept
    (map Contract.like_key (Pg.likes Scenario.pg_one_photo))
    (map Contract.like_key (Pg.likes (Pg.run Scenario.pg_one_photo ops)))
  /\ Contract.rows_kept
       (map Contract.follow_key (Pg.follows Scenario.pg_one_photo))
       (map Contract.follow_key
            (Pg.follows (Pg.run Scenario.pg_one_photo ops)))
  /\ Contract.rows_kept
       (map Contract.commentLike_key (Pg.commentLikes Scenario.pg_one_photo))
       (map Contract.commentLike_key
            (Pg.commentLikes (Pg.run Scenario.pg_one_photo ops'))).
Proof.
  intros ops ops'.
  apply (pg_rows_are_kept Scenario.pg_one_photo ops ops'). reflexivity.
Defined.

(** ** Counting the active rows of a target *)
Section ActiveRows.
Variable A : Type.
Variables (key tgt del : A -> bool) (flag : bool -> A -> A).
Hypothesis key_flag : forall b r, key (flag b r) = key r.
Hypothesis tgt_flag : forall b r, tgt (flag b r) = tgt r.
Hypothesis del_flag : forall b r, del (flag b r) = b.
Hypothesis flag_same : forall r, flag (del r) r = r.


Lemma rows_split : forall t,
  List.length (Pg.select t key)
  = List.length (Pg.select t (fun r => key r && Bool.eqb (del r) true))
    + List.length (Pg.select t (fun r => key r && Bool.eqb (del r) false)).
Proof.
  intros t. unfold Pg.select.
  induction t as [|r t IH]; simpl; [reflexivity|].
  destruct (key r); simpl; [|exact IH].
  destruct (del r); simpl; lia.
Qed.

Lemma act_flag : forall t,
  (forall r, key r = true -> tgt r = true) ->
  active_rows tgt del (Pg.update t (flag true) key)
  + List.length (Pg.select t (fun r => key r && Bool.eqb (del r) false))
  = active_rows tgt del t.
Proof.
  intros t Hsub. unfold active_rows, Pg.select, Pg.update.
  induction t as [|r t IH]; simpl; [reflexivity|].
  destruct (key r) eqn:K; simpl.
  - rewrite tgt_flag, del_flag, (Hsub r K). simpl.
    destruct (del r); simpl; lia.
  - destruct (tgt r && Bool.eqb (del r) false); simpl; lia.
Qed.

Lemma act_unflag : forall t,
  (forall r, key r = true -> tgt r = true) ->
  active_rows tgt del (Pg.update t (flag false) key)
  = active_rows tgt del t
    + List.length (Pg.select t (fun r => key r && Bool.eqb (del r) true)).
Proof.
  intros t Hsub. unfold active_rows, Pg.select, Pg.update.
  induction t as [|r t IH]; simpl; [reflexivity|].
  destruct (key r) eqn:K; simpl.
  - rewrite tgt_flag, del_flag, (Hsub r K). simpl.
    destruct (del r); simpl; lia.
  - destruct (tgt r && Bool.eqb (del r) false); simpl; lia.
Qed.

Lemma act_insert : forall t r,
  active_rows tgt del (Pg.insert t r)
  = active_rows tgt del t + (if tgt r && Bool.eqb (del r) false then 1 else 0).
Proof.
  intros t r. unfold active_rows. rewrite select_insert, length_app.
  destruct (tgt r && Bool.eqb (del r) false); reflexivity.
Qed.

(** A toggle moves the active rows of its own target by [delta]. *)
Lemma act_toggled_same : forall t fresh,
  (forall r, key r = true -> tgt r = true) ->
  key fresh = true -> del fresh = false ->
  List.length (Pg.select t key) <= 1 ->
  Z.of_nat (active_rows tgt del (toggled_rows key del flag t fresh))
  = (Z.of_nat (active_rows tgt del t) + delta (pair_state key del t))%Z.
Proof.
  intros t fresh Hsub K D Hone.
  pose proof (rows_split t) as Hsplit.
  pose proof (act_flag t Hsub) as Hf.
  pose proof (act_unflag t Hsub) as Hu.
  unfold toggled_rows, pair_state, rel_state in *.
  set (nr := List.length (Pg.select t key)) in *.
  set (nd := List.length
               (Pg.select t (fun r => key r && Bool.eqb (del r) true)))
    in *.
  destruct nr as [|nr]; simpl.
  - rewrite act_insert, (Hsub fresh K), D. simpl. lia.
  - destruct nd as [|nd]; simpl; lia.
Qed.

(** It leaves the active rows of every other target alone. *)
Lemma act_toggled_other : forall t fresh,
  (forall r, key r = true -> tgt r = false) ->
  key fresh = true ->
  active_rows tgt del (toggled_rows key del flag t fresh)
  = active_rows tgt del t.
Proof.
  intros t fresh Hdis K. unfold toggled_rows.
  destruct (pair_state key del t).
  - rewrite act_insert, (Hdis fresh K). simpl. lia.
  - unfold active_rows. f_equal. apply select_update_untouched.
    intros r Kr. rewrite tgt_flag, (Hdis r Kr). auto.
  - unfold active_rows. f_equal. apply select_update_untouched.
    intros r Kr. rewrite tgt_flag, (Hdis r Kr). auto.
Qed.

(** No pair gets a second row. *)
Lemma rows_toggled_le_one : forall t fresh (key' : A -> bool),
  (forall b r, key' (flag b r) = key' r) ->
  List.length (Pg.select t key') <= 1 ->
  (key' fresh = true -> pair_state key del t = ABSENT ->
   List.length (Pg.select t key') = 0) ->
  List.length (Pg.select (toggled_rows key del flag t fresh) key') <= 1.
Proof.
  intros t fresh key' Hk Hone Hfresh. unfold toggled_rows.
  destruct (pair_state key del t) eqn:S.
  - rewrite select_insert, length_app.
    destruct (key' fresh); simpl; [rewrite Hfresh by reflexivity|]; lia.
  - rewrite select_update_inv; [exact Hone|]. intros r. apply Hk.
  - rewrite select_update_inv; [exact Hone|]. intros r. apply Hk.
Qed.
End ActiveRows.

(** ** The counter invariant under the like toggles *)

Lemma first_none_all_false : forall (A : Type) (w : A -> bool) (t : list A),
  hd_error (Pg.select t w) = None -> forall x, In x t -> w x = false.
Proof.
  intros A w t. unfold Pg.select.
  induction t as [|r t IH]; simpl; intros H x Hx; [contradiction|].
  destruct (w r) eqn:E; [discriminate|].
  destruct Hx as [<-|Hx]; auto.
Qed.

Lemma first_some_in : forall (A : Type) (w : A -> bool) (t : list A) x,
  hd_error (Pg.select t w) = Some x -> In x t /\ w x = true.
Proof.
  intros A w t x H. unfold Pg.select in H.
  assert (Hin : In x (filter w t)).
  { destruct (filter w t); [discriminate|]. injection H as ->. left.
    reflexivity. }
  apply filter_In in Hin. exact Hin.
Qed.

Lemma in_update : forall (A : Type) (t : list A) g w y,
  In y (Pg.update t g w) ->
  exists x, In x t /\ y = if w x then g x else x.
Proof.
  intros A t g w y H. unfold Pg.update in H. apply in_map_iff in H.
  destruct H as [x [Hx Hin]]. exists x. auto.
Qed.

Lemma like_of_same_photo : forall u p r,
  Pg.like_of u p r = true -> String.eqb (Pg.l_photoId r) p = true.
Proof.
  unfold Pg.like_of. intros u p r H. apply andb_true_iff in H. tauto.
Qed.

Lemma like_of_other_photo : forall u p q r,
  p <> q -> Pg.like_of u p r = true -> String.eqb (Pg.l_photoId r) q = false.
Proof.
  intros u p q r Hne H. apply like_of_same_photo in H.
  apply String.eqb_eq in H. rewrite H. apply String.eqb_neq. exact Hne.
Qed.

Lemma active_likes_after_likePhoto : forall db u p q,
  List.length (Pg.select (Pg.likes db) (Pg.like_of u p)) <= 1 ->
  Z.of_nat (Contract.active_likes (snd (Pg.likePhoto db u p)) q)
  = (Z.of_nat (Contract.active_likes db q)
     + (if String.eqb p q then delta (Contract.like_state db u p) else 0))%Z.
Proof.
  intros db u p q Hone. unfold Contract.active_likes.
  rewrite pg_likePhoto_toggle, likes_after_write. simpl.
  destruct (String.eqb_spec p q) as [<-|Hne].
  - apply act_toggled_same; try reflexivity; try assumption.
    + intros r. apply like_of_same_photo.
    + apply like_of_fresh.
  - rewrite Z.add_0_r. f_equal.
    apply act_toggled_other; try reflexivity.
    + intros r. apply like_of_other_photo. exact Hne.
    + apply like_of_fresh.
Qed.

Lemma like_pairs_after_likePhoto : forall db u p,
  (forall u' p',
     List.length (Pg.select (Pg.likes db) (Pg.like_of u' p')) <= 1) ->
  forall u' p',
    List.length
      (Pg.select (Pg.likes (snd (Pg.likePhoto db u p))) (Pg.like_of u' p'))
    <= 1.
Proof.
  intros db u p Hone u' p'.
  rewrite pg_likePhoto_toggle, likes_after_write. simpl.
  apply rows_toggled_le_one; try reflexivity; [apply Hone|].
  intros Hk Habs. unfold Pg.like_of in Hk. simpl in Hk.
  apply andb_true_iff in Hk. destruct Hk as [Hu Hp].
  apply String.eqb_eq in Hu, Hp. subst u' p'.
  unfold pair_state, rel_state in Habs.
  destruct (List.length (Pg.select (Pg.likes db) (Pg.like_of u p)));
    [reflexivity|].
  simpl in Habs. destruct (_ =? 0); discriminate.
Qed.

Lemma pg_likePhoto_keeps_sync : forall db u p,
  Contract.likes_in_sync db ->
  Contract.likes_in_sync (snd (Pg.likePhoto db u p)).
Proof.
  intros db u p [Hcnt Hone]. split.
  - intros ph' Hin.
    rewrite active_likes_after_likePhoto by apply Hone.
    rewrite pg_likePhoto_toggle in Hin.
    unfold Pg.write_photo_likeCount in Hin.
    destruct (Pg.first_photo db p) as [ph|] eqn:Hp; simpl in Hin.
    + apply in_update in Hin. destruct Hin as [x [Hx ->]].
      apply first_some_in in Hp. destruct Hp as [Hph Hid].
      unfold Pg.photo_is in *. apply String.eqb_eq in Hid.
      destruct (String.eqb_spec (Pg.p_id x) p) as [Hxp|Hxp]; simpl.
      * rewrite Hxp, String.eqb_refl.
        rewrite (Hcnt ph Hph), Hid. reflexivity.
      * assert (E : String.eqb p (Pg.p_id x) = false).
        { apply String.eqb_neq. congruence. }
        rewrite E, Z.add_0_r. apply Hcnt. exact Hx.
    + pose proof (first_none_all_false _ _ _ Hp ph' Hin) as Hne.
      unfold Pg.photo_is in Hne. rewrite String.eqb_sym in Hne.
      rewrite Hne, Z.add_0_r. apply Hcnt. exact Hin.
  - apply like_pairs_after_likePhoto. exact Hone.
Qed.

Lemma commentLike_of_same_comment : forall u p r,
  Pg.commentLike_of u p r = true -> String.eqb (Pg.cl_commentId r) p = true.
Proof.
  unfold Pg.commentLike_of. intros u p r H. apply andb_true_iff in H. tauto.
Qed.

Lemma commentLike_of_other_comment : forall u p q r,
  p <> q -> Pg.commentLike_of u p r = true ->
  String.eqb (Pg.cl_commentId r) q = false.
Proof.
  intros u p q r Hne H. apply commentLike_of_same_comment in H.
  apply String.eqb_eq in H. rewrite H. apply String.eqb_neq. exact Hne.
Qed.

Lemma active_commentLikes_after_likeComment : forall db u p q,
  List.length (Pg.select (Pg.commentLikes db) (Pg.commentLike_of u p)) <= 1 ->
  Z.of_nat (Contract.active_commentLikes (snd (Pg.likeComment db u p)) q)
  = (Z.of_nat (Contract.active_commentLikes db q)
     + (if String.eqb p q
        then delta (Contract.commentLike_state db u p) else 0))%Z.
Proof.
  intros db u p q Hone. unfold Contract.active_commentLikes.
  rewrite pg_likeComment_toggle, commentLikes_after_write. simpl.
  destruct (String.eqb_spec p q) as [<-|Hne].
  - apply act_toggled_same; try reflexivity; try assumption.
    + intros r. apply commentLike_of_same_comment.
    + apply commentLike_of_fresh.
  - rewrite Z.add_0_r. f_equal.
    apply act_toggled_other; try reflexivity.
    + intros r. apply commentLike_of_other_comment. exact Hne.
    + apply commentLike_of_fresh.
Qed.

Lemma commentLike_pairs_after_likeComment : forall db u p,
  (forall u' p',
     List.length
       (Pg.select (Pg.commentLikes db) (Pg.commentLike_of u' p')) <= 1) ->
  forall u' p',
    List.length
      (Pg.select (Pg.commentLikes (snd (Pg.likeComment db u p)))
                 (Pg.commentLike_of u' p'))
    <= 1.
Proof.
  intros db u p Hone u' p'.
  rewrite pg_likeComment_toggle, commentLikes_after_write. simpl.
  apply rows_toggled_le_one; try reflexivity; [apply Hone|].
  intros Hk Habs. unfold Pg.commentLike_of in Hk. simpl in Hk.
  apply andb_true_iff in Hk. destruct Hk as [Hu Hp].
  apply String.eqb_eq in Hu, Hp. subst u' p'.
  unfold pair_state, rel_state in Habs.
  destruct (List.length
              (Pg.select (Pg.commentLikes db) (Pg.commentLike_of u p)));
    [reflexivity|].
  simpl in Habs. destruct (_ =? 0); discriminate.
Qed.

Lemma pg_likeComment_keeps_sync : forall db u p,
  Contract.commentLikes_in_sync db ->
  Contract.commentLikes_in_sync (snd (Pg.likeComment db u p)).
Proof.
  intros db u p [Hcnt Hone]. split.
  - intros ph' Hin.
    rewrite active_commentLikes_after_likeComment by apply Hone.
    rewrite pg_likeComment_toggle in Hin.
    unfold Pg.write_comment_likeCount in Hin.
    destruct (Pg.first_comment db p) as [ph|] eqn:Hp; simpl in Hin.
    + apply in_update in Hin. destruct Hin as [x [Hx ->]].
      apply first_some_in in Hp. destruct Hp as [Hph Hid].
      unfold Pg.comment_is in *. apply String.eqb_eq in Hid.
      destruct (String.eqb_spec (Pg.c_id x) p) as [Hxp|Hxp]; simpl.
      * rewrite Hxp, String.eqb_refl.
        rewrite (Hcnt ph Hph), Hid. reflexivity.
      * assert (E : String.eqb p (Pg.c_id x) = false).
        { apply String.eqb_neq. congruence. }
        rewrite E, Z.add_0_r. apply Hcnt. exact Hx.
    + pose proof (first_none_all_false _ _ _ Hp ph' Hin) as Hne.
      unfold Pg.comment_is in Hne. rewrite String.eqb_sym in Hne.
      rewrite Hne, Z.add_0_r. apply Hcnt. exact Hin.
  - apply commentLike_pairs_after_likeComment. exact Hone.
Qed.

Lemma pg_likePhoto_other_tables : forall db u p,
  Pg.comments (snd (Pg.likePhoto db u p)) = Pg.comments db
  /\ Pg.commentLikes (snd (Pg.likePhoto db u p)) = Pg.commentLikes db.
Proof.
  intros db u p. rewrite pg_likePhoto_toggle.
  destruct (Pg.first_photo db p); split; reflexivity.
Qed.

Lemma pg_likeComment_other_tables : forall db u c,
  Pg.photos (snd (Pg.likeComment db u c)) = Pg.photos db
  /\ Pg.likes (snd (Pg.likeComment db u c)) = Pg.likes db.
Proof.
  intros db u c. rewrite pg_likeComment_toggle.
  destruct (Pg.first_comment db c); split; reflexivity.
Qed.

Lemma likes_in_sync_ext : forall db db',
  Pg.photos db' = Pg.photos db -> Pg.likes db' = Pg.likes db ->
  Contract.likes_in_sync db -> Contract.likes_in_sync db'.
Proof.
  intros db db' Hp Hl [Hcnt Hone].
  unfold Contract.likes_in_sync, Contract.active_likes.
  rewrite Hp, Hl. split; assumption.
Qed.

Lemma commentLikes_in_sync_ext : forall db db',
  Pg.comments db' = Pg.comments db ->
  Pg.commentLikes db' = Pg.commentLikes db ->
  Contract.commentLikes_in_sync db -> Contract.commentLikes_in_sync db'.
Proof.
  intros db db' Hc Hl [Hcnt Hone].
  unfold Contract.commentLikes_in_sync, Contract.active_commentLikes.
  rewrite Hc, Hl. split; assumption.
Qed.

Lemma pg_like_toggle_keeps_sync : forall db o,
  Contract.is_like_toggle o = true ->
  Contract.likes_in_sync db /\ Contract.commentLikes_in_sync db ->
  Contract.likes_in_sync (Pg.step db o)
  /\ Contract.commentLikes_in_sync (Pg.step db o).
Proof.
  intros db o Ho [Hl Hc]. destruct o; try discriminate; simpl.
  - split; [apply pg_likePhoto_keeps_sync; exact Hl|].
    destruct (pg_likePhoto_other_tables db userId photoId) as [E1 E2].
    exact (commentLikes_in_sync_ext _ _ E1 E2 Hc).
  - split; [|apply pg_likeComment_keeps_sync; exact Hc].
    destruct (pg_likeComment_other_tables db userId commentId) as [E1 E2].
    exact (likes_in_sync_ext _ _ E1 E2 Hl).
Qed.

Lemma pg_like_toggles_keep_sync : forall ops db,
  forallb Contract.is_like_toggle ops = true ->
  Contract.likes_in_sync db /\ Contract.commentLikes_in_sync db ->
  Contract.likes_in_sync (Pg.run db ops)
  /\ Contract.commentLikes_in_sync (Pg.run db ops).
Proof.
  induction ops as [|o ops IH]; intros db Hops Hdb; simpl; [exact Hdb|].
  simpl in Hops. apply andb_true_iff in Hops. destruct Hops as [Ho Hops].
  apply IH; [exact Hops|]. apply pg_like_toggle_keeps_sync; assumption.
Qed.

(** A store without like rows whose like counters are all 0 is in sync. *)
Lemma no_like_rows_in_sync : forall db,
  Pg.likes db = [] -> Pg.commentLikes db = [] ->
  (forall ph, In ph (Pg.photos db) -> Pg.p_likeCount ph = Some 0%Z) ->
  (forall cm, In cm (Pg.comments db) -> Pg.c_likeCount cm = Some 0%Z) ->
  Contract.likes_in_sync db /\ Contract.commentLikes_in_sync db.
Proof.
  intros db Hl Hc Hp Hm.
  unfold Contract.likes_in_sync, Contract.commentLikes_in_sync,
    Contract.active_likes, Contract.active_commentLikes, active_rows.
  rewrite Hl, Hc. simpl. repeat split; auto.
Qed.

(** ** More facts about the JavaScript [Map] *)
Section JsMapDelete.
Variable V : Type.
Implicit Types (m : JsMap.t V) (k : nat) (v : V).

Lemma set_fresh : forall m k v,
  ~ In k (JsMap.keys m) -> JsMap.set m k v = m ++ [(k, v)].
Proof.
  unfold JsMap.keys.
  induction m as [|[k' v'] m IH]; intros k v Hk; simpl; [reflexivity|].
  simpl in Hk. destruct (k' =? k) eqn:E.
  - apply Nat.eqb_eq in E. tauto.
  - f_equal. apply IH. tauto.
Qed.

Lemma delete_absent : forall m k,
  ~ In k (JsMap.keys m) -> JsMap.delete m k = m.
Proof.
  unfold JsMap.keys, JsMap.delete.
  induction m as [|[k' v'] m IH]; intros k Hk; simpl; [reflexivity|].
  simpl in Hk. destruct (k' =? k) eqn:E; simpl.
  - apply Nat.eqb_eq in E. tauto.
  - f_equal. apply IH. tauto.
Qed.

Lemma keys_delete_in : forall m k k',
  In k' (JsMap.keys (JsMap.delete m k)) -> In k' (JsMap.keys m).
Proof.
  unfold JsMap.keys, JsMap.delete. intros m k k' H.
  apply in_map_iff in H. destruct H as [e [<- He]].
  apply filter_In in He. apply in_map. tauto.
Qed.

Lemma keys_delete_nodup : forall m k,
  NoDup (JsMap.keys m) -> NoDup (JsMap.keys (JsMap.delete m k)).
Proof.
  induction m as [|[k' v'] m IH]; intros k Hnd; simpl; [constructor|].
  inversion Hnd as [|x l Hnotin Hnd']; subst.
  destruct (k' =? k); simpl; [apply IH; exact Hnd'|].
  constructor; [|apply IH; exact Hnd'].
  intros Hin. apply Hnotin. apply (keys_delete_in m k). exact Hin.
Qed.

Variable P : V -> bool.

Lemma count_delete : forall m e,
  NoDup (JsMap.keys m) -> In e m ->
  List.length (filter P (JsMap.values (JsMap.delete m (fst e))))
  + (if P (snd e) then 1 else 0)
  = List.length (filter P (JsMap.values m)).
Proof.
  induction m as [|[k0 v0] m IH]; intros e Hnd Hin; [contradiction|].
  inversion Hnd as [|x l Hnotin Hnd']; subst.
  destruct Hin as [<-|Hin]; simpl.
  - rewrite Nat.eqb_refl. simpl.
    fold (JsMap.delete m k0). rewrite delete_absent by exact Hnotin.
    unfold JsMap.values. destruct (P v0); simpl; lia.
  - assert (Hne : k0 <> fst e).
    { intros ->. apply Hnotin. unfold JsMap.keys. apply in_map. exact Hin. }
    apply Nat.eqb_neq in Hne. rewrite Hne. simpl.
    fold (JsMap.delete m (fst e)).
    specialize (IH e Hnd' Hin). unfold JsMap.values in *.
    destruct (P v0); simpl; lia.
Qed.

Lemma existsb_count : forall (l : list V),
  existsb P l = (0 <? List.length (filter P l)).
Proof.
  induction l as [|x l IH]; simpl; [reflexivity|].
  destruct (P x); simpl; [reflexivity|exact IH].
Qed.
End JsMapDelete.

(** ** followUser and unfollowUser of MemStorage *)

Lemma find_entry : forall (V : Type) (P : V -> bool) (m : JsMap.t V),
  existsb P (JsMap.values m) = true ->
  exists e, find (fun e => P (snd e)) (JsMap.entries m) = Some e.
Proof.
  intros V P. unfold JsMap.values, JsMap.entries.
  induction m as [|e m IH]; simpl; intros H; [discriminate|].
  destruct (P (snd e)); [exists e; reflexivity|]. apply IH. exact H.
Qed.

Lemma find_no_entry : forall (V : Type) (P : V -> bool) (m : JsMap.t V),
  existsb P (JsMap.values m) = false ->
  find (fun e => P (snd e)) (JsMap.entries m) = None.
Proof.
  intros V P. unfold JsMap.values, JsMap.entries.
  induction m as [|e m IH]; simpl; intros H; [reflexivity|].
  destruct (P (snd e)); [discriminate|]. apply IH. exact H.
Qed.

Lemma nodup_snoc : forall (l : list nat) x,
  NoDup l -> ~ In x l -> NoDup (l ++ [x]).
Proof.
  induction l as [|y l IH]; intros x Hnd Hx; simpl.
  - constructor; [tauto|constructor].
  - inversion Hnd as [|z l' Hy Hnd']; subst. constructor.
    + rewrite in_app_iff. simpl. simpl in Hx. intuition congruence.
    + apply IH; [exact Hnd'|]. simpl in Hx. tauto.
Qed.

Lemma or0_of_nat : forall n, or0 (Some (Z.of_nat n)) = Z.of_nat n.
Proof.
  intros n. unfold or0. destruct (Z.of_nat n =? 0)%Z eqn:E; [|reflexivity].
  apply Z.eqb_eq in E. congruence.
Qed.

Lemma positive_of_nat : forall n,
  positive_counter (Some (Z.of_nat n)) = negb (n =? 0).
Proof.
  intros [|n]; [reflexivity|].
  unfold positive_counter.
  destruct (Z.of_nat (S n) =? 0)%Z eqn:E; [apply Z.eqb_eq in E; lia|].
  destruct (0 <? Z.of_nat (S n))%Z eqn:E'; [reflexivity|].
  apply Z.ltb_ge in E'. lia.
Qed.

Lemma mem_isFollowing_count : forall s f u,
  Mem.isFollowing s f u = (0 <? List.length (MemContract.pair_rows s f u)).
Proof.
  intros s f u. unfold Mem.isFollowing, MemContract.pair_rows.
  apply existsb_count.
Qed.

(** [followUser] on a pair that is not following. *)
Lemma mem_followUser_new : forall s f u,
  MemContract.follows_wf s ->
  Mem.isFollowing s f u = false ->
  Mem.follows (Mem.followUser s f u)
  = Mem.follows s
    ++ [(Mem.currentFollowId s, Mem.mkFollow (Mem.currentFollowId s) f u)]
  /\ Mem.currentFollowId (Mem.followUser s f u) = Mem.currentFollowId s + 1
  /\ Mem.users (Mem.followUser s f u)
     = match JsMap.get (Mem.users s) u with
       | Some user =>
           JsMap.set (Mem.users s) u
             (Mem.with_followerCount user
                (Some (or0 (Mem.u_followerCount user) + 1)%Z))
       | None => Mem.users s
       end.
Proof.
  intros s f u [Hkeys _] Hnot. unfold Mem.followUser. rewrite Hnot. simpl.
  rewrite set_fresh.
  - destruct (JsMap.get (Mem.users s) u); simpl; auto.
  - intros Hin. apply Hkeys in Hin. lia.
Qed.

(** [unfollowUser] on a pair that is following. *)
Lemma mem_unfollowUser_found : forall s f u,
  Mem.isFollowing s f u = true ->
  exists e,
    In e (Mem.follows s)
    /\ Mem.f_followerId (snd e) = f
    /\ Mem.f_followingId (snd e) = u
    /\ Mem.follows (Mem.unfollowUser s f u)
       = JsMap.delete (Mem.follows s) (fst e)
    /\ Mem.currentFollowId (Mem.unfollowUser s f u) = Mem.currentFollowId s
    /\ Mem.users (Mem.unfollowUser s f u)
       = match JsMap.get (Mem.users s) u with
         | Some user =>
             if positive_counter (Mem.u_followerCount user)
             then JsMap.set (Mem.users s) u
                    (Mem.with_followerCount user
                       (Some (js_add (Mem.u_followerCount user) (-1))))
             else Mem.users s
         | None => Mem.users s
         end.
Proof.
  intros s f u Hfol. unfold Mem.isFollowing in Hfol.
  destruct (find_entry _ _ _ Hfol) as [e He].
  exists e. pose proof (find_some _ _ He) as [Hin Hp].
  apply andb_true_iff in Hp. destruct Hp as [Hf Hu].
  apply Nat.eqb_eq in Hf, Hu.
  unfold Mem.unfollowUser. rewrite He. simpl.
  repeat split; try assumption;
    destruct (JsMap.get (Mem.users s) u) as [user|]; simpl; auto;
    destruct (positive_counter (Mem.u_followerCount user)); reflexivity.
Qed.

Lemma mem_unfollowUser_absent : forall s f u,
  Mem.isFollowing s f u = false -> Mem.unfollowUser s f u = s.
Proof.
  intros s f u Hnot. unfold Mem.isFollowing in Hnot.
  unfold Mem.unfollowUser. rewrite (find_no_entry _ _ _ Hnot). reflexivity.
Qed.

Lemma values_snoc : forall (V : Type) (m : JsMap.t V) e,
  JsMap.values (m ++ [e]) = JsMap.values m ++ [snd e].
Proof. intros. unfold JsMap.values. apply map_app. Qed.

Lemma keys_snoc : forall (V : Type) (m : JsMap.t V) e,
  JsMap.keys (m ++ [e]) = JsMap.keys m ++ [fst e].
Proof. intros. unfold JsMap.keys. apply map_app. Qed.

(** The rows after a new follow. *)
Lemma mem_rows_after_follow : forall s f u,
  MemContract.follows_wf s ->
  Mem.isFollowing s f u = false ->
  (forall u',
     MemContract.follow_rows (Mem.followUser s f u) u'
     = MemContract.follow_rows s u' + (if u =? u' then 1 else 0))
  /\ (forall f' u',
        MemContract.pair_rows (Mem.followUser s f u) f' u'
        = MemContract.pair_rows s f' u'
          ++ (if (f =? f') && (u =? u')
              then [Mem.mkFollow (Mem.currentFollowId s) f u] else [])).
Proof.
  intros s f u Hwf Hnot.
  destruct (mem_followUser_new s f u Hwf Hnot) as [Hfol _].
  split.
  - intros u'. unfold MemContract.follow_rows.
    rewrite Hfol, values_snoc, filter_app, length_app. simpl.
    destruct (u =? u'); reflexivity.
  - intros f' u'. unfold MemContract.pair_rows.
    rewrite Hfol, values_snoc, filter_app. simpl.
    destruct ((f =? f') && (u =? u')); reflexivity.
Qed.

(** The rows after an unfollow that finds its row. *)
Lemma mem_rows_after_unfollow : forall s f u,
  MemContract.follows_wf s ->
  Mem.isFollowing s f u = true ->
  (forall u',
     MemContract.follow_rows (Mem.unfollowUser s f u) u'
     + (if u =? u' then 1 else 0)
     = MemContract.follow_rows s u')
  /\ (forall f' u',
        List.length (MemContract.pair_rows (Mem.unfollowUser s f u) f' u')
        + (if (f =? f') && (u =? u') then 1 else 0)
        = List.length (MemContract.pair_rows s f' u')).
Proof.
  intros s f u [_ [Hnd _]] Hfol.
  destruct (mem_unfollowUser_found s f u Hfol)
    as [e [Hin [Hf [Hu [Hdel _]]]]].
  split.
  - intros u'. unfold MemContract.follow_rows. rewrite Hdel.
    rewrite <- (count_delete _ (fun x => Mem.f_followingId x =? u')
                  (Mem.follows s) e Hnd Hin).
    rewrite Hu. reflexivity.
  - intros f' u'. unfold MemContract.pair_rows. rewrite Hdel.
    rewrite <- (count_delete _
                  (fun x => (Mem.f_followerId x =? f')
                            && (Mem.f_followingId x =? u'))
                  (Mem.follows s) e Hnd Hin).
    rewrite Hf, Hu. reflexivity.
Qed.

Lemma mem_followUser_wf : forall s f u,
  MemContract.follows_wf s -> MemContract.follows_wf (Mem.followUser s f u).
Proof.
  intros s f u Hwf.
  destruct (Mem.isFollowing s f u) eqn:Hfol.
  { unfold Mem.followUser. rewrite Hfol. exact Hwf. }
  destruct (mem_followUser_new s f u Hwf Hfol) as [Hfols [Hcur Husers]].
  destruct (mem_rows_after_follow s f u Hwf Hfol) as [Hrows Hpairs].
  destruct Hwf as [Hkeys [Hnd [Hone Hcnt]]].
  repeat split.
  - intros k Hk. rewrite Hfols, keys_snoc in Hk. rewrite Hcur.
    apply in_app_iff in Hk. destruct Hk as [Hk|[<-|[]]]; simpl; [|lia].
    apply Hkeys in Hk. lia.
  - rewrite Hfols, keys_snoc. apply nodup_snoc; [exact Hnd|].
    simpl. intros Hin. apply Hkeys in Hin. lia.
  - intros f' u'. rewrite Hpairs, length_app.
    destruct ((f =? f') && (u =? u')) eqn:E; simpl;
      [|specialize (Hone f' u'); lia].
    apply andb_true_iff in E. destruct E as [Ef Eu].
    apply Nat.eqb_eq in Ef, Eu. subst f' u'.
    rewrite mem_isFollowing_count in Hfol.
    apply Nat.ltb_ge in Hfol. lia.
  - intros u' user' Hget. unfold Mem.getUser in *. rewrite Husers in Hget.
    rewrite Hrows.
    destruct (JsMap.get (Mem.users s) u) as [user|] eqn:Hu.
    + destruct (Nat.eq_dec u u') as [<-|Hne].
      * rewrite get_set_same in Hget. injection Hget as <-. simpl.
        rewrite (Hcnt u user Hu), or0_of_nat, Nat.eqb_refl.
        f_equal. lia.
      * rewrite get_set_other in Hget by exact Hne.
        apply Nat.eqb_neq in Hne. rewrite Hne, Nat.add_0_r.
        apply Hcnt. exact Hget.
    + destruct (Nat.eq_dec u u') as [<-|Hne]; [congruence|].
      apply Nat.eqb_neq in Hne. rewrite Hne, Nat.add_0_r.
      apply Hcnt. exact Hget.
Qed.

Lemma mem_unfollowUser_wf : forall s f u,
  MemContract.follows_wf s -> MemContract.follows_wf (Mem.unfollowUser s f u).
Proof.
  intros s f u Hwf.
  destruct (Mem.isFollowing s f u) eqn:Hfol.
  2:{ rewrite mem_unfollowUser_absent by exact Hfol. exact Hwf. }
  destruct (mem_unfollowUser_found s f u Hfol)
    as [e [Hin [Hf [Hu [Hdel [Hcur Husers]]]]]].
  destruct (mem_rows_after_unfollow s f u Hwf Hfol) as [Hrows Hpairs].
  destruct Hwf as [Hkeys [Hnd [Hone Hcnt]]].
  repeat split.
  - intros k Hk. rewrite Hdel in Hk. rewrite Hcur.
    apply Hkeys. apply (keys_delete_in _ _ _ _ Hk).
  - rewrite Hdel. apply keys_delete_nodup. exact Hnd.
  - intros f' u'. specialize (Hpairs f' u'). specialize (Hone f' u'). lia.
  - intros u' user' Hget. unfold Mem.getUser in *. rewrite Husers in Hget.
    pose proof (Hrows u') as Hr.
    destruct (JsMap.get (Mem.users s) u) as [user|] eqn:Hus.
    + pose proof (Hcnt u user Hus) as Hc.
      pose proof (Hrows u) as Hru. rewrite Nat.eqb_refl in Hru.
      rewrite Hc, positive_of_nat in Hget.
      assert (Hpos : (MemContract.follow_rows s u =? 0) = false).
      { apply Nat.eqb_neq. lia. }
      rewrite Hpos in Hget. cbn [negb] in Hget.
      destruct (Nat.eq_dec u u') as [<-|Hne].
      * rewrite get_set_same in Hget. injection Hget as <-.
        cbn [Mem.u_followerCount Mem.with_followerCount js_add].
        f_equal. lia.
      * rewrite get_set_other in Hget by exact Hne.
        apply Nat.eqb_neq in Hne. rewrite Hne, Nat.add_0_r in Hr.
        rewrite Hr. apply Hcnt. exact Hget.
    + destruct (Nat.eq_dec u u') as [<-|Hne]; [congruence|].
      apply Nat.eqb_neq in Hne. rewrite Hne, Nat.add_0_r in Hr.
      rewrite Hr. apply Hcnt. exact Hget.
Qed.






(** ** followUser and unfollowUser of PostgresStorage *)

Lemma follow_of_other : forall F U F' U' r,
  String.eqb F F' && String.eqb U U' = false ->
  Pg.follow_of F U r = true -> Pg.follow_of F' U' r = false.
Proof.
  unfold Pg.follow_of. intros F U F' U' r Hne H.
  apply andb_true_iff in H. destruct H as [Hf Hu].
  apply String.eqb_eq in Hf, Hu. rewrite Hf, Hu. exact Hne.
Qed.

Lemma follow_of_same : forall F U F' U' r,
  String.eqb F F' && String.eqb U U' = true ->
  Pg.follow_of F' U' r = Pg.follow_of F U r.
Proof.
  intros F U F' U' r H. apply andb_true_iff in H. destruct H as [Hf Hu].
  apply String.eqb_eq in Hf, Hu. subst. reflexivity.
Qed.

(** Whether a pair is following after the flags of a pair were written. *)
Lemma pg_active_after_flag : forall t F U F' U' b,
  (0 <? List.length
          (Pg.select (Pg.update t (Pg.with_f_isDeleted b) (Pg.follow_of F U))
             (fun f => Pg.follow_of F' U' f
                       && Bool.eqb (Pg.f_isDeleted f) false)))
  = if String.eqb F F' && String.eqb U U'
    then negb b && (0 <? List.length (Pg.select t (Pg.follow_of F U)))
    else 0 <? List.length
                (Pg.select t (fun f => Pg.follow_of F' U' f
                                       && Bool.eqb (Pg.f_isDeleted f) false)).
Proof.
  intros t F U F' U' b.
  destruct (String.eqb F F' && String.eqb U U') eqn:E.
  - assert (Hk : forall r, Pg.follow_of F' U' r = Pg.follow_of F U r).
    { intros r. apply follow_of_same. exact E. }
    unfold Pg.select, Pg.update.
    induction t as [|r t IH]; simpl; [destruct b; reflexivity|].
    destruct (Pg.follow_of F U r) eqn:K; rewrite Hk.
    + rewrite pg_follow_of_flag, K. simpl.
      destruct b; simpl; [exact IH|reflexivity].
    + rewrite K. simpl. exact IH.
  - f_equal. f_equal. apply select_update_untouched.
    intros r K. rewrite pg_follow_of_flag.
    rewrite (follow_of_other F U F' U' r E K). auto.
Qed.


Lemma pg_followUser_found : forall db F U us,
  Pg.first_user db U = Some us ->
  Pg.followUser db F U
  = (Returned tt,
     Pg.set_follows
       (snd (Pg.write_user_followerCount db (Some us) U 1))
       (if List.length (Pg.select (Pg.follows db) (Pg.follow_of F U)) =? 0
        then Pg.insert (Pg.follows db) (Pg.mkFollow F U false)
        else Pg.update (Pg.follows db) (Pg.with_f_isDeleted false)
                       (Pg.follow_of F U))).
Proof.
  intros db F U us Hus. unfold Pg.followUser.
  destruct (List.length (Pg.select (Pg.follows db) (Pg.follow_of F U)) =? 0);
    simpl; unfold Pg.first_user in *; simpl; rewrite Hus; reflexivity.
Qed.

Lemma pg_unfollowUser_found : forall db F U us,
  Pg.first_user db U = Some us ->
  Pg.unfollowUser db F U
  = (Returned tt,
     Pg.set_follows
       (snd (Pg.write_user_followerCount db (Some us) U (-1)))
       (Pg.update (Pg.follows db) (Pg.with_f_isDeleted true)
                  (Pg.follow_of F U))).
Proof.
  intros db F U us Hus. unfold Pg.unfollowUser. rewrite Hus. reflexivity.
Qed.

Lemma pg_isFollowing_after_follow : forall db F U us F' U',
  Pg.first_user db U = Some us ->
  Pg.isFollowing (snd (Pg.followUser db F U)) F' U'
  = Pg.isFollowing db F' U' || (String.eqb F F' && String.eqb U U').
Proof.
  intros db F U us F' U' Hus.
  rewrite (pg_followUser_found db F U us Hus). unfold Pg.isFollowing. simpl.
  destruct (List.length (Pg.select (Pg.follows db) (Pg.follow_of F U)) =? 0)
    eqn:R.
  - rewrite select_insert, length_app. unfold Pg.follow_of at 2. simpl.
    rewrite andb_true_r.
    destruct (String.eqb F F' && String.eqb U U'); simpl.
    + rewrite orb_true_r. apply Nat.ltb_lt. lia.
    + rewrite orb_false_r, Nat.add_0_r. reflexivity.
  - rewrite pg_active_after_flag.
    destruct (String.eqb F F' && String.eqb U U') eqn:E; simpl.
    + rewrite orb_true_r. apply Nat.ltb_lt. apply Nat.eqb_neq in R. lia.
    + rewrite orb_false_r. reflexivity.
Qed.

Lemma pg_isFollowing_after_unfollow : forall db F U us F' U',
  Pg.first_user db U = Some us ->
  Pg.isFollowing (snd (Pg.unfollowUser db F U)) F' U'
  = Pg.isFollowing db F' U' && negb (String.eqb F F' && String.eqb U U').
Proof.
  intros db F U us F' U' Hus.
  rewrite (pg_unfollowUser_found db F U us Hus). unfold Pg.isFollowing.
  simpl. rewrite pg_active_after_flag.
  destruct (String.eqb F F' && String.eqb U U'); simpl.
  - rewrite andb_false_r. reflexivity.
  - rewrite andb_true_r. reflexivity.
Qed.

(** ** The two classes agree on proper follow traces *)


Section Agreement.
Variable enc : nat -> Pg.uuid.
Hypothesis enc_inj : forall a b, enc a = enc b -> a = b.





End Agreement.


Lemma mem_two_users_wf : MemContract.follows_wf Scenario.mem_two_users.
Proof.
  repeat split.
  - intros k [].
  - constructor.
  - intros f u. simpl. lia.
  - intros u user. unfold Mem.getUser. simpl.
    destruct u as [|[|[|u]]]; simpl; intros H; try discriminate;
      injection H as <-; reflexivity.
Qed.





(** ** The counter invariant *)

(** C1 as stated fails: in MemStorage one [likePhoto] leaves the counter at
    1 with no Like row at all, and in PostgresStorage two [followUser] calls
    leave the counter at 2 with one active Follow row. *)
Lemma counter_differs_from_rows :
  (let s := Mem.run Scenario.mem_one_photo [Mem.LikePhoto 1 1] in
   option_map Mem.p_likeCount (JsMap.get (Mem.photos s) 1) = Some (Some 1%Z)
   /\ MemContract.like_rows s 1 = 0)
  /\
  (let d := Pg.run Scenario.pg_two_users
                   [Pg.FollowUser "F" "U"; Pg.FollowUser "F" "U"] in
   option_map Pg.u_followerCount (Pg.getUser d "U") = Some (Some 2%Z)
   /\ Contract.active_follows d "U" = 1).
Proof. repeat split. Qed.

Lemma mem_follow_ops_keep_wf : forall mops s,
  forallb MemContract.is_follow_op mops = true ->
  MemContract.follows_wf s ->
  MemContract.follows_wf (Mem.run s mops).
Proof.
  induction mops as [|o mops IH]; intros s Hops Hwf; simpl; [exact Hwf|].
  simpl in Hops. apply andb_true_iff in Hops. destruct Hops as [Ho Hops].
  apply IH; [exact Hops|].
  destruct o; try discriminate; simpl.
  - apply mem_followUser_wf. exact Hwf.
  - apply mem_unfollowUser_wf. exact Hwf.
Qed.

(** C1, amended: in PostgresStorage, after any sequence of [likePhoto] and
    [likeComment] calls from a state where the like counters agree with the
    rows and no pair has two rows, the [likeCount] of every photo and of
    every comment equals the number of its Like (CommentLike) rows whose
    [isDeleted] is false.  In MemStorage, whose Follow rows have no flag,
    after any sequence of [followUser] and [unfollowUser] calls from a
    well-formed state the [followerCount] of every user equals the number
    of Follow rows that point at that user. *)
Theorem counters_agree_with_rows :
  forall (db : Pg.DB) (ops : list Pg.Op)
         (s : Mem.MemStorage) (mops : list Mem.Op),
    Contract.likes_in_sync db ->
    Contract.commentLikes_in_sync db ->
    forallb Contract.is_like_toggle ops = true ->
    MemContract.follows_wf s ->
    forallb MemContract.is_follow_op mops = true ->
    (forall ph, In ph (Pg.photos (Pg.run db ops)) ->
       Pg.p_likeCount ph
       = Some (Z.of_nat (Contract.active_likes (Pg.run db ops) (Pg.p_id ph))))
    /\ (forall cm, In cm (Pg.comments (Pg.run db ops)) ->
          Pg.c_likeCount cm
          = Some (Z.of_nat
                    (Contract.active_commentLikes (Pg.run db ops)
                                                  (Pg.c_id cm))))
    /\ (forall u user,
          Mem.getUser (Mem.run s mops) u = Some user ->
          Mem.u_followerCount user
          = Some (Z.of_nat (MemContract.follow_rows (Mem.run s mops) u))).
Proof.
  intros db ops s mops Hl Hc Hops Hwf Hmops.
  destruct (pg_like_toggles_keep_sync ops db Hops (conj Hl Hc))
    as [[Hl' _] [Hc' _]].
  destruct (mem_follow_ops_keep_wf mops s Hmops Hwf) as [_ [_ [_ Hcnt]]].
  repeat split; assumption.
Qed.

Lemma pg_one_photo_in_sync :
  Contract.likes_in_sync Scenario.pg_one_photo
  /\ Contract.commentLikes_in_sync Scenario.pg_one_photo.
Proof.
  apply no_like_rows_in_sync; try reflexivity.
  - intros ph [<-|[]]. reflexivity.
  - intros cm [<-|[]]. reflexivity.
Qed.

Lemma counters_agree_with_rows_witness :
  let ops := [Pg.LikePhoto "A" "P"; Pg.LikePhoto "B" "P";
              Pg.LikePhoto "A" "P"; Pg.LikePhoto "A" "P";
              Pg.LikeComment "A" "C"] in
  let mops := [Mem.FollowUser 1 2; Mem.FollowUser 1 2;
               Mem.UnfollowUser 2 1; Mem.UnfollowUser 1 2;
               Mem.FollowUser 2 1] in
  (forall ph, In ph (Pg.photos (Pg.run Scenario.pg_one_photo ops)) ->
     Pg.p_likeCount ph
     = Some (Z.of_nat (Contract.active_likes
                         (Pg.run Scenario.pg_one_photo ops) (Pg.p_id ph))))
  /\ (forall cm, In cm (Pg.comments (Pg.run Scenario.pg_one_photo ops)) ->
        Pg.c_likeCount cm
        = Some (Z.of_nat
                  (Contract.active_commentLikes
                     (Pg.run Scenario.pg_one_photo ops) (Pg.c_id cm))))
  /\ (forall u user,
        Mem.getUser (Mem.run Scenario.mem_two_users mops) u = Some user ->
        Mem.u_followerCount user
        = Some (Z.of_nat
                  (MemContract.follow_rows
                     (Mem.run Scenario.mem_two_users mops) u))).
Proof.
  intros ops mops.
  apply (counters_agree_with_rows Scenario.pg_one_photo ops
           Scenario.mem_two_users mops
           (proj1 pg_one_photo_in_sync) (proj2 pg_one_photo_in_sync)
           eq_refl mem_two_users_wf eq_refl).
Defined.

(** The scenario of the specification: A likes P, B likes P, A unlikes P,
    A likes P again; two active rows and a counter of 2. *)
Example pg_like_scenario :
  let d := Pg.run Scenario.pg_one_photo
             [Pg.LikePhoto "A" "P"; Pg.LikePhoto "B" "P";
              Pg.LikePhoto "A" "P"; Pg.LikePhoto "A" "P"] in
  option_map Pg.p_likeCount (Pg.first_photo d "P") = Some (Some 2%Z)
  /\ Contract.active_likes d "P" = 2.
Proof. split; reflexivity. Qed.

(** ** Concurrent likePhoto calls *)

Lemma interleave_step : forall db calls i schedule,
  PgAsync.interleave db calls (i :: schedule)
  = PgAsync.interleave (fst (PgAsync.step_nth db calls i))
                       (snd (PgAsync.step_nth db calls i)) schedule.
Proof.
  intros. unfold PgAsync.interleave. simpl.
  destruct (PgAsync.step_nth db calls i); reflexivity.
Qed.

Ltac run_statement :=
  rewrite interleave_step;
  cbn [PgAsync.step_nth PgAsync.call_step PgAsync.point PgAsync.userId
       PgAsync.photoId PgAsync.at_point PgAsync.likePhoto_call fst snd].

(** A call that runs alone, statement after statement, is [likePhoto]. *)
Lemma call_alone_is_likePhoto : forall db u p,
  PgAsync.interleave db [PgAsync.likePhoto_call u p] [0; 0; 0; 0; 0]
  = (snd (Pg.likePhoto db u p),
     [PgAsync.mkCall u p (PgAsync.Finished (fst (Pg.likePhoto db u p)))]).
Proof.
  intros db u p. unfold Pg.likePhoto.
  do 4 run_statement.
  destruct (List.length (Pg.select (Pg.likes db) (Pg.like_of u p)) =? 0);
    [|destruct (List.length (Pg.select (Pg.likes db) _) =? 0)];
    cbn [negb andb fst snd]; run_statement;
    destruct (Pg.first_photo db p); reflexivity.
Qed.

(** C9: the failing input.  Photo "P" has no like; A and B call
    [likePhoto] at the same time and both read the photo before either
    writes the counter.  Both calls return, two active Like rows exist, and
    the counter is 1. *)
Theorem concurrent_likes_lose_an_update :
  let calls := [PgAsync.likePhoto_call "A" "P";
                PgAsync.likePhoto_call "B" "P"] in
  let schedule := [0; 0; 0; 1; 1; 1; 0; 0; 1; 1] in
  let final := PgAsync.interleave Scenario.pg_one_photo calls schedule in
  forallb PgAsync.returned (snd final) = true
  /\ Contract.active_likes (fst final) "P" = 2
  /\ option_map Pg.p_likeCount (Pg.first_photo (fst final) "P")
     = Some (Some 1%Z).
Proof. repeat split. Qed.

(** * Further properties of the two classes *)

(** ** MemStorage: counters *)

Section JsMapValues.
Variable V : Type.
Implicit Types (m : JsMap.t V) (k : nat) (v : V).

Lemma in_set : forall m k v e,
  In e (JsMap.set m k v) -> e = (k, v) \/ In e m.
Proof.
  induction m as [|[k0 v0] m IH]; intros k v e H; simpl in H.
  - destruct H as [<-|[]]. left. reflexivity.
  - destruct (k0 =? k) eqn:E.
    + apply Nat.eqb_eq in E. subst k0.
      destruct H as [<-|H]; [left; reflexivity|right; right; exact H].
    + destruct H as [<-|H]; [right; left; reflexivity|].
      destruct (IH _ _ _ H) as [->|H']; [left; reflexivity|].
      right. right. exact H'.
Qed.

Lemma in_values_set : forall m k v x,
  In x (JsMap.values (JsMap.set m k v)) -> x = v \/ In x (JsMap.values m).
Proof.
  intros m k v x H. unfold JsMap.values in *. apply in_map_iff in H.
  destruct H as [e [<- He]]. apply in_set in He.
  destruct He as [->|He]; [left; reflexivity|].
  right. apply in_map. exact He.
Qed.

Lemma get_in : forall m k v, JsMap.get m k = Some v -> In (k, v) m.
Proof.
  induction m as [|[k0 v0] m IH]; intros k v H; simpl in H; [discriminate|].
  destruct (k0 =? k) eqn:E.
  - apply Nat.eqb_eq in E. injection H as ->. subst. left. reflexivity.
  - right. apply IH. exact H.
Qed.

Lemma get_in_values : forall m k v,
  JsMap.get m k = Some v -> In v (JsMap.values m).
Proof.
  intros m k v H. apply get_in in H. unfold JsMap.values.
  apply (in_map snd) in H. exact H.
Qed.
End JsMapValues.

Lemma counted_zero : MemContract.counted (Some 0%Z).
Proof. exists 0%Z. split; [reflexivity|lia]. Qed.

Lemma counted_up : forall c,
  MemContract.counted c -> MemContract.counted (Some (or0 c + 1)%Z).
Proof.
  intros c [z [-> Hz]]. exists (or0 (Some z) + 1)%Z. split; [reflexivity|].
  unfold or0. destruct (z =? 0)%Z; lia.
Qed.

Lemma counted_down : forall c,
  positive_counter c = true ->
  MemContract.counted (Some (js_add c (-1))).
Proof.
  intros [z|] H; simpl in H; [|discriminate].
  apply andb_true_iff in H. destruct H as [_ H]. apply Z.ltb_lt in H.
  exists (z + -1)%Z. split; [reflexivity|lia].
Qed.

Lemma counters_ok_same : forall s s',
  Mem.users s' = Mem.users s -> Mem.photos s' = Mem.photos s ->
  Mem.comments s' = Mem.comments s ->
  MemContract.counters_ok s -> MemContract.counters_ok s'.
Proof.
  intros s s' Hu Hp Hc H. unfold MemContract.counters_ok in *.
  rewrite Hu, Hp, Hc. exact H.
Qed.

Lemma counters_ok_user : forall s k u,
  MemContract.counters_ok s ->
  MemContract.counted (Mem.u_followerCount u) ->
  MemContract.counters_ok (Mem.set_users s (JsMap.set (Mem.users s) k u)).
Proof.
  intros s k u [Hu [Hp Hc]] Hcnt. split; [|split; [exact Hp|exact Hc]].
  simpl. intros x Hx. apply in_values_set in Hx.
  destruct Hx as [->|Hx]; [exact Hcnt|apply Hu; exact Hx].
Qed.

Lemma counters_ok_photo : forall s k p,
  MemContract.counters_ok s ->
  MemContract.counted (Mem.p_likeCount p) ->
  MemContract.counted (Mem.p_commentCount p) ->
  MemContract.counters_ok (Mem.set_photos s (JsMap.set (Mem.photos s) k p)).
Proof.
  intros s k p [Hu [Hp Hc]] Hl Hm. split; [exact Hu|]. split; [|exact Hc].
  simpl. intros x Hx. apply in_values_set in Hx.
  destruct Hx as [->|Hx]; [split; assumption|apply Hp; exact Hx].
Qed.

Lemma counters_ok_comment : forall s k c,
  MemContract.counters_ok s ->
  MemContract.counted (Mem.c_likeCount c) ->
  MemContract.counters_ok
    (Mem.set_comments s (JsMap.set (Mem.comments s) k c)).
Proof.
  intros s k c [Hu [Hp Hc]] Hl. split; [exact Hu|]. split; [exact Hp|].
  simpl. intros x Hx. apply in_values_set in Hx.
  destruct Hx as [->|Hx]; [exact Hl|apply Hc; exact Hx].
Qed.

Lemma mem_markAll_keeps : forall s userId,
  Mem.users (Mem.markAllNotificationsAsRead s userId) = Mem.users s
  /\ Mem.photos (Mem.markAllNotificationsAsRead s userId) = Mem.photos s
  /\ Mem.comments (Mem.markAllNotificationsAsRead s userId) = Mem.comments s
  /\ Mem.follows (Mem.markAllNotificationsAsRead s userId) = Mem.follows s.
Proof.
  intros s userId. unfold Mem.markAllNotificationsAsRead.
  repeat split;
    [ apply fold_left_keeps with (proj := Mem.users)
    | apply fold_left_keeps with (proj := Mem.photos)
    | apply fold_left_keeps with (proj := Mem.comments)
    | apply fold_left_keeps with (proj := Mem.follows) ];
    intros acc e; destruct (Mem.n_userId (snd e) =? userId); reflexivity.
Qed.

Lemma mem_step_counters_ok : forall s o,
  MemContract.counters_ok s -> MemContract.counters_ok (Mem.step s o).
Proof.
  intros s o H.
  pose proof H as [Hu [Hp Hc]].
  destruct o; simpl.
  - (* createUser *)
    unfold Mem.createUser. simpl.
    apply (counters_ok_user (Mem.set_currentId s (Mem.currentId s + 1)));
      [|apply counted_zero].
    apply (counters_ok_same s); auto.
  - (* updateUserProfile *)
    unfold Mem.updateUserProfile.
    destruct (JsMap.get (Mem.users s) userId) as [user|] eqn:E; simpl;
      [|exact H].
    apply counters_ok_user; [exact H|]. simpl.
    apply Hu. apply (get_in_values _ _ _ _ E).
  - (* createPhoto *)
    unfold Mem.createPhoto. simpl.
    apply (counters_ok_photo
             (Mem.set_currentPhotoId s (Mem.currentPhotoId s + 1)));
      try apply counted_zero.
    apply (counters_ok_same s); auto.
  - (* likePhoto *)
    unfold Mem.likePhoto.
    destruct (JsMap.get (Mem.photos s) photoId) as [photo|] eqn:E;
      [|exact H].
    apply get_in_values in E. destruct (Hp photo E) as [Hl Hm].
    apply counters_ok_photo; [exact H| |exact Hm].
    simpl. apply counted_up. exact Hl.
  - (* unlikePhoto *)
    unfold Mem.unlikePhoto.
    destruct (JsMap.get (Mem.photos s) photoId) as [photo|] eqn:E;
      [|exact H].
    destruct (positive_counter (Mem.p_likeCount photo)) eqn:G; [|exact H].
    apply get_in_values in E. destruct (Hp photo E) as [Hl Hm].
    apply counters_ok_photo; [exact H| |exact Hm].
    simpl. apply counted_down. exact G.
  - (* followUser *)
    unfold Mem.followUser.
    destruct (Mem.isFollowing s followerId followingId); [exact H|]. simpl.
    set (s2 := Mem.set_follows _ _).
    assert (H2 : MemContract.counters_ok s2).
    { apply (counters_ok_same s); auto. }
    destruct (JsMap.get (Mem.users s) followingId) as [user|] eqn:E;
      [|exact H2].
    apply (counters_ok_user s2); [exact H2|]. simpl.
    apply counted_up. apply Hu. apply (get_in_values _ _ _ _ E).
  - (* unfollowUser *)
    unfold Mem.unfollowUser.
    destruct (find _ _) as [e|]; [|exact H]. simpl.
    set (s1 := Mem.set_follows _ _).
    assert (H1 : MemContract.counters_ok s1).
    { apply (counters_ok_same s); auto. }
    destruct (JsMap.get (Mem.users s) followingId) as [user|] eqn:E;
      [|exact H1].
    destruct (positive_counter (Mem.u_followerCount user)) eqn:G;
      [|exact H1].
    apply (counters_ok_user s1); [exact H1|]. simpl.
    apply counted_down. exact G.
  - (* createComment *)
    unfold Mem.createComment. simpl.
    set (s2 := Mem.set_comments _ _).
    assert (H2 : MemContract.counters_ok s2).
    { apply (counters_ok_comment
               (Mem.set_currentCommentId s (Mem.currentCommentId s + 1)));
        [|apply counted_zero].
      apply (counters_ok_same s); auto. }
    destruct (JsMap.get (Mem.photos s) photoId) as [photo|] eqn:E; simpl;
      [|exact H2].
    apply get_in_values in E. destruct (Hp photo E) as [Hl Hm].
    apply (counters_ok_photo s2); [exact H2|exact Hl|].
    simpl. apply counted_up. exact Hm.
  - (* likeComment *)
    unfold Mem.likeComment.
    destruct (JsMap.get (Mem.comments s) commentId) as [comment|] eqn:E;
      [|exact H].
    apply get_in_values in E.
    apply counters_ok_comment; [exact H|].
    simpl. apply counted_up. apply Hc. exact E.
  - (* unlikeComment *)
    unfold Mem.unlikeComment.
    destruct (JsMap.get (Mem.comments s) commentId) as [comment|] eqn:E;
      [|exact H].
    destruct (positive_counter (Mem.c_likeCount comment)) eqn:G; [|exact H].
    apply counters_ok_comment; [exact H|].
    simpl. apply counted_down. exact G.
  - (* createNotification *)
    apply (counters_ok_same s); auto.
  - (* markNotificationAsRead *)
    unfold Mem.markNotificationAsRead.
    destruct (JsMap.get (Mem.notifications s) notificationId); [|exact H].
    apply (counters_ok_same s); auto.
  - (* markAllNotificationsAsRead *)
    destruct (mem_markAll_keeps s userId) as [E1 [E2 [E3 _]]].
    apply (counters_ok_same s); auto.
Qed.

Lemma mem_run_counters_ok : forall ops s,
  MemContract.counters_ok s -> MemContract.counters_ok (Mem.run s ops).
Proof.
  induction ops as [|o ops IH]; intros s H; simpl; [exact H|].
  apply IH. apply mem_step_counters_ok. exact H.
Qed.

Lemma mem_constructor_counters_ok : MemContract.counters_ok Mem.constructor.
Proof. split; [|split]; intros x []. Qed.

(** X1: in every state that the interface operations reach from the
    constructor, every [followerCount], [likeCount] and [commentCount] of
    MemStorage holds a number (it is not null) and the number is not
    negative. *)
Theorem mem_counters_never_negative : forall (ops : list Mem.Op),
  MemContract.counters_ok (Mem.run Mem.constructor ops).
Proof.
  intros ops. apply mem_run_counters_ok, mem_constructor_counters_ok.
Qed.

(** ** MemStorage: ids *)

Section JsMapKeys.
Variable V : Type.
Implicit Types (m : JsMap.t V) (k : nat) (v : V).

Lemma keys_set_present : forall m k v,
  In k (JsMap.keys m) -> JsMap.keys (JsMap.set m k v) = JsMap.keys m.
Proof.
  unfold JsMap.keys.
  induction m as [|[k0 v0] m IH]; intros k v H; simpl in *; [contradiction|].
  destruct (k0 =? k) eqn:E; simpl; [reflexivity|].
  f_equal. apply IH. destruct H as [->|H]; [|exact H].
  rewrite Nat.eqb_refl in E. discriminate.
Qed.

Lemma in_keys : forall m k v, In (k, v) m -> In k (JsMap.keys m).
Proof.
  intros m k v H. unfold JsMap.keys. apply (in_map fst) in H. exact H.
Qed.

Lemma get_none_not_in : forall m k,
  JsMap.get m k = None -> ~ In k (JsMap.keys m).
Proof.
  unfold JsMap.keys.
  induction m as [|[k0 v0] m IH]; intros k H; simpl in *; [tauto|].
  destruct (k0 =? k) eqn:E; [discriminate|].
  apply Nat.eqb_neq in E. intros [H'|H']; [contradiction|].
  exact (IH k H H').
Qed.

Lemma not_in_get_none : forall m k,
  ~ In k (JsMap.keys m) -> JsMap.get m k = None.
Proof.
  unfold JsMap.keys.
  induction m as [|[k0 v0] m IH]; intros k H; simpl in *; [reflexivity|].
  destruct (k0 =? k) eqn:E.
  - apply Nat.eqb_eq in E. tauto.
  - apply IH. tauto.
Qed.

Lemma in_get : forall m k v,
  NoDup (JsMap.keys m) -> In (k, v) m -> JsMap.get m k = Some v.
Proof.
  induction m as [|[k0 v0] m IH]; intros k v Hnd H; [contradiction|].
  simpl in Hnd. inversion Hnd as [|x l Hnot Hnd']; subst.
  simpl. destruct H as [H|H].
  - injection H as -> ->. rewrite Nat.eqb_refl. reflexivity.
  - destruct (k0 =? k) eqn:E; [|apply IH; assumption].
    apply Nat.eqb_eq in E. subst k0. exfalso. apply Hnot.
    apply (in_keys _ _ _ H).
Qed.

(** [set] on a key that sits in the middle of the map. *)
Lemma set_middle : forall (a b : JsMap.t V) k v0 v,
  ~ In k (JsMap.keys a) ->
  JsMap.set (a ++ (k, v0) :: b) k v = a ++ (k, v) :: b.
Proof.
  unfold JsMap.keys.
  induction a as [|[k1 v1] a IH]; intros b k v0 v H; simpl in *.
  - rewrite Nat.eqb_refl. reflexivity.
  - destruct (k1 =? k) eqn:E.
    + apply Nat.eqb_eq in E. tauto.
    + f_equal. apply IH. tauto.
Qed.

Variable id : V -> nat.

Lemma keyed_empty : forall next, MemContract.keyed id JsMap.empty next.
Proof. intros next. split; [constructor|intros k v []]. Qed.

Lemma keyed_set_fresh : forall m next v,
  MemContract.keyed id m next -> id v = next ->
  MemContract.keyed id (JsMap.set m next v) (next + 1).
Proof.
  intros m next v [Hnd Hin] Hid.
  assert (Hfresh : ~ In next (JsMap.keys m)).
  { intros H. unfold JsMap.keys in H. apply in_map_iff in H.
    destruct H as [[k x] [Hk He]]. simpl in Hk. subst k.
    destruct (Hin _ _ He). lia. }
  rewrite set_fresh by exact Hfresh. split.
  - rewrite keys_snoc. apply nodup_snoc; assumption.
  - intros k x H. apply in_app_iff in H. destruct H as [H|[H|[]]].
    + destruct (Hin _ _ H). split; [assumption|lia].
    + injection H as <- <-. split; [assumption|lia].
Qed.

Lemma keyed_set_present : forall m next k v0 v,
  MemContract.keyed id m next -> JsMap.get m k = Some v0 -> id v = k ->
  MemContract.keyed id (JsMap.set m k v) next.
Proof.
  intros m next k v0 v [Hnd Hin] Hget Hid.
  apply get_in in Hget. split.
  - rewrite keys_set_present; [exact Hnd|apply (in_keys _ _ _ Hget)].
  - intros k' x H. apply in_set in H. destruct H as [H|H].
    + injection H as -> ->. split; [exact Hid|].
      destruct (Hin _ _ Hget). assumption.
    + apply Hin. exact H.
Qed.

Lemma keyed_delete : forall m next k,
  MemContract.keyed id m next ->
  MemContract.keyed id (JsMap.delete m k) next.
Proof.
  intros m next k [Hnd Hin]. split.
  - apply keys_delete_nodup. exact Hnd.
  - intros k' x H. unfold JsMap.delete in H. apply filter_In in H.
    apply Hin. tauto.
Qed.

Lemma keyed_positive : forall m next k v,
  MemContract.keyed id m next -> JsMap.get m k = Some v ->
  id v = k /\ k < next.
Proof.
  intros m next k v [_ Hin] H. apply Hin. apply get_in. exact H.
Qed.
End JsMapKeys.

(** The loop of [markAllNotificationsAsRead] rewrites the map entry by
    entry. *)
Lemma mem_markAll_notifications : forall s userId,
  NoDup (JsMap.keys (Mem.notifications s)) ->
  Mem.notifications (Mem.markAllNotificationsAsRead s userId)
  = map (fun e => if Mem.n_userId (snd e) =? userId
                  then (fst e, Mem.with_read (snd e) true) else e)
        (Mem.notifications s).
Proof.
  intros s userId Hnd. unfold Mem.markAllNotificationsAsRead, JsMap.entries.
  set (g := fun e : nat * Mem.Notification =>
              if Mem.n_userId (snd e) =? userId
              then (fst e, Mem.with_read (snd e) true) else e).
  assert (G : forall todo done_ acc,
             Mem.notifications acc = map g done_ ++ todo ->
             NoDup (JsMap.keys (done_ ++ todo)) ->
             Mem.notifications
               (fold_left
                  (fun acc e =>
                     if Mem.n_userId (snd e) =? userId
                     then Mem.set_notifications acc
                            (JsMap.set (Mem.notifications acc) (fst e)
                                       (Mem.with_read (snd e) true))
                     else acc) todo acc)
             = map g (done_ ++ todo)).
  { induction todo as [|e todo IH]; intros done_ acc Hacc Hnd'; simpl.
    - rewrite Hacc, !app_nil_r. reflexivity.
    - replace (done_ ++ e :: todo) with ((done_ ++ [e]) ++ todo)
        by (rewrite <- app_assoc; reflexivity).
      apply IH.
      + rewrite map_app. simpl. rewrite <- app_assoc. simpl.
        unfold g at 2. destruct (Mem.n_userId (snd e) =? userId); simpl.
        * rewrite Hacc. destruct e as [k v].
          apply set_middle.
          unfold JsMap.keys in *. rewrite map_map.
          rewrite map_app in Hnd'. simpl in Hnd'.
          apply NoDup_remove_2 in Hnd'. intros Hin. apply Hnd'.
          apply in_app_iff. left.
          replace (map fst done_)
            with (map (fun x => fst (g x)) done_); [exact Hin|].
          apply map_ext. intros x. unfold g.
          destruct (Mem.n_userId (snd x) =? userId); reflexivity.
        * exact Hacc.
      + rewrite <- app_assoc. exact Hnd'. }
  apply (G (Mem.notifications s) [] s); [reflexivity|exact Hnd].
Qed.

Lemma keyed_markAll : forall s userId,
  MemContract.keyed Mem.n_id (Mem.notifications s)
                    (Mem.currentNotificationId s) ->
  MemContract.keyed Mem.n_id
    (Mem.notifications (Mem.markAllNotificationsAsRead s userId))
    (Mem.currentNotificationId s).
Proof.
  intros s userId [Hnd Hin].
  rewrite mem_markAll_notifications by exact Hnd. split.
  - unfold JsMap.keys in *. rewrite map_map.
    replace (map _ (Mem.notifications s))
      with (map fst (Mem.notifications s)); [exact Hnd|].
    apply map_ext. intros e.
    destruct (Mem.n_userId (snd e) =? userId); reflexivity.
  - intros k v H. apply in_map_iff in H. destruct H as [e [He Hine]].
    destruct e as [k0 v0]. specialize (Hin _ _ Hine). simpl in He.
    destruct (Mem.n_userId v0 =? userId); injection He as <- <-;
      exact Hin.
Qed.

Lemma mem_markAll_counters : forall s userId,
  Mem.currentId (Mem.markAllNotificationsAsRead s userId) = Mem.currentId s
  /\ Mem.currentPhotoId (Mem.markAllNotificationsAsRead s userId)
     = Mem.currentPhotoId s
  /\ Mem.currentCommentId (Mem.markAllNotificationsAsRead s userId)
     = Mem.currentCommentId s
  /\ Mem.currentFollowId (Mem.markAllNotificationsAsRead s userId)
     = Mem.currentFollowId s
  /\ Mem.currentNotificationId (Mem.markAllNotificationsAsRead s userId)
     = Mem.currentNotificationId s.
Proof.
  intros s userId. unfold Mem.markAllNotificationsAsRead.
  repeat split;
    [ apply fold_left_keeps with (proj := Mem.currentId)
    | apply fold_left_keeps with (proj := Mem.currentPhotoId)
    | apply fold_left_keeps with (proj := Mem.currentCommentId)
    | apply fold_left_keeps with (proj := Mem.currentFollowId)
    | apply fold_left_keeps with (proj := Mem.currentNotificationId) ];
    intros acc e; destruct (Mem.n_userId (snd e) =? userId); reflexivity.
Qed.

Ltac wf_fields :=
  refine (conj _ (conj _ (conj _ (conj _ _)))); simpl; try assumption.

Lemma mem_step_store_wf : forall s o,
  MemContract.store_wf s -> MemContract.store_wf (Mem.step s o).
Proof.
  intros s o [Hu [Hp [Hc [Hf Hn]]]].
  destruct o; simpl.
  - unfold Mem.createUser. wf_fields.
    apply keyed_set_fresh; [exact Hu|reflexivity].
  - unfold Mem.updateUserProfile.
    destruct (JsMap.get (Mem.users s) userId) as [user|] eqn:E; simpl;
      wf_fields.
    apply (keyed_set_present _ _ _ _ _ user); [exact Hu|exact E|].
    simpl. apply (keyed_positive _ _ _ _ _ _ Hu E).
  - unfold Mem.createPhoto. wf_fields.
    apply keyed_set_fresh; [exact Hp|reflexivity].
  - unfold Mem.likePhoto.
    destruct (JsMap.get (Mem.photos s) photoId) as [photo|] eqn:E;
      wf_fields.
    apply (keyed_set_present _ _ _ _ _ photo); [exact Hp|exact E|].
    simpl. apply (keyed_positive _ _ _ _ _ _ Hp E).
  - unfold Mem.unlikePhoto.
    destruct (JsMap.get (Mem.photos s) photoId) as [photo|] eqn:E;
      [destruct (positive_counter (Mem.p_likeCount photo))|]; wf_fields.
    apply (keyed_set_present _ _ _ _ _ photo); [exact Hp|exact E|].
    simpl. apply (keyed_positive _ _ _ _ _ _ Hp E).
  - unfold Mem.followUser.
    destruct (Mem.isFollowing s followerId followingId); [wf_fields|].
    simpl.
    assert (Hf' : MemContract.keyed Mem.f_id
                    (JsMap.set (Mem.follows s) (Mem.currentFollowId s)
                       (Mem.mkFollow (Mem.currentFollowId s) followerId
                                     followingId))
                    (Mem.currentFollowId s + 1)).
    { apply keyed_set_fresh; [exact Hf|reflexivity]. }
    destruct (JsMap.get (Mem.users s) followingId) as [user|] eqn:E;
      wf_fields.
    apply (keyed_set_present _ _ _ _ _ user); [exact Hu|exact E|].
    simpl. apply (keyed_positive _ _ _ _ _ _ Hu E).
  - unfold Mem.unfollowUser.
    destruct (find _ _) as [e|]; [|wf_fields]. simpl.
    assert (Hf' : MemContract.keyed Mem.f_id
                    (JsMap.delete (Mem.follows s) (fst e))
                    (Mem.currentFollowId s)).
    { apply keyed_delete. exact Hf. }
    destruct (JsMap.get (Mem.users s) followingId) as [user|] eqn:E;
      [destruct (positive_counter (Mem.u_followerCount user))|]; wf_fields.
    apply (keyed_set_present _ _ _ _ _ user); [exact Hu|exact E|].
    simpl. apply (keyed_positive _ _ _ _ _ _ Hu E).
  - unfold Mem.createComment. simpl.
    assert (Hc' : MemContract.keyed Mem.c_id
                    (JsMap.set (Mem.comments s) (Mem.currentCommentId s)
                       (Mem.mkComment (Mem.currentCommentId s) userId photoId
                                      content (Some 0%Z) now))
                    (Mem.currentCommentId s + 1)).
    { apply keyed_set_fresh; [exact Hc|reflexivity]. }
    destruct (JsMap.get (Mem.photos s) photoId) as [photo|] eqn:E;
      wf_fields.
    apply (keyed_set_present _ _ _ _ _ photo); [exact Hp|exact E|].
    simpl. apply (keyed_positive _ _ _ _ _ _ Hp E).
  - unfold Mem.likeComment.
    destruct (JsMap.get (Mem.comments s) commentId) as [comment|] eqn:E;
      wf_fields.
    apply (keyed_set_present _ _ _ _ _ comment); [exact Hc|exact E|].
    simpl. apply (keyed_positive _ _ _ _ _ _ Hc E).
  - unfold Mem.unlikeComment.
    destruct (JsMap.get (Mem.comments s) commentId) as [comment|] eqn:E;
      [destruct (positive_counter (Mem.c_likeCount comment))|]; wf_fields.
    apply (keyed_set_present _ _ _ _ _ comment); [exact Hc|exact E|].
    simpl. apply (keyed_positive _ _ _ _ _ _ Hc E).
  - unfold Mem.createNotification. wf_fields.
    apply keyed_set_fresh; [exact Hn|reflexivity].
  - unfold Mem.markNotificationAsRead.
    destruct (JsMap.get (Mem.notifications s) notificationId)
      as [notification|] eqn:E; wf_fields.
    apply (keyed_set_present _ _ _ _ _ notification); [exact Hn|exact E|].
    simpl. apply (keyed_positive _ _ _ _ _ _ Hn E).
  - destruct (mem_markAll_keeps s userId) as [E1 [E2 [E3 E4]]].
    destruct (mem_markAll_counters s userId) as [C1 [C2 [C3 [C4 C5]]]].
    unfold MemContract.store_wf.
    rewrite E1, E2, E3, E4, C1, C2, C3, C4, C5.
    wf_fields. apply keyed_markAll. exact Hn.
Qed.

Lemma mem_run_store_wf : forall ops s,
  MemContract.store_wf s -> MemContract.store_wf (Mem.run s ops).
Proof.
  induction ops as [|o ops IH]; intros s H; simpl; [exact H|].
  apply IH. apply mem_step_store_wf. exact H.
Qed.

Lemma mem_constructor_store_wf : MemContract.store_wf Mem.constructor.
Proof. unfold MemContract.store_wf. wf_fields; apply keyed_empty. Qed.

(** X2: in every state that the interface operations reach from the
    constructor, each of the five maps that MemStorage writes holds every
    key once, every entity sits under its own [id], and every id is below
    the counter that hands out the next one. *)
Theorem mem_ids_are_unique : forall (ops : list Mem.Op),
  MemContract.store_wf (Mem.run Mem.constructor ops).
Proof.
  intros ops. apply mem_run_store_wf, mem_constructor_store_wf.
Qed.

Lemma keyed_fresh_get : forall (V : Type) (id : V -> nat) m next,
  MemContract.keyed id m next -> JsMap.get m next = None.
Proof.
  intros V id m next [_ Hin]. apply not_in_get_none.
  intros H. unfold JsMap.keys in H. apply in_map_iff in H.
  destruct H as [[k v] [Hk He]]. simpl in Hk. subst k.
  destruct (Hin _ _ He). lia.
Qed.

(** X3: in every reachable state, [createUser], [createPhoto] and
    [createComment] hand out an id that no stored entity has, the new entity
    is then found under that id, and every entity stored before is found
    unchanged (for [createComment]: every comment). *)
Theorem mem_create_then_get : forall (ops : list Mem.Op),
  let s := Mem.run Mem.constructor ops in
  (forall username password,
     let r := Mem.createUser s username password in
     Mem.getUser s (Mem.u_id (fst r)) = None
     /\ Mem.getUser (snd r) (Mem.u_id (fst r)) = Some (fst r)
     /\ forall id, id <> Mem.u_id (fst r) ->
                   Mem.getUser (snd r) id = Mem.getUser s id)
  /\ (forall now userId imageUrl caption,
        let r := Mem.createPhoto s now userId imageUrl caption in
        JsMap.get (Mem.photos s) (Mem.p_id (fst r)) = None
        /\ JsMap.get (Mem.photos (snd r)) (Mem.p_id (fst r)) = Some (fst r)
        /\ forall id, id <> Mem.p_id (fst r) ->
                      JsMap.get (Mem.photos (snd r)) id
                      = JsMap.get (Mem.photos s) id)
  /\ (forall now userId photoId content,
        let r := Mem.createComment s now userId photoId content in
        JsMap.get (Mem.comments s) (Mem.c_id (fst r)) = None
        /\ JsMap.get (Mem.comments (snd r)) (Mem.c_id (fst r))
           = Some (fst r)
        /\ forall id, id <> Mem.c_id (fst r) ->
                      JsMap.get (Mem.comments (snd r)) id
                      = JsMap.get (Mem.comments s) id).
Proof.
  intros ops s.
  destruct (mem_run_store_wf ops _ mem_constructor_store_wf)
    as [Hu [Hp [Hc _]]]. fold s in Hu, Hp, Hc.
  split; [|split].
  - intros username password r. unfold r, Mem.createUser, Mem.getUser. simpl.
    split; [apply (keyed_fresh_get _ _ _ _ Hu)|].
    split; [apply get_set_same|].
    intros id Hne. apply get_set_other. congruence.
  - intros now userId imageUrl caption r. unfold r, Mem.createPhoto. simpl.
    split; [apply (keyed_fresh_get _ _ _ _ Hp)|].
    split; [apply get_set_same|].
    intros id Hne. apply get_set_other. congruence.
  - intros now userId photoId content r. unfold r, Mem.createComment.
    simpl.
    destruct (JsMap.get (Mem.photos s) photoId); simpl;
      (split; [apply (keyed_fresh_get _ _ _ _ Hc)|];
       split; [apply get_set_same|];
       intros id Hne; apply get_set_other; congruence).
Qed.

(** ** MemStorage: lookups and round trips *)

Lemma find_snoc : forall (A : Type) (P : A -> bool) (l : list A) x,
  find P (l ++ [x])
  = match find P l with
    | Some y => Some y
    | None => if P x then Some x else None
    end.
Proof.
  intros A P l x. induction l as [|y l IH]; simpl; [reflexivity|].
  destruct (P y); [reflexivity|exact IH].
Qed.

(** X4: MemStorage does not reject a user name that is taken.  In every
    reachable state, after [createUser(name)] the lookup
    [getUserByUsername(n)] still returns the user it returned before, and
    returns the new user only when no earlier user had the name. *)
Theorem mem_getUserByUsername_after_createUser :
  forall (ops : list Mem.Op) (name password n : string),
    let s := Mem.run Mem.constructor ops in
    let r := Mem.createUser s name password in
    Mem.getUserByUsername (snd r) n
    = match Mem.getUserByUsername s n with
      | Some u => Some u
      | None => if String.eqb name n then Some (fst r) else None
      end.
Proof.
  intros ops name password n s r.
  destruct (mem_run_store_wf ops _ mem_constructor_store_wf)
    as [[_ Hin] _]. fold s in Hin.
  unfold r, Mem.getUserByUsername, Mem.createUser. simpl.
  rewrite set_fresh.
  - rewrite values_snoc, find_snoc. reflexivity.
  - intros H. unfold JsMap.keys in H. apply in_map_iff in H.
    destruct H as [[k v] [Hk He]]. simpl in Hk. subst k.
    destruct (Hin _ _ He). lia.
Qed.

Section JsMapSet.
Variable V : Type.
Implicit Types (m : JsMap.t V) (k : nat) (v : V).

Lemma set_set : forall m k v v',
  JsMap.set (JsMap.set m k v) k v' = JsMap.set m k v'.
Proof.
  induction m as [|[k0 v0] m IH]; intros k v v'; simpl.
  - rewrite Nat.eqb_refl. reflexivity.
  - destruct (k0 =? k) eqn:E; simpl; rewrite E; [reflexivity|].
    f_equal. apply IH.
Qed.

Lemma set_get_same : forall m k v,
  JsMap.get m k = Some v -> JsMap.set m k v = m.
Proof.
  induction m as [|[k0 v0] m IH]; intros k v H; simpl in *; [discriminate|].
  destruct (k0 =? k) eqn:E.
  - injection H as ->. reflexivity.
  - f_equal. apply IH. exact H.
Qed.
End JsMapSet.

Lemma mem_set_photos_same : forall s, Mem.set_photos s (Mem.photos s) = s.
Proof. intros []; reflexivity. Qed.

Lemma mem_set_comments_same : forall s,
  Mem.set_comments s (Mem.comments s) = s.
Proof. intros []; reflexivity. Qed.

Lemma mem_p_likeCount_back : forall p c,
  Mem.with_p_likeCount (Mem.with_p_likeCount p c) (Mem.p_likeCount p) = p.
Proof. intros [] c; reflexivity. Qed.

Lemma mem_c_likeCount_back : forall x c,
  Mem.with_c_likeCount (Mem.with_c_likeCount x c) (Mem.c_likeCount x) = x.
Proof. intros [] c; reflexivity. Qed.

Lemma counted_round_trip : forall c,
  MemContract.counted c ->
  positive_counter (Some (or0 c + 1)%Z) = true
  /\ Some (js_add (Some (or0 c + 1)%Z) (-1)) = c.
Proof.
  intros c [z [-> Hz]]. unfold or0, positive_counter, js_add.
  destruct (z =? 0)%Z eqn:E.
  - apply Z.eqb_eq in E. subst z. split; reflexivity.
  - split; [|f_equal; lia].
    destruct (z + 1 =? 0)%Z eqn:E1; [apply Z.eqb_eq in E1; lia|].
    destruct (0 <? z + 1)%Z eqn:E2; [reflexivity|].
    apply Z.ltb_ge in E2. lia.
Qed.

(** X5: in every reachable state of MemStorage, [unlikePhoto] undoes
    [likePhoto] and [unlikeComment] undoes [likeComment]: the store is
    exactly what it was, whoever the actors are and whether or not the
    target exists. *)
Theorem mem_unlike_undoes_like :
  forall (ops : list Mem.Op) (u u' target : nat),
    let s := Mem.run Mem.constructor ops in
    Mem.unlikePhoto (Mem.likePhoto s u target) u' target = s
    /\ Mem.unlikeComment (Mem.likeComment s u target) u' target = s.
Proof.
  intros ops u u' target s.
  destruct (mem_run_counters_ok ops _ mem_constructor_counters_ok)
    as [_ [Hp Hc]].
  fold s in Hp, Hc. split.
  - unfold Mem.likePhoto.
    destruct (JsMap.get (Mem.photos s) target) as [photo|] eqn:E.
    + unfold Mem.unlikePhoto. cbn [Mem.photos Mem.set_photos].
      rewrite get_set_same.
      cbn [Mem.p_likeCount Mem.with_p_likeCount Mem.photos Mem.set_photos].
      destruct (Hp photo (get_in_values _ _ _ _ E)) as [Hl _].
      destruct (counted_round_trip _ Hl) as [G1 G2].
      rewrite G1, G2, set_set.
      rewrite mem_p_likeCount_back.
      rewrite (set_get_same _ _ _ _ E).
      change (Mem.set_photos _ (Mem.photos s))
        with (Mem.set_photos s (Mem.photos s)).
      apply mem_set_photos_same.
    + unfold Mem.unlikePhoto. rewrite E. reflexivity.
  - unfold Mem.likeComment.
    destruct (JsMap.get (Mem.comments s) target) as [comment|] eqn:E.
    + unfold Mem.unlikeComment. cbn [Mem.comments Mem.set_comments].
      rewrite get_set_same.
      cbn [Mem.c_likeCount Mem.with_c_likeCount Mem.comments
           Mem.set_comments].
      destruct (counted_round_trip _ (Hc comment (get_in_values _ _ _ _ E)))
        as [G1 G2].
      rewrite G1, G2, set_set.
      rewrite mem_c_likeCount_back.
      rewrite (set_get_same _ _ _ _ E).
      change (Mem.set_comments _ (Mem.comments s))
        with (Mem.set_comments s (Mem.comments s)).
      apply mem_set_comments_same.
    + unfold Mem.unlikeComment. rewrite E. reflexivity.
Qed.

(** X6: [followUser] of MemStorage is idempotent in every state: a second
    call for the same pair changes nothing. *)
Theorem mem_followUser_idempotent : forall (s : Mem.MemStorage) (f u : nat),
  Mem.followUser (Mem.followUser s f u) f u = Mem.followUser s f u.
Proof.
  intros s f u.
  destruct (Mem.isFollowing s f u) eqn:Hfol.
  - unfold Mem.followUser. rewrite Hfol, Hfol. reflexivity.
  - assert (H1 : Mem.isFollowing (Mem.followUser s f u) f u = true).
    { unfold Mem.followUser. rewrite Hfol. simpl.
      assert (Hp : (fun x => (Mem.f_followerId x =? f)
                             && (Mem.f_followingId x =? u))
                     (Mem.mkFollow (Mem.currentFollowId s) f u) = true).
      { simpl. rewrite !Nat.eqb_refl. reflexivity. }
      destruct (JsMap.get (Mem.users s) u); unfold Mem.isFollowing; simpl;
        apply existsb_values_set; exact Hp. }
    unfold Mem.followUser at 1. rewrite H1. reflexivity.
Qed.

Lemma delete_snoc_fresh : forall (V : Type) (m : JsMap.t V) k v,
  ~ In k (JsMap.keys m) -> JsMap.delete (m ++ [(k, v)]) k = m.
Proof.
  intros V m k v H. unfold JsMap.delete. rewrite filter_app. simpl.
  rewrite Nat.eqb_refl. simpl. rewrite app_nil_r.
  apply delete_absent. exact H.
Qed.

Lemma keyed_next_fresh : forall (V : Type) (id : V -> nat) m next,
  MemContract.keyed id m next -> ~ In next (JsMap.keys m).
Proof.
  intros V id m next [_ Hin] H. unfold JsMap.keys in H.
  apply in_map_iff in H. destruct H as [[k v] [Hk He]]. simpl in Hk.
  subst k. destruct (Hin _ _ He). lia.
Qed.

Lemma mem_u_followerCount_back : forall x c,
  Mem.with_followerCount (Mem.with_followerCount x c) (Mem.u_followerCount x)
  = x.
Proof. intros [] c; reflexivity. Qed.

(** X7: in every reachable state of MemStorage, [unfollowUser] undoes a
    [followUser] that created a follow: the store is what it was, except
    that the follow id counter has moved on by one. *)
Theorem mem_unfollow_undoes_follow :
  forall (ops : list Mem.Op) (f u : nat),
    let s := Mem.run Mem.constructor ops in
    Mem.isFollowing s f u = false ->
    Mem.unfollowUser (Mem.followUser s f u) f u
    = Mem.set_currentFollowId s (Mem.currentFollowId s + 1).
Proof.
  intros ops f u s Hnot.
  destruct (mem_run_store_wf ops _ mem_constructor_store_wf)
    as [_ [_ [_ [Hf _]]]]. fold s in Hf.
  destruct (mem_run_counters_ok ops _ mem_constructor_counters_ok)
    as [Hu _]. fold s in Hu.
  pose proof (keyed_next_fresh _ _ _ _ Hf) as Hfresh.
  unfold Mem.followUser. rewrite Hnot.
  cbn [Mem.follows Mem.set_follows Mem.set_currentFollowId
       Mem.currentFollowId Mem.users].
  rewrite set_fresh by exact Hfresh.
  assert (Hfind :
    find (fun e : nat * Mem.Follow =>
            (Mem.f_followerId (snd e) =? f) && (Mem.f_followingId (snd e) =? u))
         (JsMap.entries
            (Mem.follows s
             ++ [(Mem.currentFollowId s,
                  Mem.mkFollow (Mem.currentFollowId s) f u)]))
    = Some (Mem.currentFollowId s,
            Mem.mkFollow (Mem.currentFollowId s) f u)).
  { unfold JsMap.entries. rewrite find_snoc.
    unfold Mem.isFollowing in Hnot.
    pose proof (find_no_entry _ _ _ Hnot) as Hn.
    unfold JsMap.entries in Hn. rewrite Hn. simpl.
    rewrite !Nat.eqb_refl. reflexivity. }
  destruct (JsMap.get (Mem.users s) u) as [user|] eqn:E.
  - unfold Mem.unfollowUser.
    cbn [Mem.follows Mem.set_follows Mem.set_users Mem.users].
    rewrite Hfind. cbn [fst snd Mem.set_follows Mem.users Mem.follows].
    rewrite get_set_same.
    cbn [Mem.u_followerCount Mem.with_followerCount].
    destruct (counted_round_trip _ (Hu user (get_in_values _ _ _ _ E)))
      as [G1 G2].
    rewrite G1, G2, delete_snoc_fresh by exact Hfresh.
    cbn [Mem.set_users Mem.users Mem.photos Mem.follows Mem.likes
         Mem.comments Mem.commentLikes Mem.notifications Mem.currentId
         Mem.currentPhotoId Mem.currentCommentId Mem.currentFollowId
         Mem.currentNotificationId].
    rewrite set_set, mem_u_followerCount_back, (set_get_same _ _ _ _ E).
    unfold Mem.set_currentFollowId. reflexivity.
  - unfold Mem.unfollowUser. cbn [Mem.follows Mem.set_follows].
    rewrite Hfind.
    cbn [fst snd Mem.set_follows Mem.set_currentFollowId Mem.users
         Mem.follows].
    rewrite E, delete_snoc_fresh by exact Hfresh.
    unfold Mem.set_currentFollowId. reflexivity.
Qed.

Lemma mem_unfollow_undoes_follow_witness :
  Mem.unfollowUser (Mem.followUser Scenario.mem_two_users 1 2) 1 2
  = Mem.set_currentFollowId Scenario.mem_two_users 2.
Proof.
  apply (mem_unfollow_undoes_follow
           [Mem.CreateUser "f" "pw"; Mem.CreateUser "u" "pw"] 1 2).
  reflexivity.
Defined.

Lemma in_lookup_users : forall s ids x,
  In x (Mem.lookup_users s ids)
  <-> exists id, In id ids /\ Mem.getUser s id = Some x.
Proof.
  intros s ids x. unfold Mem.lookup_users, Mem.getUser.
  rewrite in_flat_map. split.
  - intros [id [Hid Hx]]. exists id. split; [exact Hid|].
    destruct (JsMap.get (Mem.users s) id) as [y|]; [|contradiction].
    destruct Hx as [->|[]]. reflexivity.
  - intros [id [Hid Hx]]. exists id. split; [exact Hid|].
    rewrite Hx. left. reflexivity.
Qed.

(** X8: [getFollowers(u)] of MemStorage lists exactly the stored users who
    follow [u]: a user is in the list if and only if it is stored under an
    id [f] for which [isFollowing(f, u)] holds. *)
Theorem mem_getFollowers_are_the_followers :
  forall (s : Mem.MemStorage) (u : nat) (x : Mem.User),
    In x (Mem.getFollowers s u)
    <-> exists f, Mem.isFollowing s f u = true /\ Mem.getUser s f = Some x.
Proof.
  intros s u x. unfold Mem.getFollowers. rewrite in_lookup_users.
  split.
  - intros [f [Hf Hx]]. exists f. split; [|exact Hx].
    apply in_map_iff in Hf. destruct Hf as [row [Hrow Hin]].
    apply filter_In in Hin. destruct Hin as [Hin Hu].
    unfold Mem.isFollowing. apply existsb_exists. exists row.
    split; [exact Hin|]. rewrite Hrow, Nat.eqb_refl. exact Hu.
  - intros [f [Hfol Hx]]. exists f. split; [|exact Hx].
    unfold Mem.isFollowing in Hfol. apply existsb_exists in Hfol.
    destruct Hfol as [row [Hin Hp]]. apply andb_true_iff in Hp.
    destruct Hp as [Hf Hu]. apply Nat.eqb_eq in Hf.
    apply in_map_iff. exists row. split; [exact Hf|].
    apply filter_In. split; assumption.
Qed.

(** X9: [updateUserProfile] of MemStorage.  For an id that no user has it
    throws "User not found" and leaves the store as it is.  For a stored
    user it returns the updated user and stores it under the same id: an
    empty argument keeps the old field, a non-empty one replaces it, and the
    id, the name, the password and the follower counter are kept; every
    other user is untouched. *)
Theorem mem_updateUserProfile_spec :
  forall (s : Mem.MemStorage) (userId : nat)
         (bio avatarUrl displayName : string),
    let r := Mem.updateUserProfile s userId bio avatarUrl displayName in
    match Mem.getUser s userId with
    | None => r = (Thrown (Error "User not found"), s)
    | Some user =>
        exists updated,
          fst r = Returned updated
          /\ Mem.getUser (snd r) userId = Some updated
          /\ Mem.u_bio updated
             = (if String.eqb bio "" then Mem.u_bio user else Some bio)
          /\ Mem.u_avatarUrl updated
             = (if String.eqb avatarUrl "" then Mem.u_avatarUrl user
                else Some avatarUrl)
          /\ Mem.u_displayName updated
             = (if String.eqb displayName "" then Mem.u_displayName user
                else Some displayName)
          /\ Mem.u_id updated = Mem.u_id user
          /\ Mem.u_username updated = Mem.u_username user
          /\ Mem.u_password updated = Mem.u_password user
          /\ Mem.u_followerCount updated = Mem.u_followerCount user
          /\ (forall id, id <> userId ->
                         Mem.getUser (snd r) id = Mem.getUser s id)
    end.
Proof.
  intros s userId bio avatarUrl displayName r.
  unfold r, Mem.updateUserProfile, Mem.getUser.
  destruct (JsMap.get (Mem.users s) userId) as [user|] eqn:E;
    [|reflexivity].
  eexists. split; [reflexivity|]. simpl.
  split; [apply get_set_same|].
  repeat (split; [reflexivity|]).
  intros id Hne. apply get_set_other. congruence.
Qed.

(** ** The listing queries of MemStorage *)

Section SortByTime.
Variable A : Type.
Variable time : A -> Z.

(** The comparator of every listing is [(a, b) => time(b) - time(a)]. *)

Lemma sort_insert_perm : forall x l,
  Permutation (sort_insert (fun a b => (time b - time a)%Z) x l) (x :: l).
Proof.
  intros x l. induction l as [|y r IH]; simpl; [apply Permutation_refl|].
  destruct (0 <? time y - time x)%Z; [|apply Permutation_refl].
  eapply perm_trans; [apply perm_skip; exact IH|apply perm_swap].
Qed.

Lemma js_sort_perm : forall l,
  Permutation (js_sort (fun a b => (time b - time a)%Z) l) l.
Proof.
  induction l as [|x l IH]; simpl; [constructor|].
  eapply perm_trans; [apply sort_insert_perm|].
  apply perm_skip. exact IH.
Qed.

Lemma sort_insert_sorted : forall x l,
  StronglySorted (fun a b => (time b <= time a)%Z) l ->
  StronglySorted (fun a b => (time b <= time a)%Z)
                 (sort_insert (fun a b => (time b - time a)%Z) x l).
Proof.
  intros x l. induction l as [|y r IH]; intros H; simpl.
  - constructor; constructor.
  - inversion H as [|y' r' Hr Hy]; subst.
    destruct (0 <? time y - time x)%Z eqn:E.
    + apply Z.ltb_lt in E. constructor; [apply IH; exact Hr|].
      apply (Permutation_Forall (Permutation_sym (sort_insert_perm x r))).
      constructor; [lia|exact Hy].
    + apply Z.ltb_ge in E. constructor; [exact H|].
      constructor; [lia|].
      eapply Forall_impl; [|exact Hy]. simpl. intros z Hz. lia.
Qed.

Lemma js_sort_sorted : forall l,
  StronglySorted (fun a b => (time b <= time a)%Z)
                 (js_sort (fun a b => (time b - time a)%Z) l).
Proof.
  induction l as [|x l IH]; simpl; [constructor|].
  apply sort_insert_sorted. exact IH.
Qed.

Lemma js_sort_in : forall l x,
  In x (js_sort (fun a b => (time b - time a)%Z) l) <-> In x l.
Proof.
  intros l x. split; apply Permutation_in;
    [apply js_sort_perm|apply Permutation_sym, js_sort_perm].
Qed.

Lemma filtered_listing : forall (P : A -> bool) l,
  (forall x, In x (js_sort (fun a b => (time b - time a)%Z) (filter P l))
             <-> In x l /\ P x = true)
  /\ StronglySorted (fun a b => (time b <= time a)%Z)
       (js_sort (fun a b => (time b - time a)%Z) (filter P l)).
Proof.
  intros P l. split; [|apply js_sort_sorted].
  intros x. rewrite js_sort_in. apply filter_In.
Qed.
End SortByTime.

(** X10: [getPhotos] of MemStorage returns every stored photo, each as
    often as it is stored and nothing else, ordered newest first: no photo
    in the list is newer than a photo before it. *)
Theorem mem_getPhotos_newest_first : forall (s : Mem.MemStorage),
  Permutation (Mem.getPhotos s) (JsMap.values (Mem.photos s))
  /\ StronglySorted (fun a b => (Mem.p_createdAt b <= Mem.p_createdAt a)%Z)
                    (Mem.getPhotos s).
Proof.
  intros s. unfold Mem.getPhotos. split.
  - apply js_sort_perm.
  - apply js_sort_sorted.
Qed.

(** X11: the feed of MemStorage.  [getFeedPhotos(u)] holds exactly the
    stored photos whose owner is [u] or is followed by [u], ordered newest
    first. *)
Theorem mem_getFeedPhotos_spec :
  forall (s : Mem.MemStorage) (u : nat),
    (forall ph,
       In ph (Mem.getFeedPhotos s u)
       <-> In ph (JsMap.values (Mem.photos s))
           /\ (Mem.isFollowing s u (Mem.p_userId ph) = true
               \/ Mem.p_userId ph = u))
    /\ StronglySorted
         (fun a b => (Mem.p_createdAt b <= Mem.p_createdAt a)%Z)
         (Mem.getFeedPhotos s u).
Proof.
  intros s u. unfold Mem.getFeedPhotos. split; [|apply js_sort_sorted].
  intros ph. rewrite js_sort_in, filter_In.
  assert (Hfol :
    existsb (fun id => id =? Mem.p_userId ph)
      (map Mem.f_followingId
         (filter (fun follow => Mem.f_followerId follow =? u)
                 (JsMap.values (Mem.follows s))))
    = Mem.isFollowing s u (Mem.p_userId ph)).
  { unfold Mem.isFollowing.
    induction (JsMap.values (Mem.follows s)) as [|row rows IH]; simpl;
      [reflexivity|].
    destruct (Mem.f_followerId row =? u); simpl; rewrite IH; reflexivity. }
  rewrite Hfol, orb_true_iff, Nat.eqb_eq. reflexivity.
Qed.

(** X12: the other listings of MemStorage.  [getUserPhotos(u)] holds
    exactly the stored photos owned by [u], [getPhotoComments(p)] exactly
    the stored comments on [p] and [getUserNotifications(u)] exactly the
    stored notifications addressed to [u]; each list is ordered newest
    first. *)
Theorem mem_listings_spec :
  forall (s : Mem.MemStorage) (id : nat),
    ((forall ph, In ph (Mem.getUserPhotos s id)
                 <-> In ph (JsMap.values (Mem.photos s))
                     /\ Mem.p_userId ph = id)
     /\ StronglySorted
          (fun a b => (Mem.p_createdAt b <= Mem.p_createdAt a)%Z)
          (Mem.getUserPhotos s id))
    /\ ((forall c, In c (Mem.getPhotoComments s id)
                   <-> In c (JsMap.values (Mem.comments s))
                       /\ Mem.c_photoId c = id)
        /\ StronglySorted
             (fun a b => (Mem.c_createdAt b <= Mem.c_createdAt a)%Z)
             (Mem.getPhotoComments s id))
    /\ ((forall n, In n (Mem.getUserNotifications s id)
                   <-> In n (JsMap.values (Mem.notifications s))
                       /\ Mem.n_userId n = id)
        /\ StronglySorted
             (fun a b => (Mem.n_createdAt b <= Mem.n_createdAt a)%Z)
             (Mem.getUserNotifications s id)).
Proof.
  intros s id.
  unfold Mem.getUserPhotos, Mem.getPhotoComments, Mem.getUserNotifications.
  split; [|split].
  - destruct (filtered_listing _ Mem.p_createdAt
                (fun photo => Mem.p_userId photo =? id)
                (JsMap.values (Mem.photos s))) as [Hin Hs].
    split; [|exact Hs]. intros ph. rewrite Hin, Nat.eqb_eq. reflexivity.
  - destruct (filtered_listing _ Mem.c_createdAt
                (fun comment => Mem.c_photoId comment =? id)
                (JsMap.values (Mem.comments s))) as [Hin Hs].
    split; [|exact Hs]. intros c. rewrite Hin, Nat.eqb_eq. reflexivity.
  - destruct (filtered_listing _ Mem.n_createdAt
                (fun notification => Mem.n_userId notification =? id)
                (JsMap.values (Mem.notifications s))) as [Hin Hs].
    split; [|exact Hs]. intros n. rewrite Hin, Nat.eqb_eq. reflexivity.
Qed.

(** ** MemStorage: notifications *)

(** X13: in every reachable state of MemStorage, after
    [markAllNotificationsAsRead(u)] every notification that
    [getUserNotifications(u)] lists is read, the listing of every other
    user is what it was, and no notification was added or removed. *)
Theorem mem_markAll_marks_all :
  forall (ops : list Mem.Op) (u : nat),
    let s := Mem.run Mem.constructor ops in
    let s' := Mem.markAllNotificationsAsRead s u in
    (forall n, In n (Mem.getUserNotifications s' u) -> Mem.n_read n = true)
    /\ (forall u', u' <> u ->
          Mem.getUserNotifications s' u' = Mem.getUserNotifications s u')
    /\ JsMap.keys (Mem.notifications s') = JsMap.keys (Mem.notifications s).
Proof.
  intros ops u s s'.
  destruct (mem_run_store_wf ops _ mem_constructor_store_wf)
    as [_ [_ [_ [_ [Hnd _]]]]]. fold s in Hnd.
  pose proof (mem_markAll_notifications s u Hnd) as E. fold s' in E.
  split; [|split].
  - intros n Hn. unfold Mem.getUserNotifications in Hn.
    apply js_sort_in in Hn. apply filter_In in Hn. destruct Hn as [Hin Hu].
    rewrite E in Hin. unfold JsMap.values in Hin. rewrite map_map in Hin.
    apply in_map_iff in Hin. destruct Hin as [e [He _]]. subst n.
    destruct (Mem.n_userId (snd e) =? u) eqn:C; [reflexivity|].
    rewrite C in Hu. discriminate.
  - intros u' Hne. unfold Mem.getUserNotifications. f_equal. rewrite E.
    clear E Hnd. unfold JsMap.values. rewrite map_map.
    induction (Mem.notifications s) as [|e m IH]; simpl; [reflexivity|].
    rewrite IH. destruct (Mem.n_userId (snd e) =? u) eqn:C; [|reflexivity].
    simpl. apply Nat.eqb_eq in C.
    assert (C' : (Mem.n_userId (snd e) =? u') = false).
    { apply Nat.eqb_neq. congruence. }
    rewrite C'. reflexivity.
  - rewrite E. unfold JsMap.keys. rewrite map_map. apply map_ext.
    intros e. destruct (Mem.n_userId (snd e) =? u); reflexivity.
Qed.

(** X14: [markNotificationAsRead(id)] of MemStorage leaves the store as it
    is when no notification has the id; otherwise the notification under
    the id is read afterwards, every other notification is what it was, and
    a second call changes nothing more. *)
Theorem mem_markNotificationAsRead_spec :
  forall (s : Mem.MemStorage) (id : nat),
    let s' := Mem.markNotificationAsRead s id in
    match JsMap.get (Mem.notifications s) id with
    | None => s' = s
    | Some n =>
        JsMap.get (Mem.notifications s') id = Some (Mem.with_read n true)
        /\ (forall id', id' <> id ->
              JsMap.get (Mem.notifications s') id'
              = JsMap.get (Mem.notifications s) id')
        /\ Mem.markNotificationAsRead s' id = s'
    end.
Proof.
  intros s id s'. unfold s', Mem.markNotificationAsRead.
  destruct (JsMap.get (Mem.notifications s) id) as [n|] eqn:E;
    [|reflexivity].
  cbn [Mem.notifications Mem.set_notifications].
  split; [apply get_set_same|].
  split; [intros id' Hne; apply get_set_other; congruence|].
  rewrite get_set_same, set_set. reflexivity.
Qed.

(** ** MemStorage: the comment counter *)

Lemma get_set_some : forall (V : Type) (m : JsMap.t V) k v k',
  JsMap.get m k' <> None -> JsMap.get (JsMap.set m k v) k' <> None.
Proof.
  intros V m k v k' H. destruct (Nat.eq_dec k k') as [<-|Hne].
  - rewrite get_set_same. discriminate.
  - rewrite get_set_other by exact Hne. exact H.
Qed.

Lemma count_values_set_present :
  forall (V : Type) (P : V -> bool) (m : JsMap.t V) k v0 v,
    JsMap.get m k = Some v0 -> P v = P v0 ->
    List.length (filter P (JsMap.values (JsMap.set m k v)))
    = List.length (filter P (JsMap.values m)).
Proof.
  intros V P. unfold JsMap.values.
  induction m as [|[k1 v1] m IH]; intros k v0 v H HP; simpl in *;
    [discriminate|].
  destruct (k1 =? k) eqn:E; simpl.
  - injection H as ->. rewrite HP. destruct (P v0); reflexivity.
  - destruct (P v1); simpl; rewrite (IH _ _ _ H HP); reflexivity.
Qed.


Lemma filter_length_zero : forall (A : Type) (P : A -> bool) (l : list A),
  (forall x, In x l -> P x = false) -> List.length (filter P l) = 0.
Proof.
  intros A P l H. induction l as [|x l IH]; simpl; [reflexivity|].
  rewrite (H x (or_introl eq_refl)). apply IH.
  intros y Hy. apply H. right. exact Hy.
Qed.

Lemma comments_inv_same : forall s s',
  Mem.photos s' = Mem.photos s -> Mem.comments s' = Mem.comments s ->
  MemContract.store_wf s' ->
  MemContract.comments_inv s -> MemContract.comments_inv s'.
Proof.
  intros s s' Hp Hc Hwf [_ [Hcnt Href]].
  split; [exact Hwf|]. unfold MemContract.comments_counted,
    MemContract.comment_rows. rewrite Hp, Hc. split; assumption.
Qed.

Lemma comments_inv_photo : forall s p photo photo',
  MemContract.comments_inv s ->
  MemContract.store_wf (Mem.set_photos s (JsMap.set (Mem.photos s) p photo')) ->
  JsMap.get (Mem.photos s) p = Some photo ->
  Mem.p_commentCount photo' = Mem.p_commentCount photo ->
  MemContract.comments_inv
    (Mem.set_photos s (JsMap.set (Mem.photos s) p photo')).
Proof.
  intros s p photo photo' [_ [Hcnt Href]] Hwf Hget Hsame.
  split; [exact Hwf|]. split.
  - intros k x Hin. simpl in Hin. apply in_set in Hin.
    unfold MemContract.comment_rows. simpl.
    destruct Hin as [Hin|Hin].
    + injection Hin as -> ->. rewrite Hsame.
      apply (Hcnt p photo). apply get_in. exact Hget.
    + apply (Hcnt k x Hin).
  - intros c Hc. simpl. apply get_set_some. apply Href. exact Hc.
Qed.

Lemma comments_inv_comment : forall s k comment comment',
  MemContract.comments_inv s ->
  MemContract.store_wf
    (Mem.set_comments s (JsMap.set (Mem.comments s) k comment')) ->
  JsMap.get (Mem.comments s) k = Some comment ->
  Mem.c_photoId comment' = Mem.c_photoId comment ->
  MemContract.comments_inv
    (Mem.set_comments s (JsMap.set (Mem.comments s) k comment')).
Proof.
  intros s k comment comment' [_ [Hcnt Href]] Hwf Hget Hsame.
  split; [exact Hwf|]. split.
  - intros k' x Hin. simpl in Hin.
    unfold MemContract.comment_rows. simpl.
    rewrite (count_values_set_present _ _ _ _ comment comment' Hget).
    + apply (Hcnt k' x Hin).
    + simpl. rewrite Hsame. reflexivity.
  - intros c Hc. simpl in *. apply in_values_set in Hc.
    destruct Hc as [->|Hc]; [|apply Href; exact Hc].
    rewrite Hsame. apply Href. apply (get_in_values _ _ _ _ Hget).
Qed.

Lemma mem_step_comments_inv : forall s o,
  MemContract.comments_inv s ->
  MemContract.comments_on_photos s [o] = true ->
  MemContract.comments_inv (Mem.step s o).
Proof.
  intros s o Hinv Hok.
  pose proof Hinv as [Hwf [Hcnt Href]].
  pose proof (mem_step_store_wf s o Hwf) as Hwf'.
  destruct o; simpl in Hwf', Hok |- *.
  - apply (comments_inv_same s); auto.
  - unfold Mem.updateUserProfile in *.
    destruct (JsMap.get (Mem.users s) userId); simpl in *;
      apply (comments_inv_same s); auto.
  - (* createPhoto *)
    unfold Mem.createPhoto in *. simpl in *.
    destruct Hwf as [_ [Hp _]].
    pose proof (keyed_fresh_get _ _ _ _ Hp) as Hfresh.
    split; [exact Hwf'|]. split.
    + intros k x Hin. simpl in Hin. apply in_set in Hin.
      unfold MemContract.comment_rows. simpl.
      destruct Hin as [Hin|Hin]; [|apply (Hcnt k x Hin)].
      injection Hin as -> ->. simpl.
      rewrite filter_length_zero; [reflexivity|].
      intros c Hc. apply Nat.eqb_neq. intros Heq.
      apply (Href c Hc). rewrite Heq. exact Hfresh.
    + intros c Hc. simpl. apply get_set_some. apply Href. exact Hc.
  - (* likePhoto *)
    unfold Mem.likePhoto in *.
    destruct (JsMap.get (Mem.photos s) photoId) as [photo|] eqn:E;
      [|exact Hinv].
    apply (comments_inv_photo s photoId photo); auto.
  - (* unlikePhoto *)
    unfold Mem.unlikePhoto in *.
    destruct (JsMap.get (Mem.photos s) photoId) as [photo|] eqn:E;
      [|exact Hinv].
    destruct (positive_counter (Mem.p_likeCount photo)); [|exact Hinv].
    apply (comments_inv_photo s photoId photo); auto.
  - (* followUser *)
    unfold Mem.followUser in *.
    destruct (Mem.isFollowing s followerId followingId); [exact Hinv|].
    simpl in *.
    destruct (JsMap.get (Mem.users s) followingId);
      apply (comments_inv_same s); auto.
  - (* unfollowUser *)
    unfold Mem.unfollowUser in *.
    destruct (find _ _); [|exact Hinv]. simpl in *.
    destruct (JsMap.get (Mem.users s) followingId) as [user|];
      [destruct (positive_counter (Mem.u_followerCount user))|];
      apply (comments_inv_same s); auto.
  - (* createComment *)
    unfold Mem.createComment in *. simpl in *.
    destruct (JsMap.get (Mem.photos s) photoId) as [photo|] eqn:E;
      [|discriminate].
    simpl in *.
    destruct Hwf as [_ [Hp [Hc _]]].
    pose proof (keyed_next_fresh _ _ _ _ Hc) as Hfresh.
    split; [exact Hwf'|].
    assert (Hrows : forall k,
      MemContract.comment_rows
        (Mem.set_photos
           (Mem.set_comments
              (Mem.set_currentCommentId s (Mem.currentCommentId s + 1))
              (JsMap.set (Mem.comments s) (Mem.currentCommentId s)
                 (Mem.mkComment (Mem.currentCommentId s) userId photoId
                                content (Some 0%Z) now)))
           (JsMap.set (Mem.photos s) photoId
              (Mem.with_commentCount photo
                 (Some (or0 (Mem.p_commentCount photo) + 1)%Z)))) k
      = MemContract.comment_rows s k + (if photoId =? k then 1 else 0)).
    { intros k. unfold MemContract.comment_rows. simpl.
      rewrite set_fresh by exact Hfresh.
      rewrite values_snoc, filter_app, length_app. simpl.
      destruct (photoId =? k); reflexivity. }
    split.
    + intros k x Hin. rewrite Hrows. simpl in Hin.
      destruct Hwf' as [_ [[Hnd' _] _]]. simpl in Hnd'.
      apply (in_get _ _ _ _ Hnd') in Hin.
      destruct (Nat.eqb_spec photoId k) as [<-|Hne].
      * rewrite get_set_same in Hin. injection Hin as <-. simpl.
        rewrite (Hcnt photoId photo (get_in _ _ _ _ E)), or0_of_nat.
        f_equal. lia.
      * rewrite get_set_other in Hin by exact Hne.
        rewrite Nat.add_0_r. apply (Hcnt k x). apply get_in. exact Hin.
    + intros c Hc'. simpl in *.
      rewrite set_fresh in Hc' by exact Hfresh.
      rewrite values_snoc in Hc'. apply in_app_iff in Hc'.
      destruct Hc' as [Hc'|[<-|[]]].
      * apply get_set_some. apply Href. exact Hc'.
      * simpl. rewrite get_set_same. discriminate.
  - (* likeComment *)
    unfold Mem.likeComment in *.
    destruct (JsMap.get (Mem.comments s) commentId) as [comment|] eqn:E;
      [|exact Hinv].
    apply (comments_inv_comment s commentId comment); auto.
  - (* unlikeComment *)
    unfold Mem.unlikeComment in *.
    destruct (JsMap.get (Mem.comments s) commentId) as [comment|] eqn:E;
      [|exact Hinv].
    destruct (positive_counter (Mem.c_likeCount comment)); [|exact Hinv].
    apply (comments_inv_comment s commentId comment); auto.
  - apply (comments_inv_same s); auto.
  - unfold Mem.markNotificationAsRead in *.
    destruct (JsMap.get (Mem.notifications s) notificationId);
      [|exact Hinv].
    apply (comments_inv_same s); auto.
  - destruct (mem_markAll_keeps s userId) as [_ [E2 [E3 _]]].
    apply (comments_inv_same s); auto.
Qed.

Lemma mem_run_comments_inv : forall ops s,
  MemContract.comments_inv s ->
  MemContract.comments_on_photos s ops = true ->
  MemContract.comments_inv (Mem.run s ops).
Proof.
  induction ops as [|o ops IH]; intros s Hinv Hok; simpl; [exact Hinv|].
  simpl in Hok. apply andb_true_iff in Hok. destruct Hok as [Ho Hok].
  apply IH; [|exact Hok]. apply mem_step_comments_inv; [exact Hinv|].
  simpl. rewrite Ho. reflexivity.
Qed.

(** X15: the comment counter of MemStorage.  After any sequence of
    interface operations from the constructor in which every
    [createComment] names a photo that is stored at that moment, the
    [commentCount] of every stored photo equals the number of comments
    stored for it. *)
Theorem mem_commentCount_counts_comments :
  forall (ops : list Mem.Op),
    MemContract.comments_on_photos Mem.constructor ops = true ->
    forall k p,
      In (k, p) (Mem.photos (Mem.run Mem.constructor ops)) ->
      Mem.p_commentCount p
      = Some (Z.of_nat
                (MemContract.comment_rows (Mem.run Mem.constructor ops) k)).
Proof.
  intros ops Hok.
  assert (H0 : MemContract.comments_inv Mem.constructor).
  { split; [exact mem_constructor_store_wf|].
    split; [intros k p []|intros c []]. }
  destruct (mem_run_comments_inv ops _ H0 Hok) as [_ [Hcnt _]].
  exact Hcnt.
Qed.

Lemma mem_commentCount_counts_comments_witness :
  Mem.p_commentCount (Mem.mkPhoto 1 1 "a" None (Some 1%Z) (Some 2%Z) 0%Z)
  = Some (Z.of_nat
            (MemContract.comment_rows
               (Mem.run Mem.constructor
                  [Mem.CreateUser "o" "pw"; Mem.CreatePhoto 0 1 "a" None;
                   Mem.CreateComment 1 1 1 "x"; Mem.LikePhoto 1 1;
                   Mem.CreatePhoto 2 1 "b" None;
                   Mem.CreateComment 3 1 2 "y";
                   Mem.CreateComment 4 1 1 "z"; Mem.UnlikeComment 1 1])
               1)).
Proof.
  apply (mem_commentCount_counts_comments
           [Mem.CreateUser "o" "pw"; Mem.CreatePhoto 0 1 "a" None;
            Mem.CreateComment 1 1 1 "x"; Mem.LikePhoto 1 1;
            Mem.CreatePhoto 2 1 "b" None; Mem.CreateComment 3 1 2 "y";
            Mem.CreateComment 4 1 1 "z"; Mem.UnlikeComment 1 1]
           eq_refl 1
           (Mem.mkPhoto 1 1 "a" None (Some 1%Z) (Some 2%Z) 0%Z)).
  left. reflexivity.
Defined.

(** Without that condition the counter can be wrong: a comment on photo id
    1 before the photo exists is never counted. *)
Example mem_early_comment_not_counted :
  let s := Mem.run Mem.constructor
             [Mem.CreateComment 0 1 1 "x"; Mem.CreatePhoto 1 1 "a" None] in
  option_map Mem.p_commentCount (JsMap.get (Mem.photos s) 1)
  = Some (Some 0%Z)
  /\ MemContract.comment_rows s 1 = 1.
Proof. split; reflexivity. Qed.

(** * Further properties of PostgresStorage *)

(** ** Keys *)

Section KeyColumns.
Variables (A K : Type) (k : A -> K).

Lemma column_update : forall (t : list A) g w,
  (forall r, k (g r) = k r) -> map k (Pg.update t g w) = map k t.
Proof.
  intros t g w Hk. unfold Pg.update. rewrite map_map. apply map_ext.
  intros r. destruct (w r); [apply Hk|reflexivity].
Qed.

Lemma column_insert_nodup : forall (t : list A) r,
  NoDup (map k t) -> ~ In (k r) (map k t) ->
  NoDup (map k (Pg.insert t r)).
Proof.
  intros t r Hnd Hnot. unfold Pg.insert. rewrite map_app. simpl.
  induction (map k t) as [|x l IH]; simpl.
  - constructor; [intros []|constructor].
  - inversion Hnd as [|y l' Hx Hnd']; subst. constructor.
    + rewrite in_app_iff. simpl. intros [H|[H|[]]]; [exact (Hx H)|].
      apply Hnot. left. symmetry. exact H.
    + apply IH; [exact Hnd'|]. intros H. apply Hnot. right. exact H.
Qed.
End KeyColumns.

Lemma existsb_false_not_in :
  forall (A : Type) (k : A -> string) (t : list A) x,
    existsb (fun r => String.eqb (k r) x) t = false -> ~ In x (map k t).
Proof.
  intros A k t x H Hin. apply in_map_iff in Hin.
  destruct Hin as [r [Hr Hin]].
  assert (Ht : existsb (fun r => String.eqb (k r) x) t = true).
  { apply existsb_exists. exists r. split; [exact Hin|].
    rewrite Hr. apply String.eqb_refl. }
  congruence.
Qed.

Lemma existsb_or_false :
  forall (A : Type) (P Q : A -> bool) (t : list A),
    existsb (fun r => P r || Q r) t = false ->
    existsb P t = false /\ existsb Q t = false.
Proof.
  intros A P Q t. induction t as [|r t IH]; simpl; intros H; [auto|].
  apply orb_false_iff in H. destruct H as [H1 H2].
  apply orb_false_iff in H1. destruct H1 as [HP HQ].
  destruct (IH H2) as [IP IQ]. rewrite HP, HQ, IP, IQ. auto.
Qed.

Ltac keys_fields :=
  refine (conj _ (conj _ (conj _ (conj _ _)))); simpl;
  rewrite ?column_update by reflexivity; try assumption.

Lemma pg_step_keys_unique : forall db o,
  Contract.keys_unique db -> Contract.keys_unique (Pg.step db o).
Proof.
  intros db o H. pose proof H as [Hu [Hn [Hp [Hc Ht]]]].
  destruct o; simpl.
  - unfold Pg.createUser.
    destruct (existsb _ (Pg.users db)) eqn:E; [exact H|].
    apply existsb_or_false in E. destruct E as [E1 E2]. keys_fields.
    + apply column_insert_nodup; [exact Hu|].
      apply existsb_false_not_in. exact E1.
    + apply column_insert_nodup; [exact Hn|].
      apply existsb_false_not_in. exact E2.
  - unfold Pg.updateUserProfile. keys_fields.
  - unfold Pg.createPhoto.
    destruct (existsb _ (Pg.photos db)) eqn:E; [exact H|]. keys_fields.
    apply column_insert_nodup; [exact Hp|].
    apply existsb_false_not_in. exact E.
  - rewrite pg_likePhoto_toggle. unfold Pg.write_photo_likeCount.
    destruct (Pg.first_photo db photoId); keys_fields.
  - unfold Pg.followUser, Pg.write_user_followerCount.
    destruct (negb _); destruct (Pg.first_user db followingId);
      keys_fields.
  - unfold Pg.unfollowUser, Pg.write_user_followerCount.
    destruct (Pg.first_user db followingId); keys_fields.
  - unfold Pg.createComment.
    destruct (existsb _ (Pg.comments db)) eqn:E; [exact H|].
    unfold Pg.write_photo_commentCount. simpl.
    assert (Hc' : NoDup (map Pg.c_id
                           (Pg.insert (Pg.comments db)
                              (Pg.mkComment id userId photoId content
                                            (Some 0%Z) now false)))).
    { apply column_insert_nodup; [exact Hc|].
      apply existsb_false_not_in. exact E. }
    destruct (Pg.first_photo _ photoId); keys_fields.
  - rewrite pg_likeComment_toggle. unfold Pg.write_comment_likeCount.
    destruct (Pg.first_comment db commentId); keys_fields.
  - unfold Pg.unlikeComment. keys_fields.
  - unfold Pg.createNotification.
    destruct (existsb _ (Pg.notifications db)) eqn:E; [exact H|].
    keys_fields.
    apply column_insert_nodup; [exact Ht|].
    apply existsb_false_not_in. exact E.
  - unfold Pg.markNotificationAsRead. keys_fields.
  - unfold Pg.markAllNotificationsAsRead. keys_fields.
Qed.

(** X16: in every state that the operations of PostgresStorage reach from
    the empty database, no two users share an id or a user name, and no two
    photos, comments or notifications share an id. *)
Theorem pg_keys_stay_unique : forall (ops : list Pg.Op),
  Contract.keys_unique (Pg.run Pg.empty ops).
Proof.
  intros ops.
  assert (G : forall db, Contract.keys_unique db ->
                         Contract.keys_unique (Pg.run db ops)).
  { induction ops as [|o ops IH]; intros db H; simpl; [exact H|].
    apply IH. apply pg_step_keys_unique. exact H. }
  apply G. repeat split; constructor.
Qed.

(** ** Users *)

Lemma select_none : forall (A : Type) (t : list A) w,
  existsb w t = false -> Pg.select t w = [].
Proof. intros A t w H. unfold Pg.select. apply filter_none. exact H. Qed.


Lemma existsb_select : forall (A : Type) (t : list A) w,
  existsb w t = match hd_error (Pg.select t w) with
                | Some _ => true
                | None => false
                end.
Proof.
  intros A t w. unfold Pg.select.
  induction t as [|r t IH]; simpl; [reflexivity|].
  destruct (w r); simpl; [reflexivity|exact IH].
Qed.

Lemma existsb_orb : forall (A : Type) (P Q : A -> bool) (t : list A),
  existsb (fun r => P r || Q r) t = existsb P t || existsb Q t.
Proof.
  intros A P Q t. induction t as [|r t IH]; simpl; [reflexivity|].
  rewrite IH. destruct (P r), (Q r), (existsb P t), (existsb Q t);
    reflexivity.
Qed.


(** X17: [createUser] of PostgresStorage.  When the id or the user name
    is taken the call fails with a database error and changes nothing.
    Otherwise it returns the new user, with a counter of 0, and afterwards
    [getUser(id)] and [getUserByUsername(name)] both return that user while
    [getUser] of every other id answers as before. *)
Theorem pg_createUser_then_get :
  forall (db : Pg.DB) (id : Pg.uuid) (name password : string),
    let r := Pg.createUser db id name password in
    match Pg.getUser db id, Pg.getUserByUsername db name with
    | None, None =>
        exists user,
          fst r = Returned user
          /\ Pg.u_id user = id /\ Pg.u_username user = name
          /\ Pg.u_followerCount user = Some 0%Z
          /\ Pg.getUser (snd r) id = Some user
          /\ Pg.getUserByUsername (snd r) name = Some user
          /\ (forall id', id' <> id ->
                Pg.getUser (snd r) id' = Pg.getUser db id')
    | _, _ => r = (Thrown DbError, db)
    end.
Proof.
  intros db id name password r. unfold r, Pg.createUser.
  unfold Pg.getUser, Pg.first_user, Pg.getUserByUsername, Pg.user_is.
  pose proof (existsb_select _ (Pg.users db)
                (fun u => String.eqb (Pg.u_id u) id)) as E1.
  pose proof (existsb_select _ (Pg.users db)
                (fun u => String.eqb (Pg.u_username u) name)) as E2.
  rewrite existsb_orb, E1, E2.
  destruct (hd_error (Pg.select (Pg.users db) _)) eqn:H1;
    [reflexivity|].
  destruct (hd_error (Pg.select (Pg.users db)
              (fun u => String.eqb (Pg.u_username u) name))) eqn:H2;
    [reflexivity|].
  cbn [orb fst snd Pg.users Pg.set_users].
  eexists. split; [reflexivity|].
  cbn [Pg.u_id Pg.u_username Pg.u_followerCount].
  repeat (split; [reflexivity|]).
  rewrite !select_insert.
  cbn [Pg.u_id Pg.u_username]. rewrite !String.eqb_refl.
  rewrite (select_none _ _ _ E1), (select_none _ _ _ E2).
  repeat (split; [reflexivity|]).
  intros id' Hne.
  assert (Hf : String.eqb id id' = false).
  { apply String.eqb_neq. congruence. }
  rewrite select_insert. cbn [Pg.u_id]. rewrite Hf, app_nil_r.
  reflexivity.
Qed.


(** ** Who liked, who follows *)

Lemma flat_map_select_update :
  forall (A B : Type) (f : A -> list B) (t : list A) g w (q : A -> bool),
    (forall r, q (g r) = q r) -> (forall r, f (g r) = f r) ->
    flat_map f (Pg.select (Pg.update t g w) q) = flat_map f (Pg.select t q).
Proof.
  intros A B f t g w q Hq Hf. unfold Pg.select, Pg.update.
  induction t as [|r t IH]; simpl; [reflexivity|].
  destruct (w r); [rewrite Hq|]; destruct (q r); simpl;
    rewrite ?Hf, IH; reflexivity.
Qed.

Lemma users_after_photo_write : forall db photo p d,
  Pg.users (snd (Pg.write_photo_likeCount db photo p d)) = Pg.users db.
Proof. intros db [ph|] p d; reflexivity. Qed.

(** The rows of the join after a [likePhoto], in table order. *)
Lemma pg_liked_rows_after_likePhoto :
  forall (db : Pg.DB) (u p q : Pg.uuid),
    Pg.getLikedUsers (snd (Pg.likePhoto db u p)) q
    = Pg.getLikedUsers db q
      ++ match Contract.like_state db u p with
         | ABSENT =>
             if String.eqb p q then Pg.select (Pg.users db) (Pg.user_is u)
             else []
         | _ => []
         end.
Proof.
  intros db u p q. unfold Pg.getLikedUsers.
  rewrite pg_likePhoto_toggle, users_after_photo_write, likes_after_write.
  cbn [Pg.users Pg.likes Pg.set_likes].
  unfold Contract.like_state, toggled_rows.
  destruct (pair_state (Pg.like_of u p) Pg.l_isDeleted (Pg.likes db)).
  - rewrite select_insert. cbn [Pg.l_photoId].
    destruct (String.eqb p q); rewrite flat_map_app; simpl;
      rewrite ?app_nil_r; reflexivity.
  - rewrite flat_map_select_update by reflexivity.
    rewrite app_nil_r. reflexivity.
  - rewrite flat_map_select_update by reflexivity.
    rewrite app_nil_r. reflexivity.
Qed.

(** X19: [getLikedUsers] of PostgresStorage ignores the [isDeleted] flag.
    Whatever order the database returns the rows in: after a
    [likePhoto(u, p)] that toggles an existing pair, on or off, the answer
    for every photo holds the users it held before, so a user who has
    un-liked a photo is still listed; after a [likePhoto] on an ABSENT pair
    the answer for [p] holds the user rows of [u] in addition, and the
    answer for every other photo holds what it held. *)
Theorem pg_getLikedUsers_after_likePhoto :
  forall (db : Pg.DB) (u p q : Pg.uuid) (before after : list Pg.User),
    Pg.getLikedUsers_returns db q before ->
    Pg.getLikedUsers_returns (snd (Pg.likePhoto db u p)) q after ->
    Permutation after
      (before
       ++ match Contract.like_state db u p with
          | ABSENT =>
              if String.eqb p q then Pg.select (Pg.users db) (Pg.user_is u)
              else []
          | _ => []
          end).
Proof.
  intros db u p q before after Hb Ha.
  unfold Pg.getLikedUsers_returns in *.
  rewrite pg_liked_rows_after_likePhoto in Ha.
  apply Permutation_sym in Ha.
  apply (Permutation_trans Ha). apply Permutation_app_tail. exact Hb.
Qed.

Lemma pg_getLikedUsers_after_likePhoto_witness :
  Permutation
    [Pg.mkUser "O" "o" None "pw" None None (Some 0%Z) false]
    ([] ++ match Contract.like_state Scenario.pg_one_photo "O" "P" with
           | ABSENT =>
               if String.eqb "P" "P"
               then Pg.select (Pg.users Scenario.pg_one_photo)
                              (Pg.user_is "O")
               else []
           | _ => []
           end).
Proof.
  apply (pg_getLikedUsers_after_likePhoto Scenario.pg_one_photo
           "O" "P" "P" []
           [Pg.mkUser "O" "o" None "pw" None None (Some 0%Z) false]).
  - apply Permutation_refl.
  - apply Permutation_refl.
Defined.

(** X20: on a user that exists, [followUser(F, U)] of PostgresStorage makes
    [isFollowing(F, U)] true and [unfollowUser(F, U)] makes it false, and
    neither changes [isFollowing] of any other pair. *)
Theorem pg_isFollowing_after_follow_unfollow :
  forall (db : Pg.DB) (F U F' U' : Pg.uuid) (us : Pg.User),
    Pg.getUser db U = Some us ->
    Pg.isFollowing (snd (Pg.followUser db F U)) F' U'
    = (Pg.isFollowing db F' U' || (String.eqb F F' && String.eqb U U'))
    /\ Pg.isFollowing (snd (Pg.unfollowUser db F U)) F' U'
       = (Pg.isFollowing db F' U'
          && negb (String.eqb F F' && String.eqb U U')).
Proof.
  intros db F U F' U' us Hus. unfold Pg.getUser in Hus. split.
  - apply (pg_isFollowing_after_follow db F U us F' U' Hus).
  - apply (pg_isFollowing_after_unfollow db F U us F' U' Hus).
Qed.

Lemma pg_isFollowing_after_follow_unfollow_witness :
  Pg.isFollowing (snd (Pg.followUser Scenario.pg_two_users "F" "U")) "F" "U"
  = (Pg.isFollowing Scenario.pg_two_users "F" "U"
     || (String.eqb "F" "F" && String.eqb "U" "U"))
  /\ Pg.isFollowing (snd (Pg.unfollowUser Scenario.pg_two_users "F" "U"))
       "F" "U"
     = (Pg.isFollowing Scenario.pg_two_users "F" "U"
        && negb (String.eqb "F" "F" && String.eqb "U" "U")).
Proof.
  apply (pg_isFollowing_after_follow_unfollow Scenario.pg_two_users
           "F" "U" "F" "U"
           (Pg.mkUser "U" "u" None "pw" None None (Some 0%Z) false)).
  reflexivity.
Defined.

(** ** Notifications *)

(** X21: after [markAllNotificationsAsRead(u)] of PostgresStorage every
    notification row addressed to [u] is read, the rows addressed to other
    users are what they were, and the table has the same ids in the same
    order. *)
Theorem pg_markAll_marks_all :
  forall (db : Pg.DB) (u : Pg.uuid),
    let db' := snd (Pg.markAllNotificationsAsRead db u) in
    (forall n, In n (Pg.notifications db') ->
               Pg.n_userId n = u -> Pg.n_read n = true)
    /\ (forall u', u' <> u ->
          Pg.select (Pg.notifications db')
                    (fun n => String.eqb (Pg.n_userId n) u')
          = Pg.select (Pg.notifications db)
                      (fun n => String.eqb (Pg.n_userId n) u'))
    /\ map Pg.n_id (Pg.notifications db')
       = map Pg.n_id (Pg.notifications db).
Proof.
  intros db u db'. unfold db', Pg.markAllNotificationsAsRead.
  cbn [snd Pg.notifications Pg.set_notifications].
  split; [|split].
  - intros n Hin Hu. apply in_update in Hin. destruct Hin as [x [_ ->]].
    destruct (String.eqb (Pg.n_userId x) u) eqn:E; [reflexivity|].
    apply String.eqb_neq in E. contradiction.
  - intros u' Hne. apply select_update_untouched.
    intros r Hr. apply String.eqb_eq in Hr. simpl. rewrite Hr.
    assert (E : String.eqb u u' = false).
    { apply String.eqb_neq. congruence. }
    rewrite E. auto.
  - apply column_update. reflexivity.
Qed.

(** ** The comment counter of PostgresStorage *)

Lemma first_update_kept :
  forall (A : Type) (t : list A) g w (q : A -> bool),
    (forall r, q (g r) = q r) ->
    hd_error (Pg.select t q) <> None ->
    hd_error (Pg.select (Pg.update t g w) q) <> None.
Proof.
  intros A t g w q Hq H.
  pose proof (select_update_inv A t w g q Hq) as L.
  destruct (Pg.select t q); [contradiction|].
  destruct (Pg.select (Pg.update t g w) q); [discriminate|discriminate].
Qed.

Lemma first_insert_kept :
  forall (A : Type) (t : list A) r (q : A -> bool),
    hd_error (Pg.select t q) <> None ->
    hd_error (Pg.select (Pg.insert t r) q) <> None.
Proof.
  intros A t r q H. rewrite select_insert.
  destruct (Pg.select t q); [contradiction|discriminate].
Qed.

Lemma pg_comments_inv_same : forall db db',
  Pg.photos db' = Pg.photos db -> Pg.comments db' = Pg.comments db ->
  Contract.comments_inv db -> Contract.comments_inv db'.
Proof.
  intros db db' Hp Hc [Hcnt Href].
  unfold Contract.comments_inv, Contract.comments_in_sync,
    Contract.comment_rows, Pg.first_photo.
  rewrite Hp, Hc. split; assumption.
Qed.

Lemma pg_comments_inv_photos : forall db g w,
  (forall r, Pg.p_commentCount (g r) = Pg.p_commentCount r) ->
  (forall r, Pg.p_id (g r) = Pg.p_id r) ->
  Contract.comments_inv db ->
  Contract.comments_inv (Pg.set_photos db (Pg.update (Pg.photos db) g w)).
Proof.
  intros db g w Hcount Hid [Hcnt Href]. split.
  - intros ph Hin. unfold Contract.comment_rows. simpl in *.
    apply in_update in Hin. destruct Hin as [x [Hx ->]].
    destruct (w x); [rewrite Hcount, Hid|]; apply (Hcnt x Hx).
  - intros c Hc. unfold Pg.first_photo. simpl in *.
    apply first_update_kept; [|apply (Href c Hc)].
    intros r. unfold Pg.photo_is. rewrite Hid. reflexivity.
Qed.

Lemma pg_comments_inv_comments : forall db g w,
  (forall r, Pg.c_photoId (g r) = Pg.c_photoId r) ->
  Contract.comments_inv db ->
  Contract.comments_inv
    (Pg.set_comments db (Pg.update (Pg.comments db) g w)).
Proof.
  intros db g w Hsame [Hcnt Href]. split.
  - intros ph Hin. unfold Contract.comment_rows. simpl in *.
    rewrite select_update_inv; [apply (Hcnt ph Hin)|].
    intros r. rewrite Hsame. reflexivity.
  - intros c Hc. simpl in Hc. apply in_update in Hc.
    destruct Hc as [x [Hx ->]].
    assert (E : Pg.c_photoId (if w x then g x else x) = Pg.c_photoId x).
    { destruct (w x); [apply Hsame|reflexivity]. }
    rewrite E. apply (Href x Hx).
Qed.

Lemma pg_comments_inv_write_photo : forall db photo p d,
  Contract.comments_inv db ->
  Contract.comments_inv (snd (Pg.write_photo_likeCount db photo p d)).
Proof.
  intros db [ph|] p d Hinv; [|exact Hinv]. simpl.
  apply pg_comments_inv_photos; auto.
Qed.

Lemma pg_comments_inv_write_comment : forall db comment c d,
  Contract.comments_inv db ->
  Contract.comments_inv (snd (Pg.write_comment_likeCount db comment c d)).
Proof.
  intros db [cm|] c d Hinv; [|exact Hinv]. simpl.
  apply pg_comments_inv_comments; auto.
Qed.

Lemma pg_comments_inv_createPhoto : forall db id now userId imageUrl caption,
  Contract.comments_inv db ->
  Contract.comments_inv
    (snd (Pg.createPhoto db id now userId imageUrl caption)).
Proof.
  intros db id now userId imageUrl caption Hinv.
  unfold Pg.createPhoto.
  destruct (existsb (Pg.photo_is id) (Pg.photos db)) eqn:E; [exact Hinv|].
  destruct Hinv as [Hcnt Href]. split.
  - intros ph Hin. unfold Contract.comment_rows. simpl in *.
    unfold Pg.insert in Hin. apply in_app_iff in Hin.
    destruct Hin as [Hin|[<-|[]]]; [apply (Hcnt ph Hin)|].
    simpl. unfold Pg.select. rewrite filter_length_zero; [reflexivity|].
    intros c Hc. apply String.eqb_neq. intros Heq.
    apply (Href c Hc). rewrite Heq. unfold Pg.first_photo, Pg.select.
    rewrite filter_none; [reflexivity|exact E].
  - intros c Hc. unfold Pg.first_photo. simpl in *.
    apply first_insert_kept. apply (Href c Hc).
Qed.

Lemma pg_comments_inv_createComment :
  forall db id now userId photoId content,
    Contract.comments_inv db ->
    Pg.first_photo db photoId <> None ->
    Contract.comments_inv
      (snd (Pg.createComment db id now userId photoId content)).
Proof.
  intros db id now userId photoId content Hinv Hph.
  unfold Pg.createComment.
  destruct (existsb (Pg.comment_is id) (Pg.comments db)); [exact Hinv|].
  destruct Hinv as [Hcnt Href].
  set (comment := Pg.mkComment id userId photoId content (Some 0%Z) now
                               false).
  set (db1 := Pg.set_comments db (Pg.insert (Pg.comments db) comment)).
  assert (E1 : Pg.first_photo db1 photoId = Pg.first_photo db photoId)
    by reflexivity.
  rewrite E1.
  destruct (Pg.first_photo db photoId) as [ph|] eqn:E; [|contradiction].
  simpl. pose proof E as E'.
  apply first_some_in in E. destruct E as [Hin Hid].
  apply String.eqb_eq in Hid.
  assert (Hrows : forall k,
    List.length
      (Pg.select (Pg.insert (Pg.comments db) comment)
                 (fun c => String.eqb (Pg.c_photoId c) k))
    = Contract.comment_rows db k
      + (if String.eqb photoId k then 1 else 0)).
  { intros k. rewrite select_insert, length_app. simpl.
    destruct (String.eqb photoId k); reflexivity. }
  split.
  - intros x Hx. unfold Contract.comment_rows. simpl in *.
    rewrite Hrows.
    apply in_update in Hx. destruct Hx as [y [Hy ->]].
    unfold Pg.photo_is.
    destruct (String.eqb (Pg.p_id y) photoId) eqn:Ey; simpl.
    + apply String.eqb_eq in Ey. rewrite Ey, String.eqb_refl.
      rewrite (Hcnt ph Hin), Hid. unfold js_add. simpl.
      f_equal. lia.
    + rewrite String.eqb_sym, Ey, Nat.add_0_r. apply (Hcnt y Hy).
  - intros c Hc. unfold Pg.first_photo. simpl in *.
    apply first_update_kept; [intros r; reflexivity|].
    unfold Pg.insert in Hc. apply in_app_iff in Hc.
    destruct Hc as [Hc|[<-|[]]]; [apply (Href c Hc)|].
    change (Pg.first_photo db photoId <> None). rewrite E'. discriminate.
Qed.

Lemma pg_step_comments_inv : forall db o,
  Contract.comments_inv db ->
  Contract.comments_on_photos db [o] = true ->
  Contract.comments_inv (Pg.step db o).
Proof.
  intros db o Hinv Hok.
  destruct o; simpl in Hok |- *.
  - unfold Pg.createUser. destruct (existsb _ _); [exact Hinv|].
    apply (pg_comments_inv_same db); auto.
  - apply (pg_comments_inv_same db); auto.
  - apply pg_comments_inv_createPhoto. exact Hinv.
  - unfold Pg.likePhoto.
    destruct (_ =? 0); [|destruct (_ && _)];
      apply pg_comments_inv_write_photo;
      apply (pg_comments_inv_same db); auto.
  - unfold Pg.followUser, Pg.write_user_followerCount.
    destruct (negb _); destruct (Pg.first_user db followingId);
      simpl; apply (pg_comments_inv_same db); auto.
  - unfold Pg.unfollowUser, Pg.write_user_followerCount.
    destruct (Pg.first_user db followingId);
      simpl; apply (pg_comments_inv_same db); auto.
  - apply pg_comments_inv_createComment; [exact Hinv|].
    destruct (Pg.first_photo db photoId); [discriminate|discriminate].
  - unfold Pg.likeComment.
    destruct (_ =? 0); [|destruct (_ && _)];
      apply pg_comments_inv_write_comment;
      apply (pg_comments_inv_same db); auto.
  - apply (pg_comments_inv_same db); auto.
  - unfold Pg.createNotification. destruct (existsb _ _); [exact Hinv|].
    apply (pg_comments_inv_same db); auto.
  - apply (pg_comments_inv_same db); auto.
  - apply (pg_comments_inv_same db); auto.
Qed.

Lemma pg_run_comments_inv : forall ops db,
  Contract.comments_inv db ->
  Contract.comments_on_photos db ops = true ->
  Contract.comments_inv (Pg.run db ops).
Proof.
  induction ops as [|o ops IH]; intros db Hinv Hok; simpl; [exact Hinv|].
  simpl in Hok. apply andb_true_iff in Hok. destruct Hok as [Ho Hok].
  apply IH; [|exact Hok]. apply pg_step_comments_inv; [exact Hinv|].
  simpl. rewrite Ho. reflexivity.
Qed.

(** X22: the comment counter of PostgresStorage.  After any sequence of
    interface operations on the empty database in which every
    [createComment] names a photo that has a row at that moment, the
    [commentCount] of every photo row equals the number of comment rows
    stored for that photo. *)
Theorem pg_commentCount_counts_comments :
  forall (ops : list Pg.Op),
    Contract.comments_on_photos Pg.empty ops = true ->
    Contract.comments_in_sync (Pg.run Pg.empty ops).
Proof.
  intros ops Hok.
  assert (H0 : Contract.comments_inv Pg.empty).
  { split; [intros ph []|intros c []]. }
  destruct (pg_run_comments_inv ops _ H0 Hok) as [Hcnt _].
  exact Hcnt.
Qed.

Lemma pg_commentCount_counts_comments_witness :
  Contract.comments_in_sync
    (Pg.run Pg.empty
       [Pg.CreateUser "O" "o" "pw"; Pg.CreatePhoto "P" 0 "O" "img" None;
        Pg.CreateComment "C" 0 "O" "P" "hi"; Pg.LikePhoto "O" "P";
        Pg.CreatePhoto "Q" 1 "O" "img" None;
        Pg.CreateComment "D" 1 "O" "Q" "x";
        Pg.CreateComment "E" 2 "O" "P" "y"; Pg.LikeComment "O" "C"]).
Proof.
  apply (pg_commentCount_counts_comments
           [Pg.CreateUser "O" "o" "pw"; Pg.CreatePhoto "P" 0 "O" "img" None;
            Pg.CreateComment "C" 0 "O" "P" "hi"; Pg.LikePhoto "O" "P";
            Pg.CreatePhoto "Q" 1 "O" "img" None;
            Pg.CreateComment "D" 1 "O" "Q" "x";
            Pg.CreateComment "E" 2 "O" "P" "y"; Pg.LikeComment "O" "C"]).
  reflexivity.
Defined.

(** Without that condition the call throws after its insert, and the row
    it leaves behind is never counted. *)
Example pg_early_comment_not_counted :
  let db := Pg.run Pg.empty
              [Pg.CreateComment "C" 0 "O" "P" "x";
               Pg.CreatePhoto "P" 1 "O" "img" None] in
  option_map Pg.p_commentCount (Pg.first_photo db "P") = Some (Some 0%Z)
  /\ Contract.comment_rows db "P" = 1.
Proof. split; reflexivity. Qed.

(** ** The followers list *)

Lemma map_of_flat_map :
  forall (A B C : Type) (h : B -> C) (f : A -> list B) (l : list A),
    map h (flat_map f l) = flat_map (fun x => map h (f x)) l.
Proof.
  intros A B C h f l. induction l as [|x l IH]; simpl; [reflexivity|].
  rewrite map_app, IH. reflexivity.
Qed.

Lemma ids_select_update : forall (t : list Pg.User) g w x,
  (forall r, Pg.u_id (g r) = Pg.u_id r) ->
  map Pg.u_id (Pg.select (Pg.update t g w) (Pg.user_is x))
  = map Pg.u_id (Pg.select t (Pg.user_is x)).
Proof.
  intros t g w x Hid. unfold Pg.select, Pg.update, Pg.user_is.
  induction t as [|r t IH]; simpl; [reflexivity|].
  destruct (w r); [rewrite Hid|]; destruct (String.eqb (Pg.u_id r) x);
    simpl; rewrite ?Hid, IH; reflexivity.
Qed.

Lemma follower_ids_after_count : forall db user U d q,
  map Pg.u_id
    (Pg.getFollowers (snd (Pg.write_user_followerCount db user U d)) q)
  = map Pg.u_id (Pg.getFollowers db q).
Proof.
  intros db [us|] U d q; [|reflexivity].
  unfold Pg.getFollowers. simpl. rewrite !map_of_flat_map.
  apply flat_map_ext. intros f. apply ids_select_update. reflexivity.
Qed.

(** The ids in the rows of the join after the two calls, in table order. *)
Lemma pg_follower_ids_after_follow_unfollow :
  forall (db : Pg.DB) (F U q : Pg.uuid),
    map Pg.u_id (Pg.getFollowers (snd (Pg.unfollowUser db F U)) q)
    = map Pg.u_id (Pg.getFollowers db q)
    /\ map Pg.u_id (Pg.getFollowers (snd (Pg.followUser db F U)) q)
       = map Pg.u_id (Pg.getFollowers db q)
         ++ (if (List.length (Pg.select (Pg.follows db) (Pg.follow_of F U))
                 =? 0) && String.eqb U q
             then map Pg.u_id (Pg.select (Pg.users db) (Pg.user_is F))
             else []).
Proof.
  intros db F U q.
  assert (Hupd : forall db1 b w,
    map Pg.u_id
      (Pg.getFollowers
         (Pg.set_follows db1
            (Pg.update (Pg.follows db1) (Pg.with_f_isDeleted b) w)) q)
    = map Pg.u_id (Pg.getFollowers db1 q)).
  { intros db1 b w. unfold Pg.getFollowers. simpl.
    rewrite flat_map_select_update by reflexivity. reflexivity. }
  split.
  - unfold Pg.unfollowUser.
    pose proof (follower_ids_after_count db (Pg.first_user db U) U (-1) q)
      as Hc.
    destruct (Pg.write_user_followerCount db (Pg.first_user db U) U (-1))
      as [[[]|e] db1]; simpl in *; rewrite ?Hupd; exact Hc.
  - unfold Pg.followUser.
    destruct (List.length (Pg.select (Pg.follows db) (Pg.follow_of F U))
              =? 0) eqn:R; cbn [negb andb].
    + rewrite follower_ids_after_count.
      unfold Pg.getFollowers. simpl. rewrite select_insert. simpl.
      rewrite flat_map_app, map_app. f_equal.
      destruct (String.eqb U q); simpl; rewrite ?app_nil_r; reflexivity.
    + rewrite app_nil_r.
      pose proof (follower_ids_after_count db (Pg.first_user db U) U 1 q)
        as Hc.
      destruct (Pg.write_user_followerCount db (Pg.first_user db U) U 1)
        as [[[]|e] db1]; simpl in *; rewrite ?Hupd; exact Hc.
Qed.

(** X24: [getFollowers] of PostgresStorage ignores the [isDeleted] flag.
    Whatever order the database returns the rows in: after [unfollowUser]
    the answer for every user holds the ids it held before, so a user who
    has unfollowed is still listed; after [followUser(F, U)] the answer for
    [U] holds the ids of the user rows of [F] in addition when no Follow
    row of the pair existed, also when [U] has no row and the call throws,
    and every other answer holds the ids it held. *)
Theorem pg_getFollowers_after_follow_unfollow :
  forall (db : Pg.DB) (F U q : Pg.uuid)
         (before after_unfollow after_follow : list Pg.User),
    Pg.getFollowers_returns db q before ->
    Pg.getFollowers_returns (snd (Pg.unfollowUser db F U)) q
                            after_unfollow ->
    Pg.getFollowers_returns (snd (Pg.followUser db F U)) q after_follow ->
    Permutation (map Pg.u_id after_unfollow) (map Pg.u_id before)
    /\ Permutation (map Pg.u_id after_follow)
         (map Pg.u_id before
          ++ (if (List.length
                    (Pg.select (Pg.follows db) (Pg.follow_of F U)) =? 0)
                 && String.eqb U q
              then map Pg.u_id (Pg.select (Pg.users db) (Pg.user_is F))
              else [])).
Proof.
  intros db F U q before after_unfollow after_follow Hb Hu Hf.
  unfold Pg.getFollowers_returns in *.
  destruct (pg_follower_ids_after_follow_unfollow db F U q) as [Eu Ef].
  apply (Permutation_map Pg.u_id) in Hb, Hu, Hf.
  rewrite Eu in Hu. rewrite Ef in Hf. split.
  - apply Permutation_sym in Hu. apply (Permutation_trans Hu). exact Hb.
  - apply Permutation_sym in Hf. apply (Permutation_trans Hf).
    apply Permutation_app_tail. exact Hb.
Qed.

Lemma pg_getFollowers_after_follow_unfollow_witness :
  Permutation (map Pg.u_id []) (map Pg.u_id [])
  /\ Permutation
       (map Pg.u_id
            [Pg.mkUser "F" "f" None "pw" None None (Some 0%Z) false])
       (map Pg.u_id []
        ++ (if (List.length
                  (Pg.select (Pg.follows Scenario.pg_two_users)
                             (Pg.follow_of "F" "U")) =? 0)
               && String.eqb "U" "U"
            then map Pg.u_id
                     (Pg.select (Pg.users Scenario.pg_two_users)
                                (Pg.user_is "F"))
            else [])).
Proof.
  apply (pg_getFollowers_after_follow_unfollow Scenario.pg_two_users
           "F" "U" "U" [] []
           [Pg.mkUser "F" "f" None "pw" None None (Some 0%Z) false]).
  - apply Permutation_refl.
  - apply Permutation_refl.
  - apply Permutation_refl.
Defined.
